(** * Ledger, receipts and provisioning of the VPN bot

    A shallow embedding of [wallet_manager.py], [mikrotik_manager.py] and the
    handlers of [bot_handler.py], [user_features.py] and [admin_panel.py]
    that move money, decide receipts, and create, renew or delete
    subscriptions.

    Conventions of the model.
    - [Float] columns (balances, prices, amounts) are exact integers: the
      rounding of binary floating point is outside the model.
    - A [DateTime] is an integer number of microseconds; [timedelta(days=d)]
      is [d * 86400000000].
    - A table is a finite map from the primary key to the row; the
      [transactions] table, which is only ever appended to, is a list.
    - What the environment decides (the clock, whether a commit or a router
      call raises, the random password) is read from oracles carried by the
      [world].
    - Handlers run one at a time. The attributes of a row stay readable after
      the commit of its session.
    - The [w_trace] of a world lists, in order, the calls sent to a router, the
      commits that went through and the messages that tell the user an
      outcome; a message is its constructor and the values it shows. *)

From Stdlib Require Import ZArith Lia Ascii.
From stdpp Require Import gmap strings list pretty.

Open Scope Z_scope.

(** ** models.py *)

Record User := mkUser {
  telegram_id : Z;
  username : string;
  full_name : string;
  wallet_balance : Z }.

Record Server := mkServer {
  server_name : string;
  server_host : string;
  server_port : Z;
  server_username : string;
  server_password : string }.

Record Profile := mkProfile {
  profile_name : string;
  profile_version : Z;
  price : Z;
  validity_days : Z;
  data_limit_gb : Z;
  profile_server_id : Z;
  profile_is_active : bool }.

Record Subscription := mkSubscription {
  sub_user_id : Z;
  sub_server_id : Z;
  sub_profile_id : Z;
  mikrotik_username : string;
  mikrotik_password : string;
  expiry_date : Z;
  total_limit_bytes : Z }.

Record Transaction := mkTransaction {
  txn_user_id : Z;
  amount : Z;
  txn_type : string;
  description : string }.

Record PaymentReceipt := mkPaymentReceipt {
  receipt_user_id : Z;
  receipt_amount : Z;
  receipt_file_id : string;
  status : string;
  admin_note : option string }.

Record database := mkDatabase {
  users : gmap Z User;
  servers : gmap Z Server;
  profiles : gmap Z Profile;
  subscriptions : gmap Z Subscription;
  transactions : list Transaction;
  payment_receipts : gmap Z PaymentReceipt }.

(** The rows of a table in key order, and the first row a query keeps. *)
Definition select_first {A} (P : Z → A → bool) (t : gmap Z A) : option (Z * A) :=
  find (λ kv, P kv.1 kv.2) (map_to_list t).

(** The key an autoincrement primary key gives the next row. *)
Definition next_id {A} (t : gmap Z A) : Z :=
  1 + foldr Z.max 0 (fst <$> map_to_list t).

Definition set_users (f : gmap Z User → gmap Z User) (d : database) : database :=
  mkDatabase (f (users d)) (servers d) (profiles d) (subscriptions d)
             (transactions d) (payment_receipts d).

Definition set_subscriptions (f : gmap Z Subscription → gmap Z Subscription)
    (d : database) : database :=
  mkDatabase (users d) (servers d) (profiles d) (f (subscriptions d))
             (transactions d) (payment_receipts d).

Definition set_receipts (f : gmap Z PaymentReceipt → gmap Z PaymentReceipt)
    (d : database) : database :=
  mkDatabase (users d) (servers d) (profiles d) (subscriptions d)
             (transactions d) (f (payment_receipts d)).

(** [session.add(txn)]: the row goes to the end of the table. *)
Definition add_transaction (t : Transaction) (d : database) : database :=
  mkDatabase (users d) (servers d) (profiles d) (subscriptions d)
             (transactions d ++ [t]) (payment_receipts d).

(** Writing one attribute of a loaded row: only that column of that row is
    updated when the session commits. *)
Definition set_wallet_balance (uid b : Z) : database → database :=
  set_users (alter (λ u, mkUser (telegram_id u) (username u) (full_name u) b) uid).

Definition set_expiry_date (sid e : Z) : database → database :=
  set_subscriptions
    (alter (λ s, mkSubscription (sub_user_id s) (sub_server_id s) (sub_profile_id s)
                   (mikrotik_username s) (mikrotik_password s) e
                   (total_limit_bytes s)) sid).

Definition set_receipt_decision (rid : Z) (st note : string) : database → database :=
  set_receipts
    (alter (λ r, mkPaymentReceipt (receipt_user_id r) (receipt_amount r)
                   (receipt_file_id r) st (Some note)) rid).

(** ** The router: RouterOS User Manager tables *)

Record um_user := mkUmUser {
  uu_id : Z;
  uu_name : string;
  uu_password : string;
  uu_disabled : bool;
  uu_download_used : Z;
  uu_upload_used : Z }.

Record um_user_profile := mkUmUserProfile {
  up_id : Z;
  up_user : string;
  up_profile : string }.

Record um_session := mkUmSession {
  se_id : Z;
  se_user : string;
  se_active : bool;
  se_address : string }.

Record um_limitation := mkUmLimitation {
  li_id : Z;
  li_name : string;
  li_total_limit : Z }.

Record router := mkRouter {
  um_users : list um_user;
  um_user_profiles : list um_user_profile;
  um_sessions : list um_session;
  um_limitations : list um_limitation;
  um_next_id : Z }.

(** ** The world a handler runs in *)

Inductive reply :=
  | ReplyInsufficientFunds
  | ReplyWelcome (balance : Z) (active_subs : nat)
  | ReplyWalletMenu (balance : Z)
  | ReplyTechnicalError
  | ReplyPurchaseSuccessful (uname pass : string) (expiry : Z)
  | ReplyConfigFiles (uname pass : string)
  | ReplyUserNotFound
  | ReplySubscriptionNotFound
  | ReplyPlanNoLongerAvailable
  | ReplyInsufficientBalance (plan : string) (plan_price needed : Z)
  | ReplyRenewConfirm (plan : string) (days gb plan_price new_expiry : Z)
  | ReplyPaymentFailed
  | ReplyRenewalSuccessful (plan : string) (new_expiry gb : Z)
  | ReplyBalanceUpdated (uname : string) (new_balance : Z)
  | ReplyInvalidAmount
  | ReplyDeleted (uname : string)
  | ReplyDeleteFailedMikroTik
  | ReplyDeleteCancelled.

Inductive event :=
  | EvApi (host path verb : string)
  | EvCommit
  | EvReply (r : reply).

(** The [MikroTikManager] object in scope: its host and whether [self.api]
    is set. *)
Record manager := mkManager {
  mgr_host : string;
  mgr_api : bool }.

Record world := mkWorld {
  w_db : database;
  w_routers : gmap string router;
  w_mgr : manager;
  w_config_host : string;
  w_clock : Z;
  w_ticks : list N;
  w_db_faults : list bool;
  w_api_faults : list bool;
  w_random : list string;
  w_trace : list event }.

Inductive exn :=
  | DbError | ApiError | AttributeError | ValueError
  | NameError | TypeError | OverflowError | IndexError.

Inductive res (A : Type) :=
  | Ret (a : A)
  | Exc (e : exn).
Arguments Ret {A} a.
Arguments Exc {A} e.

Definition M (A : Type) : Type := world → res A * world.

Definition ret {A} (a : A) : M A := λ w, (Ret a, w).

Definition bind {A B} (m : M A) (k : A → M B) : M B := λ w,
  match m w with
  | (Ret a, w') => k a w'
  | (Exc e, w') => (Exc e, w')
  end.

Definition raise {A} (e : exn) : M A := λ w, (Exc e, w).

(** [try: m except Exception: h] *)
Definition try_except {A} (m : M A) (h : M A) : M A := λ w,
  match m w with
  | (Ret a, w') => (Ret a, w')
  | (Exc _, w') => h w'
  end.

(** [x ← m; k] and [m;; k] are stdpp's notations for [mbind]. *)
#[global] Instance M_ret : MRet M := @ret.
#[global] Instance M_bind : MBind M := λ A B k m, bind m k.

Definition gets {A} (f : world → A) : M A := λ w, (Ret (f w), w).

(** Dereferencing the result of [.first()] or [session.get]: an attribute
    of [None] raises. *)
Definition deref {A} (o : option A) : M A :=
  match o with
  | Some a => ret a
  | None => raise AttributeError
  end.

Definition with_db (d : database) (w : world) : world :=
  mkWorld d (w_routers w) (w_mgr w) (w_config_host w) (w_clock w) (w_ticks w)
          (w_db_faults w) (w_api_faults w) (w_random w) (w_trace w).

Definition with_routers (r : gmap string router) (w : world) : world :=
  mkWorld (w_db w) r (w_mgr w) (w_config_host w) (w_clock w) (w_ticks w)
          (w_db_faults w) (w_api_faults w) (w_random w) (w_trace w).

Definition with_mgr (m : manager) (w : world) : world :=
  mkWorld (w_db w) (w_routers w) m (w_config_host w) (w_clock w) (w_ticks w)
          (w_db_faults w) (w_api_faults w) (w_random w) (w_trace w).

Definition with_clock (c : Z) (t : list N) (w : world) : world :=
  mkWorld (w_db w) (w_routers w) (w_mgr w) (w_config_host w) c t
          (w_db_faults w) (w_api_faults w) (w_random w) (w_trace w).

Definition with_db_faults (f : list bool) (w : world) : world :=
  mkWorld (w_db w) (w_routers w) (w_mgr w) (w_config_host w) (w_clock w) (w_ticks w)
          f (w_api_faults w) (w_random w) (w_trace w).

Definition with_api_faults (f : list bool) (w : world) : world :=
  mkWorld (w_db w) (w_routers w) (w_mgr w) (w_config_host w) (w_clock w) (w_ticks w)
          (w_db_faults w) f (w_random w) (w_trace w).

Definition with_random (r : list string) (w : world) : world :=
  mkWorld (w_db w) (w_routers w) (w_mgr w) (w_config_host w) (w_clock w) (w_ticks w)
          (w_db_faults w) (w_api_faults w) r (w_trace w).

Definition log (e : event) (w : world) : world :=
  mkWorld (w_db w) (w_routers w) (w_mgr w) (w_config_host w) (w_clock w) (w_ticks w)
          (w_db_faults w) (w_api_faults w) (w_random w) (w_trace w ++ [e]).

(** A message sent to the chat. *)
Definition send (r : reply) : M unit := λ w, (Ret tt, log (EvReply r) w).

(** [datetime.now()]: the clock has advanced by the next tick. *)
Definition datetime_now : M Z := λ w,
  let c := w_clock w + Z.of_N (hd 0%N (w_ticks w)) in
  (Ret c, with_clock c (tl (w_ticks w)) w).

Definition timedelta_days (d : Z) : Z := d * 86400000000.

(** [random.choices(...)] joined into a string. *)
Definition random_string : M string := λ w,
  (Ret (hd EmptyString (w_random w)), with_random (tl (w_random w)) w).

(** [session.commit()]: the pending changes [upd] of the session are written
    together, or the commit raises and none of them is. *)
Definition commit (upd : database → database) : M unit := λ w,
  let w1 := with_db_faults (tl (w_db_faults w)) w in
  if hd false (w_db_faults w)
  then (Exc DbError, w1)
  else (Ret tt, log EvCommit (with_db (upd (w_db w)) w1)).

(** A constraint of the schema checked when the pending rows are flushed. *)
Definition integrity (check : database → bool) : M unit := λ w,
  if check (w_db w) then (Ret tt, w) else (Exc DbError, w).

(** [for x in l: f x] *)
Fixpoint for_each {A} (l : list A) (f : A → M unit) : M unit :=
  match l with
  | [] => ret tt
  | x :: l' => f x;; for_each l' f
  end.

(** ** wallet_manager.py *)

Module WalletManager.

(** Add funds to user wallet. *)
Definition deposit (user_id amount : Z) (description : string) : M bool :=
  try_except
    (user ← gets (λ w, users (w_db w) !! user_id);
     match user with
     | None => ret false
     | Some u =>
         commit (λ d,
           add_transaction (mkTransaction user_id amount "deposit" description)
             (set_wallet_balance user_id (wallet_balance u + amount) d));;
         ret true
     end)
    (ret false).

(** Deduct funds from user wallet. *)
Definition deduct (user_id amount : Z) (description : string) : M bool :=
  try_except
    (user ← gets (λ w, users (w_db w) !! user_id);
     match user with
     | None => ret false
     | Some u =>
         if wallet_balance u <? amount then ret false
         else
           commit (λ d,
             add_transaction (mkTransaction user_id (- amount) "purchase" description)
               (set_wallet_balance user_id (wallet_balance u - amount) d));;
           ret true
     end)
    (ret false).

(** Approve receipt and credit user: the receipt is committed first, the
    deposit then runs in a session of its own. *)
Definition approve_receipt (receipt_id admin_id : Z) : M bool :=
  try_except
    (receipt ← gets (λ w, payment_receipts (w_db w) !! receipt_id);
     match receipt with
     | None => ret false
     | Some r =>
         if bool_decide (status r ≠ "pending") then ret false
         else
           commit (set_receipt_decision receipt_id "approved"
                     ("Approved by " +:+ pretty admin_id));;
           deposit (receipt_user_id r) (receipt_amount r)
                   ("Receipt #" +:+ pretty receipt_id)
     end)
    (ret false).

(** Reject receipt. *)
Definition reject_receipt (receipt_id admin_id : Z) (reason : string) : M bool :=
  try_except
    (receipt ← gets (λ w, payment_receipts (w_db w) !! receipt_id);
     match receipt with
     | None => ret false
     | Some r =>
         commit (set_receipt_decision receipt_id "rejected"
                   ("Rejected by " +:+ pretty admin_id +:+ ": " +:+ reason));;
         ret true
     end)
    (ret false).

End WalletManager.

(** ** mikrotik_manager.py *)

(** What the router does with one call that reaches it. *)
Module Ros.

Definition users_get (n : string) (r : router) : list um_user * router :=
  (filter (λ u, uu_name u = n) (um_users r), r).

Definition users_add (n pw : string) (r : router) : unit * router :=
  (tt, mkRouter (um_users r ++ [mkUmUser (um_next_id r) n pw false 0 0])
         (um_user_profiles r) (um_sessions r) (um_limitations r) (um_next_id r + 1)).

Definition users_set (i : Z) (f : um_user → um_user) (r : router) : unit * router :=
  (tt, mkRouter ((λ u, if bool_decide (uu_id u = i) then f u else u) <$> um_users r)
         (um_user_profiles r) (um_sessions r) (um_limitations r) (um_next_id r)).

Definition users_remove (i : Z) (r : router) : unit * router :=
  (tt, mkRouter (filter (λ u, uu_id u ≠ i) (um_users r))
         (um_user_profiles r) (um_sessions r) (um_limitations r) (um_next_id r)).

Definition user_profiles_get (n : string) (r : router) : list um_user_profile * router :=
  (filter (λ p, up_user p = n) (um_user_profiles r), r).

Definition user_profiles_add (n prof : string) (r : router) : unit * router :=
  (tt, mkRouter (um_users r)
         (um_user_profiles r ++ [mkUmUserProfile (um_next_id r) n prof])
         (um_sessions r) (um_limitations r) (um_next_id r + 1)).

Definition user_profiles_remove (i : Z) (r : router) : unit * router :=
  (tt, mkRouter (um_users r) (filter (λ p, up_id p ≠ i) (um_user_profiles r))
         (um_sessions r) (um_limitations r) (um_next_id r)).

Definition sessions_get_active (n : string) (r : router) : list um_session * router :=
  (filter (λ s, se_user s = n ∧ se_active s = true) (um_sessions r), r).

Definition sessions_remove (i : Z) (r : router) : unit * router :=
  (tt, mkRouter (um_users r) (um_user_profiles r)
         (filter (λ s, se_id s ≠ i) (um_sessions r)) (um_limitations r) (um_next_id r)).

Definition limitations_get (n : string) (r : router) : list um_limitation * router :=
  (filter (λ l, li_name l = n) (um_limitations r), r).

Definition limitations_set_total (i t : Z) (r : router) : unit * router :=
  (tt, mkRouter (um_users r) (um_user_profiles r) (um_sessions r)
         ((λ l, if bool_decide (li_id l = i) then mkUmLimitation (li_id l) (li_name l) t
                else l) <$> um_limitations r) (um_next_id r)).

End Ros.

Record user_info := mkUserInfo {
  ui_username : string;
  ui_password : string;
  ui_used_bytes : Z;
  ui_status : string;
  ui_is_active : bool;
  ui_connected_devices : nat;
  ui_current_ip : option string }.

Module MikroTikManager.

(** [MikroTikManager(host=...)]: [self.host = host or config.MIKROTIK_HOST]. *)
Definition init (host : option string) : M unit := λ w,
  let h := match host with
           | Some h => if bool_decide (h = EmptyString) then w_config_host w else h
           | None => w_config_host w
           end in
  (Ret tt, with_mgr (mkManager h false) w).

(** One round trip to the router of the manager: it raises when the oracle
    says so or when no router answers at the host. *)
Definition call {A} (path verb : string) (f : router → A * router) : M A := λ w,
  let h := mgr_host (w_mgr w) in
  let w1 := log (EvApi h path verb) (with_api_faults (tl (w_api_faults w)) w) in
  if hd false (w_api_faults w) then (Exc ApiError, w1)
  else match w_routers w !! h with
       | None => (Exc ApiError, w1)
       | Some r => let '(a, r') := f r in (Ret a, with_routers (<[h := r']> (w_routers w)) w1)
       end.

Definition set_api : M unit := λ w,
  (Ret tt, with_mgr (mkManager (mgr_host (w_mgr w)) true) w).

(** Establish connection to MikroTik router. *)
Definition connect : M unit :=
  call EmptyString "connect" (λ r, (tt, r));;
  set_api.

(** Helper to get a resource API object. *)
Definition _get_resource (path : string) : M string :=
  api ← gets (λ w, mgr_api (w_mgr w));
  (if (api : bool) then ret tt else connect);;
  ret path.

(** Create a user in User Manager v7 and assign a profile. *)
Definition create_user (uname password profile_name : string) : M bool :=
  try_except
    (user_api ← _get_resource "/user-manager/user";
     user_prof_api ← _get_resource "/user-manager/user-profile";
     call user_api "add" (Ros.users_add uname password);;
     call user_prof_api "add" (Ros.user_profiles_add uname profile_name);;
     ret true)
    (ret false).

(** Fetch user usage and status from User Manager v7. *)
Definition get_user_info (uname : string) : M (option user_info) :=
  try_except
    (user_api ← _get_resource "/user-manager/user";
     found ← call user_api "get" (Ros.users_get uname);
     match found with
     | [] => ret None
     | user :: _ =>
         session_api ← _get_resource "/user-manager/session";
         sessions ← call session_api "get" (Ros.sessions_get_active uname);
         ret (Some (mkUserInfo uname (uu_password user)
                      (uu_download_used user + uu_upload_used user)
                      (if uu_disabled user then "banned" else "active")
                      (negb (uu_disabled user))
                      (length sessions)
                      (se_address <$> head sessions)))
     end)
    (ret None).

Definition add_data_to_user (uname : string) (additional_gb : Z) : M bool :=
  try_except
    (lim_api ← _get_resource "/user-manager/limitation";
     lims ← call lim_api "get" (Ros.limitations_get uname);
     match lims with
     | l :: _ =>
         call lim_api "set"
           (Ros.limitations_set_total (li_id l)
              (li_total_limit l + additional_gb * 1024 ^ 3));;
         ret true
     | [] => ret false
     end)
    (ret false).

Definition disconnect_user_session (uname : string) : M bool :=
  try_except
    (session_api ← _get_resource "/user-manager/session";
     sessions ← call session_api "get" (Ros.sessions_get_active uname);
     for_each sessions (λ s, call session_api "remove" (Ros.sessions_remove (se_id s)));;
     ret true)
    (ret false).

Definition enable_user (uname : string) : M bool :=
  try_except
    (user_api ← _get_resource "/user-manager/user";
     found ← call user_api "get" (Ros.users_get uname);
     match found with
     | u :: _ =>
         call user_api "set"
           (Ros.users_set (uu_id u)
              (λ x, mkUmUser (uu_id x) (uu_name x) (uu_password x) false
                      (uu_download_used x) (uu_upload_used x)))
     | [] => ret tt
     end;;
     ret true)
    (ret false).

(** Re-assigns the profile the user already has. *)
Definition extend_validity (uname : string) (additional_days : Z) : M bool :=
  try_except
    (up_api ← _get_resource "/user-manager/user-profile";
     ups ← call up_api "get" (Ros.user_profiles_get uname);
     match ups with
     | p :: _ =>
         call up_api "add" (Ros.user_profiles_add uname (up_profile p));;
         ret true
     | [] => ret false
     end)
    (ret false).

Definition delete_user (uname : string) : M bool :=
  try_except
    (disconnect_user_session uname;;
     user_api ← _get_resource "/user-manager/user";
     found ← call user_api "get" (Ros.users_get uname);
     match found with
     | u :: _ => call user_api "remove" (Ros.users_remove (uu_id u))
     | [] => ret tt
     end;;
     up_api ← _get_resource "/user-manager/user-profile";
     ups ← call up_api "get" (Ros.user_profiles_get uname);
     for_each ups (λ p, call up_api "remove" (Ros.user_profiles_remove (up_id p)));;
     ret true)
    (ret false).

End MikroTikManager.

(** ** Strings of the handlers *)

(** [s[-n:]] *)
Definition last_chars (n : nat) (s : string) : string :=
  String.substring (String.length s - n)%nat n s.

(** [s.split('_v')[0]] *)
Fixpoint before_v (s : string) : string :=
  match s with
  | EmptyString => EmptyString
  | String c s' => if String.prefix "_v" s then EmptyString else String c (before_v s')
  end.

Definition lower (c : Ascii.ascii) : Ascii.ascii :=
  let n := Ascii.N_of_ascii c in
  if ((65 <=? n) && (n <=? 90))%N then Ascii.ascii_of_N (n + 32) else c.

(** SQL [LIKE]: [%] stands for any run of characters and [_] for any one
    character; letters compare without case, as in SQLite, the default
    [DATABASE_URL]. *)
Fixpoint like (pat s : string) : bool :=
  match pat with
  | EmptyString => match s with EmptyString => true | _ => false end
  | String "%"%char pat' =>
      (fix skip (s : string) : bool :=
         like pat' s || match s with
                        | EmptyString => false
                        | String _ s' => skip s'
                        end) s
  | String "_"%char pat' =>
      match s with
      | EmptyString => false
      | String _ s' => like pat' s'
      end
  | String c pat' =>
      match s with
      | EmptyString => false
      | String d s' => bool_decide (lower c = lower d) && like pat' s'
      end
  end.

(** The sender of an update. *)
Record tg_user := mkTgUser {
  tg_id : Z;
  tg_username : string;
  tg_full_name : string }.

Definition user_by_telegram_id (tid : Z) (d : database) : option (Z * User) :=
  select_first (λ _ u, bool_decide (telegram_id u = tid)) (users d).

Definition subscription_by_username (uname : string) (d : database)
    : option (Z * Subscription) :=
  select_first (λ _ s, bool_decide (mikrotik_username s = uname)) (subscriptions d).

(** [session.add(sub)]: [mikrotik_username] is a unique column. *)
Definition username_is_free (uname : string) (d : database) : bool :=
  bool_decide (subscription_by_username uname d = None).

Definition add_subscription (s : Subscription) : database → database :=
  set_subscriptions (λ t, <[next_id t := s]> t).

(** ** bot_handler.py *)

Module bot_handler.

(** User Entry Point. *)
Definition start (sender : tg_user) : M unit :=
  db_user ← gets (λ w, user_by_telegram_id (tg_id sender) (w_db w));
  row ← match db_user with
        | Some row => ret row
        | None =>
            let new_user := mkUser (tg_id sender) (tg_username sender)
                              (tg_full_name sender) 0 in
            uid ← gets (λ w, next_id (users (w_db w)));
            commit (set_users (insert uid new_user));;
            ret (uid, new_user)
        end;
  active_subs ← gets (λ w,
    length (filter (λ kv, sub_user_id kv.2 = row.1)
                   (map_to_list (subscriptions (w_db w)))));
  send (ReplyWelcome (wallet_balance row.2) active_subs).

Definition wallet_menu (sender : tg_user) : M unit :=
  user ← gets (λ w, user_by_telegram_id (tg_id sender) (w_db w));
  send (ReplyWalletMenu match user with
                        | Some row => wallet_balance row.2
                        | None => 0
                        end).

(** The confirmation step of a purchase; [data] is [query.data] and
    [selected_profile_id] the entry of [context.user_data]. *)
Definition process_purchase_flow (data : string) (sender : tg_user)
    (selected_profile_id : option Z) : M unit :=
  if bool_decide (data = "wallet_menu") then wallet_menu sender
  else if bool_decide (data = "confirm_pay") then
    profile ← gets (λ w, pid ← selected_profile_id;
                         p ← profiles (w_db w) !! pid; Some (pid, p));
    user ← gets (λ w, user_by_telegram_id (tg_id sender) (w_db w));
    u ← deref user;
    p ← deref profile;
    success ← WalletManager.deduct u.1 (price p.2)
                ("Purchase: " +:+ profile_name p.2);
    if negb success then
      send ReplyInsufficientFunds;;
      start sender
    else
      t ← datetime_now;
      let uname := "u" +:+ last_chars 8 (pretty u.1 +:+ "_" +:+ pretty (t `quot` 1000000)) in
      password ← random_string;
      MikroTikManager.init None;;
      mt_success ← MikroTikManager.create_user uname password (profile_name p.2);
      if negb mt_success then
        send ReplyTechnicalError
      else
        now ← datetime_now;
        let expiry := now + timedelta_days (validity_days p.2) in
        let sub := mkSubscription u.1 (profile_server_id p.2) p.1 uname password
                     expiry (data_limit_gb p.2 * 1024 ^ 3) in
        integrity (username_is_free uname);;
        commit (add_subscription sub);;
        send (ReplyPurchaseSuccessful uname password expiry);;
        server ← gets (λ w, servers (w_db w) !! profile_server_id p.2);
        _ ← deref server;
        send (ReplyConfigFiles uname password)
  else start sender.

End bot_handler.

(** ** user_features.py *)

Module user_features.

(** [select(Profile).where(Profile.name.like(pat), Profile.server_id == sid)
    .order_by(desc(Profile.version))] and [.first()]: the highest version,
    the lower key among equal versions. *)
Definition latest_profile (pat : string) (sid : Z) (t : gmap Z Profile)
    : option (Z * Profile) :=
  foldr (λ kv best,
           match best with
           | Some b => if (profile_version b.2 <? profile_version kv.2)
                          || (profile_version b.2 =? profile_version kv.2)
                             && (kv.1 <? b.1)
                       then Some kv else best
           | None => Some kv
           end)
        None
        (filter (λ kv, like pat (profile_name kv.2) = true ∧ profile_server_id kv.2 = sid)
                (map_to_list t)).

(** Handle subscription renewal: the preview the user confirms. *)
Definition renew_subscription (sender : tg_user) (sub_id : Z) : M unit :=
  user ← gets (λ w, user_by_telegram_id (tg_id sender) (w_db w));
  match user with
  | None => send ReplyUserNotFound
  | Some u =>
      subscription ← gets (λ w, subscriptions (w_db w) !! sub_id);
      match subscription with
      | None => send ReplySubscriptionNotFound
      | Some s =>
          if bool_decide (sub_user_id s ≠ u.1) then send ReplySubscriptionNotFound
          else
            profile ← gets (λ w, profiles (w_db w) !! sub_profile_id s);
            match profile with
            | None => send ReplyPlanNoLongerAvailable
            | Some p0 =>
                latest ← gets (λ w,
                  latest_profile (before_v (profile_name p0) +:+ "%")
                                 (profile_server_id p0) (profiles (w_db w)));
                let p := match latest with
                         | Some l => if bool_decide (l.1 ≠ sub_profile_id s)
                                     then l.2 else p0
                         | None => p0
                         end in
                if wallet_balance u.2 <? price p then
                  send (ReplyInsufficientBalance (profile_name p) (price p)
                          (price p - wallet_balance u.2))
                else
                  now ← datetime_now;
                  new_expiry ←
                    (if expiry_date s <? now
                     then now' ← datetime_now;
                          ret (now' + timedelta_days (validity_days p))
                     else ret (expiry_date s + timedelta_days (validity_days p)));
                  send (ReplyRenewConfirm (profile_name p) (validity_days p)
                          (data_limit_gb p) (price p) new_expiry)
            end
      end
  end.

(** Process renewal confirmation. *)
Definition confirm_renewal (sender : tg_user) (sub_id : Z) : M unit :=
  user ← gets (λ w, user_by_telegram_id (tg_id sender) (w_db w));
  subscription ← gets (λ w, subscriptions (w_db w) !! sub_id);
  s ← deref subscription;
  profile ← gets (λ w, profiles (w_db w) !! sub_profile_id s);
  u ← deref user;
  p ← deref profile;
  success ← WalletManager.deduct u.1 (price p) ("Renewal: " +:+ profile_name p);
  if negb success then send ReplyPaymentFailed
  else
    now ← datetime_now;
    let was_expired := expiry_date s <? now in
    new_expiry ←
      (if was_expired
       then now' ← datetime_now; ret (now' + timedelta_days (validity_days p))
       else ret (expiry_date s + timedelta_days (validity_days p)));
    server ← gets (λ w, servers (w_db w) !! sub_server_id s);
    match server with
    | Some srv =>
        MikroTikManager.init (Some (server_host srv));;
        info ← MikroTikManager.get_user_info (mikrotik_username s);
        match info with
        | Some ui =>
            (if was_expired || negb (ui_is_active ui)
             then MikroTikManager.enable_user (mikrotik_username s);;
                  MikroTikManager.extend_validity (mikrotik_username s)
                    (validity_days p);;
                  ret tt
             else ret tt);;
            MikroTikManager.add_data_to_user (mikrotik_username s) (data_limit_gb p);;
            ret tt
        | None => ret tt
        end
    | None => ret tt
    end;;
    commit (set_expiry_date sub_id new_expiry);;
    send (ReplyRenewalSuccessful (profile_name p) new_expiry (data_limit_gb p)).

End user_features.

(** ** admin_panel.py *)

Module admin_panel.

(** The new balance typed by the admin; [new_balance] is [None] when
    [float(text)] raises [ValueError]. For a number the handler goes on to
    [select(User)]: the module imports the model as [User as DBUser], the
    name [User] is not bound, and the lookup raises [NameError], which
    [except ValueError] does not catch. The query, the adjustment and the
    replies behind it are never reached. *)
Definition process_edit_balance (new_balance : option Z) (target_user : string)
    : M unit :=
  match new_balance with
  | None => send ReplyInvalidAmount
  | Some nb => raise NameError
  end.

(** [text] is the stripped message, [target_user] the username chosen in the
    previous step. *)
Definition process_delete_confirm (text target_user : string) : M unit :=
  if bool_decide (text = "DELETE") then
    MikroTikManager.init None;;
    mt_success ← MikroTikManager.delete_user target_user;
    if (mt_success : bool) then
      sub ← gets (λ w, subscription_by_username target_user (w_db w));
      match sub with
      | Some s => commit (set_subscriptions (delete s.1))
      | None => ret tt
      end;;
      send (ReplyDeleted target_user)
    else send ReplyDeleteFailedMikroTik
  else send ReplyDeleteCancelled.

End admin_panel.

(** ** Operations and the properties stated about them *)

(** What front-end and admin sessions can ask of the system. *)
Inductive op :=
  | OpStart (sender : tg_user)
  | OpDeposit (user_id amt : Z) (descr : string)
  | OpDeduct (user_id amt : Z) (descr : string)
  | OpApproveReceipt (receipt_id admin_id : Z)
  | OpRejectReceipt (receipt_id admin_id : Z) (reason : string)
  | OpEditBalance (new_balance : option Z) (target_user : string)
  | OpPurchase (data : string) (sender : tg_user) (selected_profile_id : option Z)
  | OpRenewPreview (sender : tg_user) (sub_id : Z)
  | OpRenew (sender : tg_user) (sub_id : Z)
  | OpDelete (text target_user : string).

(** The world an operation leaves behind, whether it returned or raised. *)
Definition run_op (o : op) (w : world) : world :=
  match o with
  | OpStart sender => (bot_handler.start sender w).2
  | OpDeposit uid a d => (WalletManager.deposit uid a d w).2
  | OpDeduct uid a d => (WalletManager.deduct uid a d w).2
  | OpApproveReceipt rid aid => (WalletManager.approve_receipt rid aid w).2
  | OpRejectReceipt rid aid reason => (WalletManager.reject_receipt rid aid reason w).2
  | OpEditBalance nb target => (admin_panel.process_edit_balance nb target w).2
  | OpPurchase data sender pid => (bot_handler.process_purchase_flow data sender pid w).2
  | OpRenewPreview sender sid => (user_features.renew_subscription sender sid w).2
  | OpRenew sender sid => (user_features.confirm_renewal sender sid w).2
  | OpDelete text target => (admin_panel.process_delete_confirm text target w).2
  end.

Definition run_ops (ops : list op) (w : world) : world :=
  foldl (λ w o, run_op o w) w ops.

(** The sum of the ledger entries of one account. *)
Definition ledger_sum (uid : Z) (txns : list Transaction) : Z :=
  foldr (λ t acc, if bool_decide (txn_user_id t = uid) then amount t + acc else acc)
        0 txns.

(** Every account's cached balance is the sum of its entries; an id that has
    no account has entries summing to nothing. *)
Definition ledger_consistent (d : database) : Prop :=
  ∀ uid, match users d !! uid with
         | Some u => wallet_balance u = ledger_sum uid (transactions d)
         | None => ledger_sum uid (transactions d) = 0
         end.

Definition balance_of (d : database) (uid : Z) : Z :=
  match users d !! uid with
  | Some u => wallet_balance u
  | None => 0
  end.

Definition is_api (e : event) : Prop :=
  match e with
  | EvApi _ _ _ => True
  | _ => False
  end.

(** Between [w] and [w'] only router calls happened. *)
Definition api_only (w w' : world) : Prop :=
  w_db w' = w_db w ∧ w_clock w' = w_clock w ∧ w_ticks w' = w_ticks w ∧
  w_db_faults w' = w_db_faults w ∧ w_random w' = w_random w ∧
  w_config_host w' = w_config_host w ∧
  ∃ evs, w_trace w' = w_trace w ++ evs ∧ Forall is_api evs.

(** A step from [w] to [w'] that keeps the ledger consistent. *)
Definition keeps_ledger (w w' : world) : Prop :=
  ledger_consistent (w_db w) → ledger_consistent (w_db w').

(** Every run of [m] relates the world before to the world after. *)
Definition respects {A} (R : world → world → Prop) (m : M A) : Prop :=
  ∀ w, R w (m w).2.

(** [m] returns, it never raises. *)
Definition total {A} (m : M A) : Prop :=
  ∀ w, ∃ a, (m w).1 = Ret a.

(** The expiry a renewal sets: [t1] is the clock when the subscription is
    tested for expiry, [t2] the clock when the new expiry is computed. *)
Definition renewed_expiry (old t1 t2 days : Z) : Z :=
  if old <? t1 then t2 + timedelta_days days else old + timedelta_days days.

(** What the specification asks of a renewal that could not reach the
    router: the debit is refunded and the stored expiry is the one from
    before the renewal. *)
Definition renewal_undone (sid uid : Z) (w w' : world) : Prop :=
  balance_of (w_db w') uid = balance_of (w_db w) uid ∧
  expiry_date <$> subscriptions (w_db w') !! sid =
    expiry_date <$> subscriptions (w_db w) !! sid.

(** The accounts of the router at [h]. *)
Definition accounts_at (h : string) (w : world) : list um_user :=
  match w_routers w !! h with
  | Some r => um_users r
  | None => []
  end.

(** Between [w] and [w'] the manager kept its host and no router gained or
    lost an account. *)
Definition accounts_kept (w w' : world) : Prop :=
  mgr_host (w_mgr w') = mgr_host (w_mgr w) ∧
  ∀ h, accounts_at h w' = accounts_at h w.

(** ** A small deployment used in the examples *)

Module Demo.

Definition alice : User := mkUser 1001 "alice" "Alice" 50.
Definition alice_tg : tg_user := mkTgUser 1001 "alice" "Alice".

Definition main_server : Server := mkServer "main" "10.0.0.1" 8728 "admin" "secret".

(** The plan alice bought, and the version that has superseded it. *)
Definition basic : Profile := mkProfile "basic" 1 30 30 10 1 true.
Definition basic_v2 : Profile := mkProfile "basic_v2" 2 40 60 20 1 true.

Definition alice_sub : Subscription :=
  mkSubscription 1 1 1 "u1_17000" "pw" (timedelta_days 10) (10 * 1024 ^ 3).

Definition db : database :=
  mkDatabase {[1 := alice]} {[1 := main_server]} {[1 := basic; 2 := basic_v2]}
    {[1 := alice_sub]}
    [mkTransaction 1 80 "deposit" "Receipt #1";
     mkTransaction 1 (-30) "purchase" "Purchase: basic"]
    {[1 := mkPaymentReceipt 1 80 "file-1" "approved" (Some "Approved by 7");
      2 := mkPaymentReceipt 1 20 "file-2" "pending" None]}.

Definition main_router : router :=
  mkRouter [mkUmUser 1 "u1_17000" "pw" false 0 0]
           [mkUmUserProfile 2 "u1_17000" "basic"] []
           [mkUmLimitation 3 "u1_17000" (10 * 1024 ^ 3)] 4.

(** Day 5 on the clock, nothing raises. *)
Definition world0 : world :=
  mkWorld db {["10.0.0.1" := main_router]} (mkManager EmptyString false) "10.0.0.1"
          (timedelta_days 5) [] [] [] ["Xy12Zw89"] [].

(** The router cannot be reached: every call to it raises. *)
Definition unreachable : world := with_api_faults (replicate 16 true) world0.

(** The router refuses the new user: [connect] succeeds, [add] raises. *)
Definition rejecting : world := with_api_faults [false; true] world0.

(** The second commit raises. *)
Definition second_commit_fails : world := with_db_faults [false; true] world0.

Definition ops : list op :=
  [OpDeposit 1 25 "Deposit"; OpDeduct 1 500 "Purchase"; OpEditBalance (Some 60) "u1_17000";
   OpApproveReceipt 2 7; OpPurchase "confirm_pay" alice_tg (Some 2);
   OpRenew alice_tg 1; OpDeposit 1 (-200) "Deposit"].

End Demo.

(** ** mikrotik_manager.py: the methods used by the admin panel *)

Module MikroTikManager_admin.

Definition disable_user (uname : string) : M bool :=
  try_except
    (user_api ← MikroTikManager._get_resource "/user-manager/user";
     found ← MikroTikManager.call user_api "get" (Ros.users_get uname);
     match found with
     | u :: _ =>
         MikroTikManager.call user_api "set"
           (Ros.users_set (uu_id u)
              (λ x, mkUmUser (uu_id x) (uu_name x) (uu_password x) true
                      (uu_download_used x) (uu_upload_used x)));;
         MikroTikManager.disconnect_user_session uname;;
         ret tt
     | [] => ret tt
     end;;
     ret true)
    (ret false).

Definition reset_password (uname new_pass : string) : M bool :=
  try_except
    (user_api ← MikroTikManager._get_resource "/user-manager/user";
     found ← MikroTikManager.call user_api "get" (Ros.users_get uname);
     match found with
     | u :: _ =>
         MikroTikManager.call user_api "set"
           (Ros.users_set (uu_id u)
              (λ x, mkUmUser (uu_id x) (uu_name x) new_pass (uu_disabled x)
                      (uu_download_used x) (uu_upload_used x)));;
         ret true
     | [] => ret false
     end)
    (ret false).

End MikroTikManager_admin.

(** ** admin_panel.py: the edits of one subscription *)

Definition set_total_limit_bytes (sid b : Z) : database → database :=
  set_subscriptions
    (alter (λ s, mkSubscription (sub_user_id s) (sub_server_id s) (sub_profile_id s)
                   (mikrotik_username s) (mikrotik_password s) (expiry_date s) b) sid).

(** [s.split(sep)] for a separator of one character. *)
Fixpoint split_on (sep : ascii) (s : string) : list string :=
  match s with
  | EmptyString => [EmptyString]
  | String c s' =>
      if bool_decide (c = sep) then EmptyString :: split_on sep s'
      else match split_on sep s' with
           | piece :: rest => String c piece :: rest
           | [] => [String c EmptyString]
           end
  end.

(** The range of [datetime], from 0001-01-01 00:00:00 to 9999-12-31
    23:59:59.999999, in microseconds of a clock that shows 0 at 1970-01-01
    00:00:00, and the most days a [timedelta] holds. *)
Definition datetime_min : Z := -62135596800000000.
Definition datetime_max : Z := 253402300799999999.
Definition timedelta_max_days : Z := 999999999.

(** What the admin is told; the handlers below return it. *)
Inductive admin_reply :=
  | PasswordResetFailed
  | DataAdded (gb : Z) (uname : string)
  | TimeExtended (uname : string) (days new_expiry : Z)
  | NotFoundInDb
  | InvalidNumber
  | UserDisabled (uname : string)
  | DisableFailed.

Module admin_panel_edits.

(** After the router accepted the password the handler goes on to
    [update(Subscription)]. Inside the handler [update] is its own first
    parameter, the Telegram update, and not [sqlalchemy.update]: the call
    raises [TypeError], and neither the statement, the commit nor the reply
    behind it is reached. *)
Definition process_reset_password (new_pass target_user : string) : M admin_reply :=
  MikroTikManager.init None;;
  success ← MikroTikManager_admin.reset_password target_user new_pass;
  if (success : bool) then raise TypeError
  else ret PasswordResetFailed.

(** [gb] is [None] when [int(text)] raises [ValueError]. *)
Definition process_add_data (gb : option Z) (target_user : string) : M admin_reply :=
  match gb with
  | None => ret InvalidNumber
  | Some gb =>
      MikroTikManager.init None;;
      sub ← gets (λ w, subscription_by_username target_user (w_db w));
      match sub with
      | Some s =>
          commit (set_total_limit_bytes s.1 (total_limit_bytes s.2 + gb * 1024 ^ 3));;
          MikroTikManager.add_data_to_user target_user gb;;
          ret (DataAdded gb target_user)
      | None => ret NotFoundInDb
      end
  end.

(** [days] is [None] when [int(text)] raises [ValueError]. The number typed
    is not bounded: [timedelta(days=days)] raises [OverflowError] beyond
    [timedelta_max_days], and so does the sum when it leaves the range of
    [datetime]; [except ValueError] catches neither, and nothing is
    committed or answered. *)
Definition process_extend_time (days : option Z) (target_user : string) : M admin_reply :=
  match days with
  | None => ret InvalidNumber
  | Some days =>
      sub ← gets (λ w, subscription_by_username target_user (w_db w));
      match sub with
      | Some s =>
          let new_expiry := expiry_date s.2 + timedelta_days days in
          if (Z.abs days <=? timedelta_max_days)
             && (datetime_min <=? new_expiry) && (new_expiry <=? datetime_max)
          then
            commit (set_expiry_date s.1 new_expiry);;
            MikroTikManager.init None;;
            MikroTikManager.extend_validity target_user days;;
            ret (TimeExtended target_user days new_expiry)
          else raise OverflowError
      | None => ret NotFoundInDb
      end
  end.

(** [data] is [query.data]: the button of a user carries [disable_user_]
    followed by the username, and the handler takes for the username the
    third piece of [data.split('_')]. *)
Definition disable_user_flow (data : string) : M admin_reply :=
  match split_on "_" data !! 2%nat with
  | None => raise IndexError
  | Some username =>
      MikroTikManager.init None;;
      success ← MikroTikManager_admin.disable_user username;
      if (success : bool) then ret (UserDisabled username) else ret DisableFailed
  end.

End admin_panel_edits.

(** ** bot_handler.py: submitting a receipt *)

Module bot_handler_wallet.

(** The confirmation of a receipt; [data] is [query.data], the other
    arguments are the entries of [context.user_data]. The result is the key
    of the receipt that was stored. The notices sent to the admins, each in
    its own [try], have no effect on the stores. *)
Definition confirm_receipt (data : string) (sender : tg_user) (topup_amount : Z)
    (file_id : option string) (receipt_text : string) : M (option Z) :=
  if bool_decide (data = "receipt_no") then ret None
  else
    user ← gets (λ w, user_by_telegram_id (tg_id sender) (w_db w));
    match user with
    | Some u =>
        let stored := match file_id with
                      | Some f => if bool_decide (f = EmptyString) then receipt_text else f
                      | None => receipt_text
                      end in
        rid ← gets (λ w, next_id (payment_receipts (w_db w)));
        commit (set_receipts
                  (insert rid (mkPaymentReceipt u.1 topup_amount stored "pending" None)));;
        ret (Some rid)
    | None => ret None
    end.

End bot_handler_wallet.

(** ** user_features.py: the purchase history *)


Module user_features_history.


Section History.

(** [order_by(desc(Transaction.created_at))]: the order the database
    returns the selected rows in. [created_at] is set by the database, to
    the second, and is no field of the entries here, so the order is taken
    as given; entries of the same second come in an order of the database's
    choosing. *)
Context (by_created_at_desc : list Transaction → list Transaction).



End History.

End user_features_history.

(** ** admin_management.py *)

Record Admin := mkAdmin {
  admin_telegram_id : Z;
  admin_username : option string;
  added_by : option Z;
  is_super : bool }.

(** The functions take the [admins] table and [config.ADMIN_IDS] and give the
    table back; [commit_raises] tells whether [session.commit()] raises. *)
Module admin_management.

Definition admin_by_telegram_id (tid : Z) (admins : gmap Z Admin) : option (Z * Admin) :=
  select_first (λ _ a, bool_decide (admin_telegram_id a = tid)) admins.

(** Checks if a user is an admin (either in .env or in DB). *)
Definition is_user_admin (ADMIN_IDS : list Z) (admins : gmap Z Admin) (tid : Z) : bool :=
  if bool_decide (tid ∈ ADMIN_IDS) then true
  else bool_decide (admin_by_telegram_id tid admins ≠ None).

(** Only Super Admins (from .env) can manage other admins. *)
Definition is_super_admin (ADMIN_IDS : list Z) (tid : Z) : bool :=
  bool_decide (tid ∈ ADMIN_IDS).

(** Adds a new admin to the database. *)
Definition add_admin (commit_raises : bool) (tid : Z) (uname : option string)
    (by_whom : option Z) (admins : gmap Z Admin) : bool * gmap Z Admin :=
  match admin_by_telegram_id tid admins with
  | Some _ => (false, admins)
  | None =>
      if commit_raises then (false, admins)
      else (true, <[next_id admins := mkAdmin tid uname by_whom false]> admins)
  end.

(** Removes an admin from the database. *)
Definition remove_admin (commit_raises : bool) (tid : Z) (admins : gmap Z Admin)
    : bool * gmap Z Admin :=
  if commit_raises then (false, admins)
  else (true, filter (λ kv, admin_telegram_id kv.2 ≠ tid) admins).

End admin_management.

(** ** notification_manager.py *)

(** What [bot.send_message] does for one recipient: it returns, or raises
    [Forbidden], [RetryAfter] (the retry then goes through or raises
    anything), another [TelegramError], or an exception of another class. *)
Inductive send_outcome :=
  | Delivered
  | RaisesForbidden
  | RaisesRetryAfter (retry_delivered : bool)
  | RaisesTelegramError
  | RaisesOther.

Record broadcast_counts := mkCounts {
  bc_total : nat;
  bc_success : nat;
  bc_blocked : nat;
  bc_failed : nat }.

Module NotificationManager.

(** The loop of [broadcast_to_all] over the users left to notify; [None]
    when an exception leaves the loop. *)
Fixpoint broadcast_loop (outcome : Z → send_outcome) (recipients : list Z)
    (c : broadcast_counts) : option broadcast_counts :=
  match recipients with
  | [] => Some c
  | tid :: rest =>
      match outcome tid with
      | Delivered =>
          broadcast_loop outcome rest
            (mkCounts (bc_total c) (S (bc_success c)) (bc_blocked c) (bc_failed c))
      | RaisesForbidden =>
          broadcast_loop outcome rest
            (mkCounts (bc_total c) (bc_success c) (S (bc_blocked c)) (bc_failed c))
      | RaisesRetryAfter true =>
          broadcast_loop outcome rest
            (mkCounts (bc_total c) (S (bc_success c)) (bc_blocked c) (bc_failed c))
      | RaisesRetryAfter false =>
          broadcast_loop outcome rest
            (mkCounts (bc_total c) (bc_success c) (bc_blocked c) (S (bc_failed c)))
      | RaisesTelegramError =>
          broadcast_loop outcome rest
            (mkCounts (bc_total c) (bc_success c) (bc_blocked c) (S (bc_failed c)))
      | RaisesOther => None
      end
  end.

(** Sends a message to all active users in the database; [recipients] are
    the [telegram_id]s of the rows the query returns. *)
Definition broadcast_to_all (outcome : Z → send_outcome) (recipients : list Z)
    : option broadcast_counts :=
  broadcast_loop outcome recipients (mkCounts (length recipients) 0 0 0).

End NotificationManager.

(** ** What the router and the generated names look like *)

(** The name [process_purchase_flow] gives the account bought by user [uid]
    when the clock shows [t]. *)
Definition purchase_username (uid t : Z) : string :=
  "u" +:+ last_chars 8 (pretty uid +:+ "_" +:+ pretty (t `quot` 1000000)).

(** The manager talks to the router [r] at [h], and no call raises. *)
Definition reachable (h : string) (r : router) (w : world) : Prop :=
  mgr_host (w_mgr w) = h ∧ w_api_faults w = [] ∧ w_routers w !! h = Some r.

(** Between [w] and [w'] the routers at hosts other than the manager's are
    left alone. *)
Definition other_routers_kept (w w' : world) : Prop :=
  mgr_host (w_mgr w') = mgr_host (w_mgr w) ∧
  ∀ h, h ≠ mgr_host (w_mgr w) → w_routers w' !! h = w_routers w !! h.

(** Between [w] and [w'] no account balance and no ledger entry changed. *)
Definition ledger_untouched (w w' : world) : Prop :=
  users (w_db w') = users (w_db w) ∧ transactions (w_db w') = transactions (w_db w).

(** From [w] to [w'] the manager made calls that all went through: it now
    sees the router [r'] at [h], and nothing but that router and the trace
    changed. *)
Definition moved (h : string) (r' : router) (w w' : world) : Prop :=
  reachable h r' w' ∧ api_only w w' ∧
  ∀ h', h' ≠ h → w_routers w' !! h' = w_routers w !! h'.

(** ** The router after a manager method has run

    What each method of [MikroTikManager] leaves on a reachable router,
    as a function of the router before the call. *)

Definition info_of (uname : string) (r : router) : option user_info :=
  match filter (λ u, uu_name u = uname) (um_users r) with
  | [] => None
  | u :: _ =>
      let sessions := filter (λ s, se_user s = uname ∧ se_active s = true) (um_sessions r) in
      Some (mkUserInfo uname (uu_password u) (uu_download_used u + uu_upload_used u)
              (if uu_disabled u then "banned" else "active") (negb (uu_disabled u))
              (length sessions) (se_address <$> head sessions))
  end.

Definition data_added (uname : string) (gb : Z) (r : router) : bool * router :=
  match filter (λ l, li_name l = uname) (um_limitations r) with
  | l :: _ =>
      (true, (Ros.limitations_set_total (li_id l)
                (li_total_limit l + gb * 1024 ^ 3) r).2)
  | [] => (false, r)
  end.

Definition password_reset (uname pw : string) (r : router) : bool * router :=
  match filter (λ u, uu_name u = uname) (um_users r) with
  | u :: _ =>
      (true, (Ros.users_set (uu_id u)
                (λ x, mkUmUser (uu_id x) (uu_name x) pw (uu_disabled x)
                        (uu_download_used x) (uu_upload_used x)) r).2)
  | [] => (false, r)
  end.

Definition sessions_dropped (uname : string) (r : router) : router :=
  foldl (λ r s, (Ros.sessions_remove (se_id s) r).2) r
        (filter (λ s, se_user s = uname ∧ se_active s = true) (um_sessions r)).

Definition enabled (uname : string) (r : router) : router :=
  match filter (λ u, uu_name u = uname) (um_users r) with
  | u :: _ =>
      (Ros.users_set (uu_id u)
         (λ x, mkUmUser (uu_id x) (uu_name x) (uu_password x) false
                 (uu_download_used x) (uu_upload_used x)) r).2
  | [] => r
  end.

Definition disabled (uname : string) (r : router) : router :=
  match filter (λ u, uu_name u = uname) (um_users r) with
  | u :: _ =>
      sessions_dropped uname
        (Ros.users_set (uu_id u)
           (λ x, mkUmUser (uu_id x) (uu_name x) (uu_password x) true
                   (uu_download_used x) (uu_upload_used x)) r).2
  | [] => r
  end.

Definition deleted (uname : string) (r : router) : router :=
  let r1 := sessions_dropped uname r in
  let r2 := match filter (λ u, uu_name u = uname) (um_users r1) with
            | u :: _ => (Ros.users_remove (uu_id u) r1).2
            | [] => r1
            end in
  foldl (λ r p, (Ros.user_profiles_remove (up_id p) r).2) r2
        (filter (λ p, up_user p = uname) (um_user_profiles r2)).

(** ** Lemmas on tables *)

Lemma select_first_Some {A} (P : Z → A → bool) (t : gmap Z A) k a :
  select_first P t = Some (k, a) → t !! k = Some a ∧ P k a = true.
Proof.
  unfold select_first. intros H. apply find_some in H as [Hin HP].
  split; [|exact HP]. apply elem_of_map_to_list. by apply list_elem_of_In.
Qed.

Lemma foldr_max_bound (l : list Z) k : k ∈ l → k ≤ foldr Z.max 0 l.
Proof.
  induction l as [|x l IH]; [by intros ?%elem_of_nil|].
  intros [->|Hin]%elem_of_cons; simpl; [lia|]. specialize (IH Hin). lia.
Qed.

Lemma next_id_fresh {A} (t : gmap Z A) : t !! next_id t = None.
Proof.
  destruct (t !! next_id t) as [a|] eqn:E; [|done]. exfalso.
  assert (next_id t ≤ foldr Z.max 0 ((map_to_list t).*1)) as Hle.
  { apply foldr_max_bound. apply list_elem_of_fmap. exists (next_id t, a).
    split; [done|]. by apply elem_of_map_to_list. }
  unfold next_id in Hle at 1. lia.
Qed.

Lemma ledger_sum_app uid l1 l2 :
  ledger_sum uid (l1 ++ l2) = ledger_sum uid l1 + ledger_sum uid l2.
Proof.
  induction l1 as [|t l1 IH]; simpl; [done|]. case_bool_decide; lia.
Qed.

Lemma ledger_sum_snoc uid l t :
  ledger_sum uid (l ++ [t]) =
  ledger_sum uid l + (if bool_decide (txn_user_id t = uid) then amount t else 0).
Proof. rewrite ledger_sum_app. simpl. case_bool_decide; lia. Qed.

(** Moving an account from balance [b] to [b + a] with an entry of [a]. *)
Lemma ledger_entry_consistent d uid u a b ty descr :
  ledger_consistent d →
  users d !! uid = Some u →
  b = wallet_balance u + a →
  ledger_consistent
    (add_transaction (mkTransaction uid a ty descr) (set_wallet_balance uid b d)).
Proof.
  intros Hc Hu -> j. specialize (Hc j). simpl.
  rewrite ledger_sum_snoc. simpl.
  destruct (decide (uid = j)) as [->|Hne].
  - rewrite lookup_alter_eq, Hu. simpl. rewrite Hu in Hc.
    rewrite bool_decide_true by done. lia.
  - rewrite lookup_alter_ne by done. rewrite bool_decide_false by done.
    destruct (users d !! j); lia.
Qed.

(** ** Reasoning about handlers through a preorder on worlds *)

Section Respects.
Context (R : world → world → Prop).
Hypothesis R_refl : ∀ w, R w w.
Hypothesis R_trans : ∀ w1 w2 w3, R w1 w2 → R w2 w3 → R w1 w3.

Lemma respects_ret {A} (a : A) : respects R (mret a).
Proof. intros w. apply R_refl. Qed.

Lemma respects_raise {A} e : respects R (@raise A e).
Proof. intros w. apply R_refl. Qed.

Lemma respects_gets {A} (f : world → A) : respects R (gets f).
Proof. intros w. apply R_refl. Qed.

Lemma respects_deref {A} (o : option A) : respects R (deref o).
Proof. intros w. destruct o; apply R_refl. Qed.

Lemma respects_integrity c : respects R (integrity c).
Proof. intros w. unfold integrity. destruct (c (w_db w)); apply R_refl. Qed.

Lemma respects_bind {A B} (m : M A) (k : A → M B) :
  respects R m → (∀ a, respects R (k a)) → respects R (m ≫= k).
Proof.
  intros Hm Hk w. specialize (Hm w). unfold mbind, M_bind, bind.
  destruct (m w) as [[a|e] w1]; simpl in *; [|done].
  eapply R_trans; [exact Hm|apply Hk].
Qed.

Lemma respects_try {A} (m h : M A) :
  respects R m → respects R h → respects R (try_except m h).
Proof.
  intros Hm Hh w. specialize (Hm w). unfold try_except.
  destruct (m w) as [[a|e] w1]; simpl in *; [done|].
  eapply R_trans; [exact Hm|apply Hh].
Qed.

Lemma respects_for_each {A} (l : list A) (f : A → M unit) :
  (∀ x, respects R (f x)) → respects R (for_each l f).
Proof.
  intros Hf. induction l as [|x l IH]; simpl.
  - apply respects_ret.
  - apply respects_bind; [apply Hf|intros _; exact IH].
Qed.
End Respects.

(** A handler built from [try: ... except: return x] returns. *)
Lemma total_try_ret {A} (m : M A) (x : A) : total (try_except m (mret x)).
Proof.
  intros w. unfold try_except. destruct (m w) as [[a|e] w1]; simpl; eauto.
Qed.

Lemma api_only_refl w : api_only w w.
Proof.
  repeat split. exists []. by rewrite app_nil_r.
Qed.

Lemma api_only_trans w1 w2 w3 : api_only w1 w2 → api_only w2 w3 → api_only w1 w3.
Proof.
  intros (?&?&?&?&?&?&e1&He1&?) (?&?&?&?&?&?&e2&He2&?).
  repeat split; try congruence.
  exists (e1 ++ e2). split; [|by apply Forall_app].
  rewrite He2, He1. by rewrite app_assoc.
Qed.

(** One step through the structure of a handler. *)
Ltac respects_step Rrefl Rtrans :=
  lazymatch goal with
  | |- respects _ (mret _) => apply (respects_ret _ Rrefl)
  | |- respects _ (ret _) => apply (respects_ret _ Rrefl)
  | |- respects _ (raise _) => apply (respects_raise _ Rrefl)
  | |- respects _ (gets _) => apply (respects_gets _ Rrefl)
  | |- respects _ (deref _) => apply (respects_deref _ Rrefl)
  | |- respects _ (integrity _) => apply (respects_integrity _ Rrefl)
  | |- respects _ (try_except _ _) => apply (respects_try _ Rtrans)
  | |- respects _ (for_each _ _) => apply (respects_for_each _ Rrefl Rtrans); intros ?
  | |- respects _ (mbind _ _) => apply (respects_bind _ Rtrans); [|intros ?]
  | |- respects _ (match ?x with _ => _ end) => destruct x
  end.

Lemma api_only_init host : respects api_only (MikroTikManager.init host).
Proof. intros w. repeat split. exists []. simpl. by rewrite app_nil_r. Qed.

Lemma api_only_set_api : respects api_only MikroTikManager.set_api.
Proof. intros w. repeat split. exists []. simpl. by rewrite app_nil_r. Qed.

Lemma api_only_call {A} path verb (f : router → A * router) :
  respects api_only (MikroTikManager.call path verb f).
Proof.
  intros w. unfold MikroTikManager.call.
  assert (api_only w (log (EvApi (mgr_host (w_mgr w)) path verb)
                        (with_api_faults (tl (w_api_faults w)) w))) as H.
  { repeat split. simpl. eexists; split; [done|]. by repeat constructor. }
  destruct (hd false (w_api_faults w)); [exact H|].
  destruct (w_routers w !! mgr_host (w_mgr w)) as [r|]; [|exact H].
  destruct (f r) as [a r']. exact H.
Qed.

Ltac api_step :=
  lazymatch goal with
  | |- respects _ (MikroTikManager.init _) => apply api_only_init
  | |- respects _ MikroTikManager.set_api => apply api_only_set_api
  | |- respects _ (MikroTikManager.call _ _ _) => apply api_only_call
  | |- _ => respects_step api_only_refl api_only_trans
  end.

Lemma api_only_get_resource path : respects api_only (MikroTikManager._get_resource path).
Proof.
  unfold MikroTikManager._get_resource, MikroTikManager.connect. repeat api_step.
Qed.

Ltac mgr_step :=
  lazymatch goal with
  | |- respects _ (MikroTikManager._get_resource _) => apply api_only_get_resource
  | |- _ => api_step
  end.

Lemma api_only_create_user u p n : respects api_only (MikroTikManager.create_user u p n).
Proof.
  unfold MikroTikManager.create_user. repeat mgr_step.
Qed.

Lemma api_only_get_user_info u : respects api_only (MikroTikManager.get_user_info u).
Proof. unfold MikroTikManager.get_user_info. repeat mgr_step. Qed.

Lemma api_only_add_data_to_user u gb :
  respects api_only (MikroTikManager.add_data_to_user u gb).
Proof. unfold MikroTikManager.add_data_to_user. repeat mgr_step. Qed.

Lemma api_only_disconnect_user_session u :
  respects api_only (MikroTikManager.disconnect_user_session u).
Proof. unfold MikroTikManager.disconnect_user_session. repeat mgr_step. Qed.

Lemma api_only_enable_user u : respects api_only (MikroTikManager.enable_user u).
Proof. unfold MikroTikManager.enable_user. repeat mgr_step. Qed.

Lemma api_only_extend_validity u days :
  respects api_only (MikroTikManager.extend_validity u days).
Proof. unfold MikroTikManager.extend_validity. repeat mgr_step. Qed.

Lemma api_only_delete_user u : respects api_only (MikroTikManager.delete_user u).
Proof.
  unfold MikroTikManager.delete_user.
  repeat lazymatch goal with
         | |- respects _ (MikroTikManager.disconnect_user_session _) =>
             apply api_only_disconnect_user_session
         | |- _ => mgr_step
         end.
Qed.

(** ** The ledger invariant along a run *)

Lemma keeps_ledger_refl w : keeps_ledger w w.
Proof. by intros ?. Qed.

Lemma keeps_ledger_trans w1 w2 w3 :
  keeps_ledger w1 w2 → keeps_ledger w2 w3 → keeps_ledger w1 w3.
Proof. unfold keeps_ledger. auto. Qed.

Lemma api_only_keeps_ledger {A} (m : M A) : respects api_only m → respects keeps_ledger m.
Proof. intros H w Hc. destruct (H w) as [-> _]. exact Hc. Qed.

Lemma keeps_ledger_same_db {A} (m : M A) :
  (∀ w, w_db (m w).2 = w_db w) → respects keeps_ledger m.
Proof. intros H w Hc. by rewrite H. Qed.

(** A commit whose pending changes leave accounts and entries alone. *)
Lemma keeps_ledger_commit upd :
  (∀ d, users (upd d) = users d ∧ transactions (upd d) = transactions d) →
  respects keeps_ledger (commit upd).
Proof.
  intros H w Hc. unfold commit. destruct (hd false (w_db_faults w)); simpl; [done|].
  intros j. destruct (H (w_db w)) as [-> ->]. apply Hc.
Qed.

Lemma keeps_ledger_deposit uid a descr :
  respects keeps_ledger (WalletManager.deposit uid a descr).
Proof.
  intros w Hc. unfold WalletManager.deposit, try_except, mbind, M_bind, bind, gets, commit.
  destruct (users (w_db w) !! uid) as [u|] eqn:Hu; simpl; [|done].
  destruct (hd false (w_db_faults w)); simpl; [done|].
  by eapply ledger_entry_consistent.
Qed.

Lemma keeps_ledger_deduct uid a descr :
  respects keeps_ledger (WalletManager.deduct uid a descr).
Proof.
  intros w Hc. unfold WalletManager.deduct, try_except, mbind, M_bind, bind, gets, commit.
  destruct (users (w_db w) !! uid) as [u|] eqn:Hu; simpl; [|done].
  destruct (wallet_balance u <? a); simpl; [done|].
  destruct (hd false (w_db_faults w)); simpl; [done|].
  eapply ledger_entry_consistent; [done..|lia].
Qed.

Ltac ledger_step :=
  lazymatch goal with
  | |- respects _ (WalletManager.deposit _ _ _) => apply keeps_ledger_deposit
  | |- respects _ (WalletManager.deduct _ _ _) => apply keeps_ledger_deduct
  | |- respects _ (commit _) => apply keeps_ledger_commit; intros ?; by split
  | |- respects _ (send _) => apply keeps_ledger_same_db; intros ?; reflexivity
  | |- respects _ datetime_now => apply keeps_ledger_same_db; intros ?; reflexivity
  | |- respects _ random_string => apply keeps_ledger_same_db; intros ?; reflexivity
  | |- _ => respects_step keeps_ledger_refl keeps_ledger_trans
  end.

Lemma keeps_ledger_approve_receipt rid aid :
  respects keeps_ledger (WalletManager.approve_receipt rid aid).
Proof. unfold WalletManager.approve_receipt. repeat ledger_step. Qed.

Lemma keeps_ledger_reject_receipt rid aid reason :
  respects keeps_ledger (WalletManager.reject_receipt rid aid reason).
Proof. unfold WalletManager.reject_receipt. repeat ledger_step. Qed.

Lemma keeps_ledger_edit_balance nb target :
  respects keeps_ledger (admin_panel.process_edit_balance nb target).
Proof.
  intros w Hc. unfold admin_panel.process_edit_balance.
  destruct nb as [nb|]; exact Hc.
Qed.

Lemma keeps_ledger_start sender : respects keeps_ledger (bot_handler.start sender).
Proof.
  intros w Hc. unfold bot_handler.start.
  unfold mbind, M_bind, bind, gets.
  destruct (user_by_telegram_id (tg_id sender) (w_db w)) as [row|]; simpl; [exact Hc|].
  unfold commit. destruct (hd false (w_db_faults w)); simpl; [done|].
  intros j. simpl. specialize (Hc j).
  destruct (decide (next_id (users (w_db w)) = j)) as [<-|Hne].
  - rewrite lookup_insert_eq. rewrite next_id_fresh in Hc. simpl. lia.
  - by rewrite lookup_insert_ne.
Qed.

Ltac handler_step :=
  lazymatch goal with
  | |- respects _ (bot_handler.start _) => apply keeps_ledger_start
  | |- respects _ (MikroTikManager.init _) =>
      apply api_only_keeps_ledger, api_only_init
  | |- respects _ (MikroTikManager.create_user _ _ _) =>
      apply api_only_keeps_ledger, api_only_create_user
  | |- respects _ (MikroTikManager.get_user_info _) =>
      apply api_only_keeps_ledger, api_only_get_user_info
  | |- respects _ (MikroTikManager.enable_user _) =>
      apply api_only_keeps_ledger, api_only_enable_user
  | |- respects _ (MikroTikManager.extend_validity _ _) =>
      apply api_only_keeps_ledger, api_only_extend_validity
  | |- respects _ (MikroTikManager.add_data_to_user _ _) =>
      apply api_only_keeps_ledger, api_only_add_data_to_user
  | |- respects _ (MikroTikManager.delete_user _) =>
      apply api_only_keeps_ledger, api_only_delete_user
  | |- _ => ledger_step
  end.

Lemma keeps_ledger_purchase data sender pid :
  respects keeps_ledger (bot_handler.process_purchase_flow data sender pid).
Proof.
  unfold bot_handler.process_purchase_flow.
  destruct (bool_decide (data = "wallet_menu")).
  { unfold bot_handler.wallet_menu. repeat handler_step. }
  destruct (bool_decide (data = "confirm_pay")); [|apply keeps_ledger_start].
  repeat handler_step.
Qed.

Lemma keeps_ledger_renew_preview sender sid :
  respects keeps_ledger (user_features.renew_subscription sender sid).
Proof. unfold user_features.renew_subscription. repeat handler_step. Qed.

Lemma keeps_ledger_confirm_renewal sender sid :
  respects keeps_ledger (user_features.confirm_renewal sender sid).
Proof. unfold user_features.confirm_renewal. repeat handler_step. Qed.

Lemma keeps_ledger_delete text target :
  respects keeps_ledger (admin_panel.process_delete_confirm text target).
Proof. unfold admin_panel.process_delete_confirm. repeat handler_step. Qed.

Lemma run_op_keeps_ledger o w :
  ledger_consistent (w_db w) → ledger_consistent (w_db (run_op o w)).
Proof.
  destruct o; simpl.
  - apply keeps_ledger_start.
  - apply keeps_ledger_deposit.
  - apply keeps_ledger_deduct.
  - apply keeps_ledger_approve_receipt.
  - apply keeps_ledger_reject_receipt.
  - apply keeps_ledger_edit_balance.
  - apply keeps_ledger_purchase.
  - apply keeps_ledger_renew_preview.
  - apply keeps_ledger_confirm_renewal.
  - apply keeps_ledger_delete.
Qed.

(** ** Running a handler step by step *)

Lemma run_bind {A B} (m : M A) (k : A → M B) w a w' :
  m w = (Ret a, w') → (m ≫= k) w = k a w'.
Proof. intros H. unfold mbind, M_bind, bind. by rewrite H. Qed.

Lemma run_bind_exc {A B} (m : M A) (k : A → M B) w e w' :
  m w = (Exc e, w') → (m ≫= k) w = (Exc e, w').
Proof. intros H. unfold mbind, M_bind, bind. by rewrite H. Qed.

Lemma run_gets {A B} (f : world → A) (k : A → M B) w : (gets f ≫= k) w = k (f w) w.
Proof. reflexivity. Qed.

Lemma run_ret {A B} (a : A) (k : A → M B) w : (ret a ≫= k) w = k a w.
Proof. reflexivity. Qed.

Lemma total_bind {A B} (m : M A) (k : A → M B) :
  total m → (∀ a, total (k a)) → total (m ≫= k).
Proof.
  intros Hm Hk w. destruct (Hm w) as [a Ha].
  destruct (m w) as [r w1] eqn:E. simpl in Ha. subst r.
  rewrite (run_bind _ _ _ _ _ E). apply Hk.
Qed.

Lemma total_ret {A} (a : A) : total (mret a).
Proof. intros w. by exists a. Qed.

Lemma total_init host : total (MikroTikManager.init host).
Proof. intros w. by exists tt. Qed.

(** A block of router calls that returns: what is left to run sees the same
    database, clock and commit oracle. *)
Lemma run_api_block {A B} (m : M A) (k : A → M B) w :
  respects api_only m → total m →
  ∃ a w1, m w = (Ret a, w1) ∧ api_only w w1 ∧ (m ≫= k) w = k a w1.
Proof.
  intros Hr Ht. destruct (Ht w) as [a Ha]. specialize (Hr w).
  destruct (m w) as [r w1] eqn:E. simpl in *. subst r.
  exists a, w1. split; [done|]. split; [done|]. by apply run_bind.
Qed.

Lemma deduct_insufficient w uid u a descr :
  users (w_db w) !! uid = Some u → wallet_balance u < a →
  WalletManager.deduct uid a descr w = (Ret false, w).
Proof.
  intros Hu Hlt. unfold WalletManager.deduct, try_except, mbind, M_bind, bind, gets.
  rewrite Hu. by rewrite (proj2 (Z.ltb_lt _ _) Hlt).
Qed.

(** The database after a debit of [a] from account [uid] holding [b]. *)
Lemma deduct_ok w uid u a descr :
  users (w_db w) !! uid = Some u → a ≤ wallet_balance u →
  hd false (w_db_faults w) = false →
  WalletManager.deduct uid a descr w =
    (Ret true,
     log EvCommit
       (with_db (add_transaction (mkTransaction uid (- a) "purchase" descr)
                   (set_wallet_balance uid (wallet_balance u - a) (w_db w)))
                (with_db_faults (tl (w_db_faults w)) w))).
Proof.
  intros Hu Hle Hf.
  unfold WalletManager.deduct, try_except, mbind, M_bind, bind, gets, commit.
  rewrite Hu. cbv beta iota. rewrite (proj2 (Z.ltb_ge _ _) Hle).
  cbv beta iota zeta. by rewrite Hf.
Qed.

Lemma total_get_user_info u : total (MikroTikManager.get_user_info u).
Proof. apply total_try_ret. Qed.
Lemma total_enable_user u : total (MikroTikManager.enable_user u).
Proof. apply total_try_ret. Qed.
Lemma total_extend_validity u d : total (MikroTikManager.extend_validity u d).
Proof. apply total_try_ret. Qed.
Lemma total_add_data_to_user u d : total (MikroTikManager.add_data_to_user u d).
Proof. apply total_try_ret. Qed.
Lemma total_create_user u p n : total (MikroTikManager.create_user u p n).
Proof. apply total_try_ret. Qed.
Lemma total_delete_user u : total (MikroTikManager.delete_user u).
Proof. apply total_try_ret. Qed.

Ltac total_step :=
  lazymatch goal with
  | |- total (mret _) => apply total_ret
  | |- total (ret _) => apply total_ret
  | |- total (MikroTikManager.init _) => apply total_init
  | |- total (MikroTikManager.get_user_info _) => apply total_get_user_info
  | |- total (MikroTikManager.enable_user _) => apply total_enable_user
  | |- total (MikroTikManager.extend_validity _ _) => apply total_extend_validity
  | |- total (MikroTikManager.add_data_to_user _ _) => apply total_add_data_to_user
  | |- total (mbind _ _) => apply total_bind; [|intros ?]
  | |- total (match ?x with _ => _ end) => destruct x
  end.

Ltac block_step :=
  lazymatch goal with
  | |- respects _ (MikroTikManager.get_user_info _) => apply api_only_get_user_info
  | |- respects _ (MikroTikManager.enable_user _) => apply api_only_enable_user
  | |- respects _ (MikroTikManager.extend_validity _ _) => apply api_only_extend_validity
  | |- respects _ (MikroTikManager.add_data_to_user _ _) => apply api_only_add_data_to_user
  | |- respects _ (MikroTikManager.create_user _ _ _) => apply api_only_create_user
  | |- respects _ (MikroTikManager.delete_user _) => apply api_only_delete_user
  | |- _ => api_step
  end.

Lemma run_deref {A B} (a : A) (k : A → M B) w : (deref (Some a) ≫= k) w = k a w.
Proof. reflexivity. Qed.

Lemma run_assoc {A B C} (m : M A) (f : A → M B) (g : B → M C) w :
  ((m ≫= f) ≫= g) w = (m ≫= λ a, f a ≫= g) w.
Proof. unfold mbind, M_bind, bind. by destruct (m w) as [[a|e] w1]. Qed.

Lemma run_now {B} (k : Z → M B) w :
  (datetime_now ≫= k) w =
  k (w_clock w + Z.of_N (hd 0%N (w_ticks w)))
    (with_clock (w_clock w + Z.of_N (hd 0%N (w_ticks w))) (tl (w_ticks w)) w).
Proof. reflexivity. Qed.

(** The router calls of a renewal and the commit that follows them. *)
Lemma renewal_remote_then_commit (s : Subscription) (p : Profile) (sid e : Z)
    (was_expired : bool) (server : option Server) (k : M unit) (w : world) :
  hd false (w_db_faults w) = false →
  let block : M unit :=
    match server with
    | Some srv =>
        MikroTikManager.init (Some (server_host srv));;
        info ← MikroTikManager.get_user_info (mikrotik_username s);
        match info with
        | Some ui =>
            (if was_expired || negb (ui_is_active ui)
             then MikroTikManager.enable_user (mikrotik_username s);;
                  MikroTikManager.extend_validity (mikrotik_username s)
                    (validity_days p);;
                  ret tt
             else ret tt);;
            MikroTikManager.add_data_to_user (mikrotik_username s) (data_limit_gb p);;
            ret tt
        | None => ret tt
        end
    | None => ret tt
    end in
  ∃ w1, api_only w w1 ∧
        (block;; commit (set_expiry_date sid e);; k) w =
        k (log EvCommit (with_db (set_expiry_date sid e (w_db w))
                           (with_db_faults (tl (w_db_faults w)) w1))).
Proof.
  intros Hf block.
  destruct (run_api_block block (λ _, commit (set_expiry_date sid e);; k) w)
    as (a & w1 & _ & Hw1 & ->).
  { subst block. repeat block_step. }
  { subst block. repeat total_step. }
  exists w1. split; [exact Hw1|].
  destruct Hw1 as (Hdb & _ & _ & Hfaults & _).
  unfold mbind, M_bind, bind, commit. rewrite Hfaults, Hf, Hdb. reflexivity.
Qed.

Lemma confirm_renewal_effect (w : world) (sender : tg_user) (sid uid : Z)
    (u : User) (s : Subscription) (p : Profile) :
  user_by_telegram_id (tg_id sender) (w_db w) = Some (uid, u) →
  subscriptions (w_db w) !! sid = Some s →
  profiles (w_db w) !! sub_profile_id s = Some p →
  price p ≤ wallet_balance u →
  hd false (w_db_faults w) = false →
  hd false (tl (w_db_faults w)) = false →
  let t1 := w_clock w + Z.of_N (hd 0%N (w_ticks w)) in
  let t2 := t1 + Z.of_N (hd 0%N (tl (w_ticks w))) in
  let r := user_features.confirm_renewal sender sid w in
  r.1 = Ret tt ∧
  w_db r.2 =
    set_expiry_date sid (renewed_expiry (expiry_date s) t1 t2 (validity_days p))
      (add_transaction
         (mkTransaction uid (- price p) "purchase" ("Renewal: " +:+ profile_name p))
         (set_wallet_balance uid (wallet_balance u - price p) (w_db w))).
Proof.
  intros Hu Hs Hp Hle Hf1 Hf2.
  pose proof (select_first_Some _ _ _ _ Hu) as [Hu' _].
  pose proof (deduct_ok w uid u (price p) ("Renewal: " +:+ profile_name p)
                Hu' Hle Hf1) as Hd.
  unfold user_features.confirm_renewal.
  rewrite !run_gets. rewrite Hu, Hs. rewrite run_deref.
  rewrite run_gets, Hp. rewrite !run_deref. cbn [fst snd].
  rewrite (run_bind _ _ _ _ _ Hd). cbn [negb].
  set (w1 := log EvCommit _) in *.
  rewrite run_now. change (w_clock w1) with (w_clock w).
  change (w_ticks w1) with (w_ticks w).
  set (t1 := w_clock w + _).
  unfold renewed_expiry.
  destruct (expiry_date s <? t1) eqn:Hexp.
  - cbv iota. rewrite run_assoc, run_now, run_ret, run_gets.
    match goal with |- context [ (_ ≫= _) ?x ] => set (w2 := x) end.
    destruct (renewal_remote_then_commit s p sid
                (w_clock w2 + timedelta_days (validity_days p)) true
                (servers (w_db w2) !! sub_server_id s)
                (send (ReplyRenewalSuccessful (profile_name p)
                         (w_clock w2 + timedelta_days (validity_days p))
                         (data_limit_gb p))) w2 Hf2)
      as (w3 & Hw3 & Heq).
    cbv zeta in Heq.
    match type of Heq with
    | ?lhs = _ =>
        match goal with
        | |- context [ (?m ≫= ?k) w2 ] => change ((m ≫= k) w2) with lhs
        end
    end.
    rewrite Heq. split; reflexivity.
  - cbv iota. rewrite run_ret, run_gets.
    match goal with |- context [ (_ ≫= _) ?x ] => set (w2 := x) end.
    destruct (renewal_remote_then_commit s p sid
                (expiry_date s + timedelta_days (validity_days p)) false
                (servers (w_db w2) !! sub_server_id s)
                (send (ReplyRenewalSuccessful (profile_name p)
                         (expiry_date s + timedelta_days (validity_days p))
                         (data_limit_gb p))) w2 Hf2)
      as (w3 & Hw3 & Heq).
    cbv zeta in Heq.
    match type of Heq with
    | ?lhs = _ =>
        match goal with
        | |- context [ (?m ≫= ?k) w2 ] => change ((m ≫= k) w2) with lhs
        end
    end.
    rewrite Heq. split; reflexivity.
Qed.

(** ** What a successful [delete_user] leaves on the router *)

Lemma accounts_kept_refl w : accounts_kept w w.
Proof. by split. Qed.

Lemma accounts_kept_trans w1 w2 w3 :
  accounts_kept w1 w2 → accounts_kept w2 w3 → accounts_kept w1 w3.
Proof. intros [H1 H2] [H3 H4]. split; [congruence|]. intros h. by rewrite H4. Qed.

Lemma accounts_kept_set_api : respects accounts_kept MikroTikManager.set_api.
Proof. intros w. by split. Qed.

Lemma accounts_kept_call {A} path verb (f : router → A * router) :
  (∀ r, um_users (f r).2 = um_users r) →
  respects accounts_kept (MikroTikManager.call path verb f).
Proof.
  intros Hf w. unfold MikroTikManager.call.
  destruct (hd false (w_api_faults w)); [by split|].
  destruct (w_routers w !! mgr_host (w_mgr w)) as [r|] eqn:Hr; [|by split].
  specialize (Hf r). destruct (f r) as [a r']. split; [done|].
  intros h. unfold accounts_at. simpl.
  destruct (decide (mgr_host (w_mgr w) = h)) as [<-|Hne].
  - by rewrite lookup_insert_eq, Hr.
  - by rewrite lookup_insert_ne.
Qed.

Ltac accounts_step :=
  lazymatch goal with
  | |- respects _ MikroTikManager.set_api => apply accounts_kept_set_api
  | |- respects _ (MikroTikManager.call _ _ _) =>
      apply accounts_kept_call; intros ?; reflexivity
  | |- _ => respects_step accounts_kept_refl accounts_kept_trans
  end.

Lemma accounts_kept_get_resource path :
  respects accounts_kept (MikroTikManager._get_resource path).
Proof.
  unfold MikroTikManager._get_resource, MikroTikManager.connect. repeat accounts_step.
Qed.

Lemma accounts_kept_disconnect u :
  respects accounts_kept (MikroTikManager.disconnect_user_session u).
Proof.
  unfold MikroTikManager.disconnect_user_session.
  repeat lazymatch goal with
         | |- respects _ (MikroTikManager._get_resource _) =>
             apply accounts_kept_get_resource
         | |- _ => accounts_step
         end.
Qed.

Lemma bind_inv {A B} (m : M A) (k : A → M B) w b w' :
  (m ≫= k) w = (Ret b, w') → ∃ a w1, m w = (Ret a, w1) ∧ k a w1 = (Ret b, w').
Proof.
  unfold mbind, M_bind, bind. destruct (m w) as [[a|e] w1]; [eauto|done].
Qed.

Lemma try_inv (m : M bool) w w' :
  try_except m (mret false) w = (Ret true, w') → m w = (Ret true, w').
Proof.
  unfold try_except. destruct (m w) as [[a|e] w1]; [done|].
  intros H. inversion H.
Qed.

Lemma call_inv {A} path verb (f : router → A * router) w a w' :
  MikroTikManager.call path verb f w = (Ret a, w') →
  ∃ r, w_routers w !! mgr_host (w_mgr w) = Some r ∧ a = (f r).1 ∧
       mgr_host (w_mgr w') = mgr_host (w_mgr w) ∧
       w_routers w' = <[mgr_host (w_mgr w) := (f r).2]> (w_routers w).
Proof.
  unfold MikroTikManager.call.
  destruct (hd false (w_api_faults w)); [done|].
  destruct (w_routers w !! mgr_host (w_mgr w)) as [r|]; [|done].
  destruct (f r) as [a' r'] eqn:Hf. intros H. inversion H; subst.
  exists r. by rewrite Hf.
Qed.

(** When [delete_user] returns [True], the router of the manager holds no
    account of that name any more, provided it held at most one. *)
Lemma delete_user_removes_account (uname : string) (w w' : world) :
  MikroTikManager.delete_user uname w = (Ret true, w') →
  (length (filter (λ u, uu_name u = uname) (accounts_at (mgr_host (w_mgr w)) w)) ≤ 1)%nat →
  filter (λ u, uu_name u = uname) (accounts_at (mgr_host (w_mgr w)) w') = [].
Proof.
  intros Hrun Huniq. set (h := mgr_host (w_mgr w)) in *.
  apply try_inv in Hrun.
  apply bind_inv in Hrun as (a1 & w1 & H1 & Hrun).
  pose proof (accounts_kept_disconnect uname w) as K1. rewrite H1 in K1. simpl in K1.
  apply bind_inv in Hrun as (user_api & w2 & H2 & Hrun).
  pose proof (accounts_kept_get_resource "/user-manager/user" w1) as K2.
  rewrite H2 in K2. simpl in K2.
  apply bind_inv in Hrun as (found & w3 & H3 & Hrun).
  apply bind_inv in Hrun as (a4 & w4 & H4 & Hrun).
  assert (accounts_kept w4 w') as K5.
  { match type of Hrun with
    | ?m w4 = _ =>
        assert (respects accounts_kept m) as K
          by (repeat lazymatch goal with
                     | |- respects _ (MikroTikManager._get_resource _) =>
                         apply accounts_kept_get_resource
                     | |- _ => accounts_step
                     end)
    end.
    specialize (K w4). by rewrite Hrun in K. }
  destruct (accounts_kept_trans _ _ _ K1 K2) as [Hh2 Ha2].
  apply call_inv in H3 as (r2 & Hr2 & -> & Hh3 & Hw3).
  rewrite Hh2 in Hr2, Hh3, Hw3. fold h in Hr2, Hh3, Hw3.
  assert (accounts_at h w = um_users r2) as Hacc.
  { rewrite <- Ha2. unfold accounts_at. by rewrite Hr2. }
  rewrite Hacc in Huniq.
  destruct K5 as [_ ->]. simpl in H4.
  destruct (filter (λ u, uu_name u = uname) (um_users r2)) as [|u rest] eqn:Hfound.
  - inversion H4; subst w4. unfold accounts_at. rewrite Hw3, lookup_insert_eq.
    exact Hfound.
  - destruct rest; [|simpl in Huniq; lia].
    apply call_inv in H4 as (r3 & Hr3 & _ & _ & Hw4).
    rewrite Hh3 in Hr3, Hw4. rewrite Hw3, lookup_insert_eq in Hr3.
    inversion Hr3; subst r3. clear Hr3.
    unfold accounts_at. rewrite Hw4, lookup_insert_eq. simpl.
    destruct (filter _ (filter _ (um_users r2))) as [|x l] eqn:Hleft; [done|].
    exfalso.
    assert (x ∈ x :: l) as Hx by left. rewrite <- Hleft in Hx.
    apply list_elem_of_filter in Hx as [Hname Hx].
    apply list_elem_of_filter in Hx as [Hid Hx].
    assert (x ∈ filter (λ u, uu_name u = uname) (um_users r2)) as Hin
      by (apply list_elem_of_filter; by split).
    rewrite Hfound in Hin. apply list_elem_of_singleton in Hin. by subst x.
Qed.

(** ** Claims *)

(** C1. Starting from a ledger in which every account's [wallet_balance] is
    the sum of its [Transaction.amount] rows, every sequence of operations
    (deposits, deductions, manual balance adjustments, receipt decisions,
    purchases, renewals, deletions, registrations), each of which may succeed,
    fail or raise, ends in a ledger where every account's [wallet_balance]
    is again the sum of its [Transaction.amount] rows. *)
Theorem C1_balance_is_ledger_sum (ops : list op) (w : world) :
  ledger_consistent (w_db w) →
  ∀ uid u, users (w_db (run_ops ops w)) !! uid = Some u →
           wallet_balance u = ledger_sum uid (transactions (w_db (run_ops ops w))).
Proof.
  intros Hc.
  assert (ledger_consistent (w_db (run_ops ops w))) as H.
  { revert w Hc. induction ops as [|o ops IH]; intros w Hc; simpl; [done|].
    apply IH. by apply run_op_keeps_ledger. }
  intros uid u Hu. specialize (H uid). by rewrite Hu in H.
Qed.

(** C1 at the sample deployment: a deposit, a refused deduction, a manual
    adjustment, a receipt approval, a purchase, a renewal and a negative
    deposit leave alice's balance equal to the sum of her entries. *)
Lemma C1_balance_is_ledger_sum_witness :
  ledger_consistent Demo.db ∧
  ∀ uid u, users (w_db (run_ops Demo.ops Demo.world0)) !! uid = Some u →
           wallet_balance u =
           ledger_sum uid (transactions (w_db (run_ops Demo.ops Demo.world0))).
Proof.
  assert (ledger_consistent (w_db Demo.world0)) as H.
  { intros uid. simpl. destruct (decide (uid = 1)) as [->|Hne]; [reflexivity|].
    rewrite lookup_singleton_ne by done. by rewrite !bool_decide_false by done. }
  split; [exact H|]. exact (C1_balance_is_ledger_sum Demo.ops Demo.world0 H).
Defined.

(** C2. A purchase whose plan costs more than the account holds: the debit
    fails and nothing else happens. No [Transaction] row is written, the
    balance is unchanged, no [Subscription] row is created, no call goes to
    the router; the user is told of the insufficient funds and shown the
    main menu. *)
Theorem C2_purchase_insufficient_funds (w : world) (sender : tg_user) (pid uid : Z)
    (u : User) (p : Profile) :
  user_by_telegram_id (tg_id sender) (w_db w) = Some (uid, u) →
  profiles (w_db w) !! pid = Some p →
  wallet_balance u < price p →
  let r := bot_handler.process_purchase_flow "confirm_pay" sender (Some pid) w in
  (WalletManager.deduct uid (price p) ("Purchase: " +:+ profile_name p) w).1 = Ret false ∧
  r.1 = Ret tt ∧
  w_db r.2 = w_db w ∧
  w_routers r.2 = w_routers w ∧
  w_api_faults r.2 = w_api_faults w ∧
  w_trace r.2 =
    w_trace w ++
    [EvReply ReplyInsufficientFunds;
     EvReply (ReplyWelcome (wallet_balance u)
                (length (filter (λ kv, sub_user_id kv.2 = uid)
                                (map_to_list (subscriptions (w_db w))))))].
Proof.
  intros Hu Hp Hlt.
  pose proof (select_first_Some _ _ _ _ Hu) as [Hu' _].
  pose proof (deduct_insufficient w uid u (price p)
                ("Purchase: " +:+ profile_name p) Hu' Hlt) as Hd.
  split; [by rewrite Hd|].
  unfold bot_handler.process_purchase_flow.
  rewrite bool_decide_false by done. rewrite bool_decide_true by done.
  rewrite !run_gets. simpl. rewrite Hp, Hu. simpl.
  unfold deref. rewrite !run_ret. cbn [fst snd].
  rewrite (run_bind _ _ _ _ _ Hd). cbn [negb].
  unfold bot_handler.start, mbind, M_bind, bind, gets, send. simpl.
  rewrite Hu. simpl. repeat split. by rewrite <- app_assoc.
Qed.

Lemma C2_purchase_insufficient_funds_witness :
  let r := bot_handler.process_purchase_flow "confirm_pay" Demo.alice_tg (Some 1)
             (with_db (set_wallet_balance 1 29 Demo.db) Demo.world0) in
  w_db r.2 = set_wallet_balance 1 29 Demo.db ∧
  w_routers r.2 = w_routers Demo.world0 ∧
  w_api_faults r.2 = [] ∧
  w_trace r.2 = [EvReply ReplyInsufficientFunds; EvReply (ReplyWelcome 29 1)].
Proof.
  destruct (C2_purchase_insufficient_funds
              (with_db (set_wallet_balance 1 29 Demo.db) Demo.world0)
              Demo.alice_tg 1 1 (mkUser 1001 "alice" "Alice" 29) Demo.basic)
    as (_ & _ & H1 & H2 & H3 & H4);
    [reflexivity | reflexivity | vm_compute; reflexivity |].
  split; [exact H1|]. split; [exact H2|]. split; [exact H3|]. exact H4.
Defined.

(** C3. The purchase of the sample plan when the router refuses the new
    user: the handler answers with the technical error and creates no
    subscription, but the 30 debited from alice stay debited. The ledger
    gains the purchase entry and no refund; the balance is 20, not the 50 it
    was before the purchase. *)
Theorem C3_failed_provisioning_keeps_debit :
  let r := bot_handler.process_purchase_flow "confirm_pay" Demo.alice_tg (Some 1)
             Demo.rejecting in
  r.1 = Ret tt ∧
  w_trace r.2 =
    [EvCommit; EvApi "10.0.0.1" EmptyString "connect";
     EvApi "10.0.0.1" "/user-manager/user" "add"; EvReply ReplyTechnicalError] ∧
  subscriptions (w_db r.2) = subscriptions Demo.db ∧
  transactions (w_db r.2) =
    transactions Demo.db ++ [mkTransaction 1 (-30) "purchase" "Purchase: basic"] ∧
  balance_of (w_db Demo.rejecting) 1 = 50 ∧
  balance_of (w_db r.2) 1 = 20.
Proof. vm_compute. repeat split. Qed.

(** C4. A renewal whose debit and commits go through stores the new expiry:
    [now + validity_days] when the subscription had expired ([expiry_date]
    earlier than now), and [expiry_date + validity_days] otherwise. The clock
    is read at [t1] for the test and, for an expired subscription, again at
    [t2] for the sum; one reading [now] between them fits both branches. *)
Theorem C4_renewal_expiry (w : world) (sender : tg_user) (sid uid : Z)
    (u : User) (s : Subscription) (p : Profile) :
  user_by_telegram_id (tg_id sender) (w_db w) = Some (uid, u) →
  subscriptions (w_db w) !! sid = Some s →
  profiles (w_db w) !! sub_profile_id s = Some p →
  price p ≤ wallet_balance u →
  hd false (w_db_faults w) = false →
  hd false (tl (w_db_faults w)) = false →
  let t1 := w_clock w + Z.of_N (hd 0%N (w_ticks w)) in
  let t2 := t1 + Z.of_N (hd 0%N (tl (w_ticks w))) in
  let r := user_features.confirm_renewal sender sid w in
  expiry_date <$> subscriptions (w_db r.2) !! sid =
    Some (if expiry_date s <? t1
          then t2 + timedelta_days (validity_days p)
          else expiry_date s + timedelta_days (validity_days p)) ∧
  ∃ now, t1 ≤ now ≤ t2 ∧
    expiry_date <$> subscriptions (w_db r.2) !! sid =
      Some (if expiry_date s <? now
            then now + timedelta_days (validity_days p)
            else expiry_date s + timedelta_days (validity_days p)).
Proof.
  intros Hu Hs Hp Hle Hf1 Hf2 t1 t2 r.
  destruct (confirm_renewal_effect w sender sid uid u s p Hu Hs Hp Hle Hf1 Hf2)
    as [_ Hdb].
  fold t1 t2 r in Hdb.
  assert (expiry_date <$> subscriptions (w_db r.2) !! sid =
          Some (renewed_expiry (expiry_date s) t1 t2 (validity_days p))) as He.
  { rewrite Hdb. simpl. rewrite lookup_alter_eq, Hs. reflexivity. }
  unfold renewed_expiry in He. split; [exact He|].
  assert (t1 ≤ t2) by (unfold t2; lia).
  destruct (expiry_date s <? t1) eqn:Hexp.
  - exists t2. split; [lia|]. rewrite He.
    apply Z.ltb_lt in Hexp. by rewrite (proj2 (Z.ltb_lt _ _)) by lia.
  - exists t1. split; [lia|]. by rewrite Hexp.
Qed.

Lemma C4_renewal_expiry_witness :
  let r := user_features.confirm_renewal Demo.alice_tg 1 Demo.world0 in
  expiry_date <$> subscriptions (w_db r.2) !! 1 = Some (timedelta_days 40).
Proof.
  destruct (C4_renewal_expiry Demo.world0 Demo.alice_tg 1 1 Demo.alice Demo.alice_sub
              Demo.basic) as [H _];
    [reflexivity | reflexivity | reflexivity | vm_compute; discriminate
    | reflexivity | reflexivity |].
  exact H.
Defined.

(** C5. With the router unreachable the renewal of the sample subscription
    is not undone, where the purchase and the deletion let the answer of
    the router decide what is stored. The trace shows the debit committed,
    the one attempt to connect, the expiry committed and the message that
    the account was renewed and is now active; the balance went from 50 to
    20 with no refund and the expiry from day 10 to day 40. *)
Theorem C5_unreachable_renewal_not_undone :
  let r := user_features.confirm_renewal Demo.alice_tg 1 Demo.unreachable in
  w_trace r.2 =
    [EvCommit; EvApi "10.0.0.1" EmptyString "connect"; EvCommit;
     EvReply (ReplyRenewalSuccessful "basic" (timedelta_days 40) 10)] ∧
  balance_of (w_db Demo.unreachable) 1 = 50 ∧
  balance_of (w_db r.2) 1 = 20 ∧
  ¬ renewal_undone 1 1 Demo.unreachable r.2.
Proof.
  split; [vm_compute; reflexivity|]. split; [vm_compute; reflexivity|].
  split; [vm_compute; reflexivity|].
  intros [Hb _]. vm_compute in Hb. discriminate.
Qed.

(** No answer of the router reaches the database: a renewal whose debit and
    commits go through leaves the same balance, ledger and expiry whatever
    routers there are and whichever of their calls raise. *)
Lemma renewal_ignores_router (w : world) (rs : gmap string router)
    (faults : list bool) (sender : tg_user) (sid uid : Z)
    (u : User) (s : Subscription) (p : Profile) :
  user_by_telegram_id (tg_id sender) (w_db w) = Some (uid, u) →
  subscriptions (w_db w) !! sid = Some s →
  profiles (w_db w) !! sub_profile_id s = Some p →
  price p ≤ wallet_balance u →
  hd false (w_db_faults w) = false →
  hd false (tl (w_db_faults w)) = false →
  let t1 := w_clock w + Z.of_N (hd 0%N (w_ticks w)) in
  let t2 := t1 + Z.of_N (hd 0%N (tl (w_ticks w))) in
  let r := user_features.confirm_renewal sender sid
             (with_api_faults faults (with_routers rs w)) in
  r.1 = Ret tt ∧
  balance_of (w_db r.2) uid = wallet_balance u - price p ∧
  transactions (w_db r.2) =
    transactions (w_db w) ++
    [mkTransaction uid (- price p) "purchase" ("Renewal: " +:+ profile_name p)] ∧
  expiry_date <$> subscriptions (w_db r.2) !! sid =
    Some (renewed_expiry (expiry_date s) t1 t2 (validity_days p)).
Proof.
  intros Hu Hs Hp Hle Hf1 Hf2 t1 t2 r.
  destruct (confirm_renewal_effect (with_api_faults faults (with_routers rs w))
              sender sid uid u s p Hu Hs Hp Hle Hf1 Hf2) as [Hret Hdb].
  fold r in Hret, Hdb. split; [exact Hret|].
  pose proof (select_first_Some _ _ _ _ Hu) as [Hu' _].
  rewrite Hdb. unfold balance_of. simpl.
  rewrite !lookup_alter_eq, Hu', Hs. simpl. done.
Qed.

(** C6. The sample subscription was bought on plan "basic" (30 for 30 days
    and 10 GB), since superseded by "basic_v2" (40 for 60 days and 20 GB).
    The preview of [renew_subscription] resolves the newest version and
    offers 40, 60 days and 20 GB; [confirm_renewal] then debits 30, extends
    by 30 days and grants 10 GB, the terms of the plan originally bought. *)
Theorem C6_renewal_uses_purchased_plan :
  let preview := user_features.renew_subscription Demo.alice_tg 1 Demo.world0 in
  let r := user_features.confirm_renewal Demo.alice_tg 1 Demo.world0 in
  user_features.latest_profile "basic%" 1 (profiles Demo.db) = Some (2, Demo.basic_v2) ∧
  w_trace preview.2 =
    [EvReply (ReplyRenewConfirm "basic_v2" 60 20 40 (timedelta_days 70))] ∧
  r.1 = Ret tt ∧
  transactions (w_db r.2) =
    transactions Demo.db ++ [mkTransaction 1 (-30) "purchase" "Renewal: basic"] ∧
  balance_of (w_db r.2) 1 = 20 ∧
  expiry_date <$> subscriptions (w_db r.2) !! 1 = Some (timedelta_days 40) ∧
  last (w_trace r.2) =
    Some (EvReply (ReplyRenewalSuccessful "basic" (timedelta_days 40) 10)).
Proof. vm_compute. repeat split. Qed.

(** C7. Receipt 1 of the sample deployment is approved and was credited.
    [approve_receipt] refuses to decide it again and changes nothing, but
    [reject_receipt], which has no such test, returns [True], turns the
    status to rejected and replaces the note, while the credit of 80 stays
    in the ledger. *)
Theorem C7_reject_decides_again :
  let r := WalletManager.reject_receipt 1 9 "late" Demo.world0 in
  status <$> payment_receipts Demo.db !! 1 = Some "approved" ∧
  WalletManager.approve_receipt 1 9 Demo.world0 = (Ret false, Demo.world0) ∧
  r.1 = Ret true ∧
  payment_receipts (w_db r.2) !! 1 =
    Some (mkPaymentReceipt 1 80 "file-1" "rejected" (Some "Rejected by 9: late")) ∧
  transactions (w_db r.2) = transactions Demo.db ∧
  users (w_db r.2) = users Demo.db.
Proof. vm_compute. repeat split. Qed.

(** C8. Receipt 2 is pending. Its approval commits the new status, then the
    commit of the deposit raises: [approve_receipt] returns [False] with the
    receipt approved, no entry written and the balance unchanged. A second
    approval is refused because the receipt is no longer pending. The same
    happens, with no fault at all, for a pending receipt whose account no
    longer exists. *)
Theorem C8_approved_without_credit :
  let r := WalletManager.approve_receipt 2 7 Demo.second_commit_fails in
  let orphan := with_db (set_users (delete 1) Demo.db) Demo.world0 in
  status <$> payment_receipts Demo.db !! 2 = Some "pending" ∧
  r.1 = Ret false ∧
  status <$> payment_receipts (w_db r.2) !! 2 = Some "approved" ∧
  transactions (w_db r.2) = transactions Demo.db ∧
  users (w_db r.2) = users Demo.db ∧
  WalletManager.approve_receipt 2 7 r.2 = (Ret false, r.2) ∧
  (WalletManager.approve_receipt 2 7 orphan).1 = Ret false ∧
  status <$> payment_receipts (w_db (WalletManager.approve_receipt 2 7 orphan).2) !! 2 =
    Some "approved" ∧
  transactions (w_db (WalletManager.approve_receipt 2 7 orphan).2) = transactions Demo.db.
Proof. vm_compute. repeat split. Qed.

(** C9. Deleting a subscription calls the router first and touches the local
    table afterwards: in the trace of the handler every router call comes
    before the commit and the reply. When [delete_user] reports failure the
    database is left as it was and the admin is told that MikroTik failed;
    the database changes only in a run where [delete_user] reported
    success, and then the router of the manager holds no account of that
    name any more, if it held at most one. *)
Theorem C9_delete_remote_before_local (w : world) (text target : string) :
  let r := admin_panel.process_delete_confirm text target w in
  let remote := MikroTikManager.delete_user target (MikroTikManager.init None w).2 in
  (∃ api_evs local_evs,
     w_trace r.2 = w_trace w ++ api_evs ++ local_evs ∧
     Forall is_api api_evs ∧ Forall (λ e, ¬ is_api e) local_evs) ∧
  (text = "DELETE" → remote.1 = Ret false →
     w_db r.2 = w_db w ∧ last (w_trace r.2) = Some (EvReply ReplyDeleteFailedMikroTik)) ∧
  (w_db r.2 ≠ w_db w →
     text = "DELETE" ∧ remote.1 = Ret true ∧
     ((length (filter (λ u, uu_name u = target)
                      (accounts_at (w_config_host w) w)) ≤ 1)%nat →
      filter (λ u, uu_name u = target) (accounts_at (w_config_host w) r.2) = [])).
Proof.
  intros r remote. subst r. unfold admin_panel.process_delete_confirm.
  case_bool_decide as Htext.
  2:{ split; [|split]; [|done|done].
      exists [], [EvReply ReplyDeleteCancelled]. simpl.
      repeat split; repeat constructor. tauto. }
  change ((MikroTikManager.init None ≫= ?k) w) with (k tt (MikroTikManager.init None w).2).
  cbv beta. subst remote.
  pose proof (api_only_init None w) as Hw0.
  set (w0 := (MikroTikManager.init None w).2) in *.
  match goal with
  | |- context [ (MikroTikManager.delete_user target ≫= ?k) w0 ] =>
      destruct (run_api_block (MikroTikManager.delete_user target) k w0)
        as (b & w1 & Hrun & Hw1 & ->);
        [apply api_only_delete_user | apply total_delete_user |]
  end.
  rewrite Hrun. simpl.
  destruct (api_only_trans _ _ _ Hw0 Hw1) as (Hdb & _ & _ & _ & _ & _ & evs & Htr & Hevs).
  destruct b.
  - rewrite run_gets.
    destruct (subscription_by_username target (w_db w1)) as [[sid s]|].
    + unfold mbind, M_bind, bind, commit, send.
      destruct (hd false (w_db_faults w1)); simpl.
      * split; [|split]; [|by intros _ [=]|by rewrite Hdb].
        exists evs, []. rewrite app_nil_r. by repeat split.
      * split; [|split]; [|by intros _ [=]|].
        2:{ intros _. split; [done|]. split; [done|]. intros Hu.
            exact (delete_user_removes_account target w0 w1 Hrun Hu). }
        exists evs, [EvCommit; EvReply (ReplyDeleted target)].
        rewrite Htr, <- !app_assoc. repeat split; [done|].
        repeat constructor; tauto.
    + simpl. split; [|split]; [|by intros _ [=]|by rewrite Hdb].
      exists evs, [EvReply (ReplyDeleted target)]. rewrite Htr, <- !app_assoc.
      repeat split; [done|]. repeat constructor. tauto.
  - simpl. split; [|split]; [| |by rewrite Hdb].
    + exists evs, [EvReply ReplyDeleteFailedMikroTik]. rewrite Htr, <- !app_assoc.
      repeat split; [done|]. repeat constructor. tauto.
    + intros _ _. split; [exact Hdb|]. apply last_snoc.
Qed.

(** C9 at the sample deployment: with the router unreachable the deletion
    is refused and the database kept; with the router answering, the
    account is gone from the router once the row is gone from the table. *)
Lemma C9_delete_remote_before_local_witness :
  let failed := admin_panel.process_delete_confirm "DELETE" "u1_17000" Demo.unreachable in
  let r := admin_panel.process_delete_confirm "DELETE" "u1_17000" Demo.world0 in
  (w_db failed.2 = w_db Demo.unreachable ∧
   last (w_trace failed.2) = Some (EvReply ReplyDeleteFailedMikroTik)) ∧
  subscriptions (w_db r.2) !! 1 = None ∧
  filter (λ u, uu_name u = "u1_17000") (accounts_at "10.0.0.1" r.2) = [].
Proof.
  split.
  - destruct (C9_delete_remote_before_local Demo.unreachable "DELETE" "u1_17000")
      as (_ & H & _).
    apply H; [reflexivity | vm_compute; reflexivity].
  - split; [vm_compute; reflexivity|].
    destruct (C9_delete_remote_before_local Demo.world0 "DELETE" "u1_17000")
      as (_ & _ & H).
    apply H.
    + intros Heq. apply (f_equal (λ d, subscriptions d !! 1)) in Heq.
      vm_compute in Heq. discriminate.
    + vm_compute. lia.
Defined.

(** C10. [WalletManager.deposit] checks no sign: for an existing user and any
    amount, negative ones included, a deposit whose commit goes through
    returns [True], adds the amount to [wallet_balance] and appends one
    ['deposit'] entry carrying exactly that signed amount; with a negative
    amount the balance goes down, below zero when the amount is large. *)
Theorem C10_deposit_has_no_sign_check (w : world) (user_id amt : Z) (descr : string)
    (u : User) :
  users (w_db w) !! user_id = Some u →
  hd false (w_db_faults w) = false →
  let r := WalletManager.deposit user_id amt descr w in
  r.1 = Ret true ∧
  wallet_balance <$> users (w_db r.2) !! user_id = Some (wallet_balance u + amt) ∧
  transactions (w_db r.2) =
    transactions (w_db w) ++ [mkTransaction user_id amt "deposit" descr] ∧
  (amt < 0 → balance_of (w_db r.2) user_id < wallet_balance u) ∧
  (amt < - wallet_balance u → balance_of (w_db r.2) user_id < 0).
Proof.
  intros Hu Hf. unfold WalletManager.deposit, try_except, mbind, M_bind, bind, gets, commit.
  rewrite Hu, Hf. simpl. unfold balance_of. simpl.
  rewrite lookup_alter_eq, Hu. simpl. repeat split; lia.
Qed.

Lemma C10_negative_deposit_witness :
  let r := WalletManager.deposit 1 (-80) "Deposit" Demo.world0 in
  r.1 = Ret true ∧
  wallet_balance <$> users (w_db r.2) !! 1 = Some (-30) ∧
  transactions (w_db r.2) =
    transactions Demo.db ++ [mkTransaction 1 (-80) "deposit" "Deposit"] ∧
  balance_of (w_db r.2) 1 < 0.
Proof.
  destruct (C10_deposit_has_no_sign_check Demo.world0 1 (-80) "Deposit" Demo.alice)
    as (H1 & H2 & H3 & _ & H5); [reflexivity | reflexivity |].
  split; [exact H1|]. split; [exact H2|]. split; [exact H3|].
  apply H5. vm_compute. reflexivity.
Defined.

(** ** Further properties of the code *)

(** X1. [deduct] never raises. When it returns [False] the database is as
    before. When it returns [True] the account existed and held at least the
    amount; its new balance is the old one less the amount, hence not
    negative, and the ledger gained one ['purchase'] entry of the negated
    amount. *)
Theorem X1_deduct_outcome (w : world) (uid a : Z) (descr : string) :
  let r := WalletManager.deduct uid a descr w in
  (r.1 = Ret true ∨ r.1 = Ret false) ∧
  (r.1 = Ret false → w_db r.2 = w_db w) ∧
  (r.1 = Ret true →
   ∃ u, users (w_db w) !! uid = Some u ∧ a ≤ wallet_balance u ∧
        balance_of (w_db r.2) uid = wallet_balance u - a ∧
        0 ≤ balance_of (w_db r.2) uid ∧
        transactions (w_db r.2) =
          transactions (w_db w) ++ [mkTransaction uid (- a) "purchase" descr]).
Proof.
  unfold WalletManager.deduct, try_except, mbind, M_bind, bind, gets, commit.
  destruct (users (w_db w) !! uid) as [u|] eqn:Hu; simpl.
  2:{ split; [by right|]. by split. }
  destruct (wallet_balance u <? a) eqn:Hlt; simpl.
  { split; [by right|]. by split. }
  destruct (hd false (w_db_faults w)); simpl.
  { split; [by right|]. by split. }
  apply Z.ltb_ge in Hlt.
  split; [by left|]. split; [done|]. intros _. exists u.
  unfold balance_of. simpl. rewrite lookup_alter_eq, Hu. simpl.
  repeat split; [done|lia].
Qed.

(** X2. [deposit] never raises and never writes half of its change: when it
    returns [False] the database is as before; when it returns [True] the
    account existed, its balance grew by the amount and the ledger gained the
    ['deposit'] entry of that amount, all other accounts keeping their
    balance. *)
Theorem X2_deposit_all_or_nothing (w : world) (uid a : Z) (descr : string) :
  let r := WalletManager.deposit uid a descr w in
  (r.1 = Ret true ∨ r.1 = Ret false) ∧
  (r.1 = Ret false → w_db r.2 = w_db w) ∧
  (r.1 = Ret true →
   balance_of (w_db r.2) uid = balance_of (w_db w) uid + a ∧
   is_Some (users (w_db w) !! uid) ∧
   transactions (w_db r.2) =
     transactions (w_db w) ++ [mkTransaction uid a "deposit" descr] ∧
   ∀ j, j ≠ uid → users (w_db r.2) !! j = users (w_db w) !! j).
Proof.
  unfold WalletManager.deposit, try_except, mbind, M_bind, bind, gets, commit.
  unfold balance_of.
  destruct (users (w_db w) !! uid) as [u|] eqn:Hu; simpl.
  2:{ split; [by right|]. by split. }
  destruct (hd false (w_db_faults w)); simpl.
  { split; [by right|]. by split. }
  split; [by left|]. split; [done|]. intros _.
  rewrite lookup_alter_eq, Hu. simpl. repeat split; [by eexists|].
  intros j Hj. by rewrite lookup_alter_ne.
Qed.

(** X3. A pending receipt of an existing account is credited exactly once:
    when the two commits go through, [approve_receipt] returns [True], marks
    the receipt approved with the admin's id in the note, raises the balance
    by the claimed amount and writes the entry "Receipt #id"; any later
    approval of the same receipt returns [False] and changes nothing. *)
Theorem X3_approve_credits_once (w : world) (rid aid aid' : Z)
    (rc : PaymentReceipt) (u : User) :
  payment_receipts (w_db w) !! rid = Some rc →
  status rc = "pending" →
  users (w_db w) !! receipt_user_id rc = Some u →
  hd false (w_db_faults w) = false →
  hd false (tl (w_db_faults w)) = false →
  let r := WalletManager.approve_receipt rid aid w in
  r.1 = Ret true ∧
  payment_receipts (w_db r.2) !! rid =
    Some (mkPaymentReceipt (receipt_user_id rc) (receipt_amount rc) (receipt_file_id rc)
            "approved" (Some ("Approved by " +:+ pretty aid))) ∧
  balance_of (w_db r.2) (receipt_user_id rc) = wallet_balance u + receipt_amount rc ∧
  transactions (w_db r.2) =
    transactions (w_db w) ++
    [mkTransaction (receipt_user_id rc) (receipt_amount rc) "deposit"
       ("Receipt #" +:+ pretty rid)] ∧
  WalletManager.approve_receipt rid aid' r.2 = (Ret false, r.2).
Proof.
  intros Hrc Hst Hu Hf1 Hf2.
  unfold WalletManager.approve_receipt, WalletManager.deposit,
    try_except, mbind, M_bind, bind, gets, commit, balance_of.
  rewrite Hrc. cbv beta iota. rewrite bool_decide_false by (rewrite Hst; intros H; by apply H).
  rewrite Hf1. simpl. rewrite Hu. simpl. rewrite Hf2. simpl.
  rewrite !lookup_alter_eq, Hrc, Hu. simpl.
  repeat split.
Qed.

Lemma X3_approve_credits_once_witness :
  let r := WalletManager.approve_receipt 2 7 Demo.world0 in
  r.1 = Ret true ∧
  status <$> payment_receipts (w_db r.2) !! 2 = Some "approved" ∧
  balance_of (w_db r.2) 1 = 70 ∧
  WalletManager.approve_receipt 2 8 r.2 = (Ret false, r.2).
Proof.
  destruct (X3_approve_credits_once Demo.world0 2 7 8
              (mkPaymentReceipt 1 20 "file-2" "pending" None) Demo.alice)
    as (H1 & H2 & H3 & _ & H5);
    [reflexivity | reflexivity | reflexivity | reflexivity | reflexivity |].
  split; [exact H1|]. split; [by rewrite H2|]. split; [exact H3|]. exact H5.
Defined.

(** X4. [approve_receipt] refuses a receipt that is missing or not pending:
    it returns [False] and leaves the world, database and trace, as it
    was. *)
Theorem X4_approve_refuses_decided (w : world) (rid aid : Z) :
  (∀ rc, payment_receipts (w_db w) !! rid = Some rc → status rc ≠ "pending") →
  WalletManager.approve_receipt rid aid w = (Ret false, w).
Proof.
  intros H. unfold WalletManager.approve_receipt, try_except, mbind, M_bind, bind, gets.
  destruct (payment_receipts (w_db w) !! rid) as [rc|]; [|done].
  cbv beta iota. by rewrite bool_decide_true by (by apply H).
Qed.

Lemma X4_approve_refuses_decided_witness :
  WalletManager.approve_receipt 1 7 Demo.world0 = (Ret false, Demo.world0) ∧
  WalletManager.approve_receipt 99 7 Demo.world0 = (Ret false, Demo.world0).
Proof.
  split.
  - apply X4_approve_refuses_decided. intros rc Hrc.
    vm_compute in Hrc. inversion Hrc. discriminate.
  - apply X4_approve_refuses_decided. intros rc Hrc. vm_compute in Hrc. discriminate.
Defined.

(** X5. [reject_receipt] has no effect on the ledger: for every receipt,
    whatever its status, and whether or not the commit raises, no balance
    and no entry changes, no subscription changes, and no receipt other than
    the one named is touched. *)
Theorem X5_reject_leaves_ledger (w : world) (rid aid : Z) (reason : string) :
  let r := WalletManager.reject_receipt rid aid reason w in
  users (w_db r.2) = users (w_db w) ∧
  transactions (w_db r.2) = transactions (w_db w) ∧
  subscriptions (w_db r.2) = subscriptions (w_db w) ∧
  ∀ j, j ≠ rid → payment_receipts (w_db r.2) !! j = payment_receipts (w_db w) !! j.
Proof.
  unfold WalletManager.reject_receipt, try_except, mbind, M_bind, bind, gets, commit.
  destruct (payment_receipts (w_db w) !! rid) as [rc|]; simpl; [|done].
  destruct (hd false (w_db_faults w)); simpl; [done|].
  repeat split. intros j Hj. by rewrite lookup_alter_ne.
Qed.

Lemma select_first_None {A} (P : Z → A → bool) (t : gmap Z A) :
  select_first P t = None → ∀ k a, t !! k = Some a → P k a = false.
Proof.
  unfold select_first. intros H k a Hk.
  apply (find_none _ _ H (k, a)). apply list_elem_of_In. by apply elem_of_map_to_list.
Qed.

(** The only row that satisfies [P] is the one just inserted. *)
Lemma select_first_insert_new {A} (P : Z → A → bool) (t : gmap Z A) k a :
  select_first P t = None → P k a = true →
  select_first P (<[k := a]> t) = Some (k, a).
Proof.
  intros Hnone HP.
  destruct (select_first P (<[k := a]> t)) as [[k' a']|] eqn:E.
  - apply select_first_Some in E as [Hk' HP'].
    destruct (decide (k = k')) as [<-|Hne].
    + rewrite lookup_insert_eq in Hk'. by inversion Hk'.
    + rewrite lookup_insert_ne in Hk' by done.
      by rewrite (select_first_None _ _ Hnone _ _ Hk') in HP'.
  - pose proof (select_first_None _ _ E k a (lookup_insert_eq _ _ _)) as H.
    by rewrite H in HP.
Qed.

(** X6. [start] registers a sender it does not know under a fresh key with
    balance 0, overwriting no account and writing no ledger entry; the
    sender is then found by the Telegram id, and a second [start] changes
    nothing in the database. *)
Theorem X6_start_registers_once (w : world) (sender : tg_user) :
  user_by_telegram_id (tg_id sender) (w_db w) = None →
  hd false (w_db_faults w) = false →
  let r := bot_handler.start sender w in
  let uid := next_id (users (w_db w)) in
  r.1 = Ret tt ∧
  users (w_db w) !! uid = None ∧
  user_by_telegram_id (tg_id sender) (w_db r.2) =
    Some (uid, mkUser (tg_id sender) (tg_username sender) (tg_full_name sender) 0) ∧
  (∀ j, j ≠ uid → users (w_db r.2) !! j = users (w_db w) !! j) ∧
  transactions (w_db r.2) = transactions (w_db w) ∧
  w_db (bot_handler.start sender r.2).2 = w_db r.2.
Proof.
  intros Hnone Hf.
  assert (user_by_telegram_id (tg_id sender)
            (set_users (insert (next_id (users (w_db w)))
               (mkUser (tg_id sender) (tg_username sender) (tg_full_name sender) 0))
               (w_db w)) =
          Some (next_id (users (w_db w)),
                mkUser (tg_id sender) (tg_username sender) (tg_full_name sender) 0))
    as Hfound.
  { unfold user_by_telegram_id. simpl. apply select_first_insert_new; [exact Hnone|].
    simpl. by apply bool_decide_eq_true. }
  unfold bot_handler.start, mbind, M_bind, bind, gets, commit, send.
  rewrite Hnone. simpl. rewrite Hf. simpl.
  rewrite Hfound. simpl.
  split; [done|]. split; [apply next_id_fresh|]. split; [done|].
  split; [|done]. intros j Hj. by rewrite lookup_insert_ne.
Qed.

Lemma X6_start_registers_once_witness :
  let bob := mkTgUser 2002 "bob" "Bob" in
  let r := bot_handler.start bob Demo.world0 in
  user_by_telegram_id 2002 (w_db r.2) = Some (2, mkUser 2002 "bob" "Bob" 0) ∧
  w_db (bot_handler.start bob r.2).2 = w_db r.2.
Proof.
  destruct (X6_start_registers_once Demo.world0 (mkTgUser 2002 "bob" "Bob"))
    as (_ & _ & H3 & _ & _ & H6); [reflexivity | reflexivity |].
  split; [exact H3 | exact H6].
Defined.


(** X9. Submitting a receipt and approving it credits exactly the amount
    submitted. [confirm_receipt] stores, under a fresh key, a pending
    receipt of the sender's account for the top-up amount and changes no
    balance and no entry; the approval of that receipt then raises the
    balance by that amount. *)
Theorem X9_submit_then_approve (w : world) (data : string) (sender : tg_user)
    (amt aid : Z) (file_id : option string) (text : string) (uid : Z) (u : User) :
  data ≠ "receipt_no" →
  user_by_telegram_id (tg_id sender) (w_db w) = Some (uid, u) →
  hd false (w_db_faults w) = false →
  hd false (tl (w_db_faults w)) = false →
  hd false (tl (tl (w_db_faults w))) = false →
  let rid := next_id (payment_receipts (w_db w)) in
  let r1 := bot_handler_wallet.confirm_receipt data sender amt file_id text w in
  let r2 := WalletManager.approve_receipt rid aid r1.2 in
  r1.1 = Ret (Some rid) ∧
  payment_receipts (w_db w) !! rid = None ∧
  (∃ stored, payment_receipts (w_db r1.2) !! rid =
             Some (mkPaymentReceipt uid amt stored "pending" None)) ∧
  users (w_db r1.2) = users (w_db w) ∧
  transactions (w_db r1.2) = transactions (w_db w) ∧
  r2.1 = Ret true ∧
  balance_of (w_db r2.2) uid = wallet_balance u + amt ∧
  status <$> payment_receipts (w_db r2.2) !! rid = Some "approved".
Proof.
  intros Hdata Hu Hf1 Hf2 Hf3.
  pose proof (select_first_Some _ _ _ _ Hu) as [Hu' _].
  unfold bot_handler_wallet.confirm_receipt.
  rewrite bool_decide_false by done.
  unfold WalletManager.approve_receipt, WalletManager.deposit,
    try_except, mbind, M_bind, bind, gets, commit, balance_of.
  rewrite Hu. simpl. rewrite Hf1. simpl.
  rewrite lookup_insert_eq. simpl. rewrite Hf2. simpl. rewrite Hu'. simpl.
  rewrite Hf3. simpl.
  rewrite !lookup_alter_eq, Hu', lookup_insert_eq. simpl.
  split; [done|]. split; [apply next_id_fresh|]. split; [by eexists|].
  repeat split.
Qed.

Lemma X9_submit_then_approve_witness :
  let r1 := bot_handler_wallet.confirm_receipt "receipt_yes" Demo.alice_tg 15
              (Some "photo-9") EmptyString Demo.world0 in
  let r2 := WalletManager.approve_receipt 3 7 r1.2 in
  r1.1 = Ret (Some 3) ∧ r2.1 = Ret true ∧ balance_of (w_db r2.2) 1 = 65.
Proof.
  destruct (X9_submit_then_approve Demo.world0 "receipt_yes" Demo.alice_tg 15 7
              (Some "photo-9") EmptyString 1 Demo.alice)
    as (H1 & _ & _ & _ & _ & H6 & H7 & _);
    [discriminate | reflexivity | reflexivity | reflexivity | reflexivity |].
  split; [exact H1|]. split; [exact H6 | exact H7].
Defined.

(** ** Calls that go through *)

Lemma moved_refl h r w : reachable h r w → moved h r w w.
Proof. intros H. split; [done|]. split; [apply api_only_refl|done]. Qed.

Lemma moved_trans h r1 r2 w w1 w2 :
  moved h r1 w w1 → moved h r2 w1 w2 → moved h r2 w w2.
Proof.
  intros (_ & A1 & O1) (R2 & A2 & O2). split; [done|].
  split; [by eapply api_only_trans|]. intros h' Hh'. rewrite O2 by done. by apply O1.
Qed.

Lemma try_ret {A} (m h : M A) w a w' :
  m w = (Ret a, w') → try_except m h w = (Ret a, w').
Proof. intros H. unfold try_except. by rewrite H. Qed.

Lemma try_exc {A} (m h : M A) w e w' :
  m w = (Exc e, w') → try_except m h w = h w'.
Proof. intros H. unfold try_except. by rewrite H. Qed.

Lemma call_moved {A} path verb (f : router → A * router) h r w :
  reachable h r w →
  ∃ w', MikroTikManager.call path verb f w = (Ret (f r).1, w') ∧ moved h (f r).2 w w'.
Proof.
  intros (Hh & Hf & Hr). unfold MikroTikManager.call.
  rewrite Hf, Hh, Hr. simpl. destruct (f r) as [a r'] eqn:E. simpl.
  eexists. split; [reflexivity|].
  split; [|split].
  - split; [done|]. split; [done|]. simpl. apply lookup_insert_eq.
  - repeat split. simpl. eexists. split; [done|]. by repeat constructor.
  - intros h' Hh'. simpl. by rewrite lookup_insert_ne.
Qed.

Lemma get_resource_moved path h r w :
  reachable h r w →
  ∃ w', MikroTikManager._get_resource path w = (Ret path, w') ∧ moved h r w w'.
Proof.
  intros Hr. unfold MikroTikManager._get_resource. rewrite run_gets.
  destruct (mgr_api (w_mgr w)).
  - exists w. split; [done|]. by apply moved_refl.
  - unfold MikroTikManager.connect.
    destruct (call_moved EmptyString "connect" (λ r, (tt, r)) h r w Hr)
      as (w1 & E1 & M1). simpl in *.
    rewrite run_assoc, (run_bind _ _ _ _ _ E1).
    eexists. split; [reflexivity|].
    eapply moved_trans; [exact M1|].
    destruct M1 as ((? & ? & ?) & _). split; [done|].
    split; [|done]. repeat split. exists []. simpl. by rewrite app_nil_r.
Qed.

Lemma for_each_call_moved {A} path verb (g : A → router → unit * router)
    (l : list A) h r w :
  reachable h r w →
  ∃ w', for_each l (λ x, MikroTikManager.call path verb (g x)) w = (Ret tt, w') ∧
        moved h (foldl (λ r x, (g x r).2) r l) w w'.
Proof.
  revert r w. induction l as [|x l IH]; intros r w Hr; simpl.
  - exists w. split; [done|]. by apply moved_refl.
  - destruct (call_moved path verb (g x) h r w Hr) as (w1 & E1 & M1).
    rewrite (run_bind _ _ _ _ _ E1).
    destruct (IH _ w1 (proj1 M1)) as (w2 & E2 & M2).
    exists w2. split; [exact E2|]. by eapply moved_trans.
Qed.

(** Runs the next call of a method on a router that answers. *)
Ltac reach_call H w1 E M :=
  lazymatch goal with
  | |- context [ (MikroTikManager._get_resource ?p ≫= ?k) ?w ] =>
      destruct (get_resource_moved p _ _ w H) as (w1 & E & M);
      rewrite (run_bind _ _ _ _ _ E); cbv beta
  | |- context [ (MikroTikManager.call ?p ?v ?f ≫= ?k) ?w ] =>
      destruct (call_moved p v f _ _ w H) as (w1 & E & M);
      rewrite (run_bind _ _ _ _ _ E); cbv beta
  end.

Lemma create_user_moved uname pw prof h r w :
  reachable h r w →
  ∃ w', MikroTikManager.create_user uname pw prof w = (Ret true, w') ∧
        moved h (Ros.user_profiles_add uname prof (Ros.users_add uname pw r).2).2 w w'.
Proof.
  intros H0. unfold MikroTikManager.create_user.
  eassert (∃ w', _ w = (Ret true, w') ∧ _) as (w' & E & M);
    [|exists w'; split; [apply try_ret, E|exact M]].
  reach_call H0 w1 E1 M1. reach_call (proj1 M1) w2 E2 M2.
  reach_call (proj1 M2) w3 E3 M3. reach_call (proj1 M3) w4 E4 M4.
  eexists. split; [reflexivity|].
  eapply moved_trans; [exact M1|]. eapply moved_trans; [exact M2|].
  eapply moved_trans; [exact M3|]. exact M4.
Qed.

(** Chains the steps [M1 ... Mn] of a method. *)
Ltac moved_chain :=
  repeat (eapply moved_trans; [eassumption|]);
  first [ eassumption
        | apply moved_refl;
          first [ assumption
                | match goal with
                  | M : moved _ _ _ ?w |- reachable _ _ ?w => exact (proj1 M)
                  end ] ].

Lemma get_user_info_moved uname h r w :
  reachable h r w →
  ∃ w', MikroTikManager.get_user_info uname w = (Ret (info_of uname r), w') ∧
        moved h r w w'.
Proof.
  intros H0. unfold MikroTikManager.get_user_info, info_of.
  eassert (∃ w', _ w = (Ret _, w') ∧ _) as (w' & E & M);
    [|exists w'; split; [apply try_ret, E|exact M]].
  reach_call H0 w1 E1 M1. reach_call (proj1 M1) w2 E2 M2. simpl in *.
  destruct (filter _ (um_users r)) as [|u found].
  - eexists. split; [reflexivity|]. moved_chain.
  - reach_call (proj1 M2) w3 E3 M3. reach_call (proj1 M3) w4 E4 M4. simpl in *.
    eexists. split; [reflexivity|]. moved_chain.
Qed.

Lemma add_data_to_user_moved uname gb h r w :
  reachable h r w →
  ∃ w', MikroTikManager.add_data_to_user uname gb w = (Ret (data_added uname gb r).1, w') ∧
        moved h (data_added uname gb r).2 w w'.
Proof.
  intros H0. unfold MikroTikManager.add_data_to_user, data_added.
  eassert (∃ w', _ w = (Ret _, w') ∧ _) as (w' & E & M);
    [|exists w'; split; [apply try_ret, E|exact M]].
  reach_call H0 w1 E1 M1. reach_call (proj1 M1) w2 E2 M2. simpl in *.
  destruct (filter _ (um_limitations r)) as [|l found].
  - eexists. split; [reflexivity|]. moved_chain.
  - reach_call (proj1 M2) w3 E3 M3. simpl in *.
    eexists. split; [reflexivity|]. moved_chain.
Qed.

Lemma reset_password_moved uname pw h r w :
  reachable h r w →
  ∃ w', MikroTikManager_admin.reset_password uname pw w =
          (Ret (password_reset uname pw r).1, w') ∧
        moved h (password_reset uname pw r).2 w w'.
Proof.
  intros H0. unfold MikroTikManager_admin.reset_password, password_reset.
  eassert (∃ w', _ w = (Ret _, w') ∧ _) as (w' & E & M);
    [|exists w'; split; [apply try_ret, E|exact M]].
  reach_call H0 w1 E1 M1. reach_call (proj1 M1) w2 E2 M2. simpl in *.
  destruct (filter _ (um_users r)) as [|u found].
  - eexists. split; [reflexivity|]. moved_chain.
  - reach_call (proj1 M2) w3 E3 M3. simpl in *.
    eexists. split; [reflexivity|]. moved_chain.
Qed.

Lemma disconnect_user_session_moved uname h r w :
  reachable h r w →
  ∃ w', MikroTikManager.disconnect_user_session uname w = (Ret true, w') ∧
        moved h (sessions_dropped uname r) w w'.
Proof.
  intros H0. unfold MikroTikManager.disconnect_user_session, sessions_dropped.
  eassert (∃ w', _ w = (Ret _, w') ∧ _) as (w' & E & M);
    [|exists w'; split; [apply try_ret, E|exact M]].
  reach_call H0 w1 E1 M1. reach_call (proj1 M1) w2 E2 M2. simpl in *.
  destruct (for_each_call_moved "/user-manager/session" "remove"
              (λ s, Ros.sessions_remove (se_id s))
              (filter (λ s, se_user s = uname ∧ se_active s = true) (um_sessions r))
              h r w2 (proj1 M2)) as (w3 & E3 & M3).
  rewrite (run_bind _ _ _ _ _ E3).
  eexists. split; [reflexivity|]. moved_chain.
Qed.

Lemma enable_user_moved uname h r w :
  reachable h r w →
  ∃ w', MikroTikManager.enable_user uname w = (Ret true, w') ∧
        moved h (enabled uname r) w w'.
Proof.
  intros H0. unfold MikroTikManager.enable_user, enabled.
  eassert (∃ w', _ w = (Ret _, w') ∧ _) as (w' & E & M);
    [|exists w'; split; [apply try_ret, E|exact M]].
  reach_call H0 w1 E1 M1. reach_call (proj1 M1) w2 E2 M2. simpl in *.
  destruct (filter _ (um_users r)) as [|u found].
  - eexists. split; [reflexivity|]. moved_chain.
  - cbv iota. reach_call (proj1 M2) w3 E3 M3. simpl in *.
    eexists. split; [reflexivity|]. moved_chain.
Qed.

Lemma disable_user_moved uname h r w :
  reachable h r w →
  ∃ w', MikroTikManager_admin.disable_user uname w = (Ret true, w') ∧
        moved h (disabled uname r) w w'.
Proof.
  intros H0. unfold MikroTikManager_admin.disable_user, disabled.
  eassert (∃ w', _ w = (Ret _, w') ∧ _) as (w' & E & M);
    [|exists w'; split; [apply try_ret, E|exact M]].
  reach_call H0 w1 E1 M1. reach_call (proj1 M1) w2 E2 M2. simpl in *.
  destruct (filter _ (um_users r)) as [|u found].
  - eexists. split; [reflexivity|]. moved_chain.
  - cbv iota. rewrite run_assoc. reach_call (proj1 M2) w3 E3 M3. simpl in *.
    destruct (disconnect_user_session_moved uname h _ w3 (proj1 M3)) as (w4 & E4 & M4).
    rewrite run_assoc, (run_bind _ _ _ _ _ E4).
    eexists. split; [reflexivity|]. moved_chain.
Qed.

Lemma delete_user_moved uname h r w :
  reachable h r w →
  ∃ w', MikroTikManager.delete_user uname w = (Ret true, w') ∧
        moved h (deleted uname r) w w'.
Proof.
  intros H0. unfold MikroTikManager.delete_user, deleted.
  eassert (∃ w', _ w = (Ret _, w') ∧ _) as (w' & E & M);
    [|exists w'; split; [apply try_ret, E|exact M]].
  destruct (disconnect_user_session_moved uname h _ w H0) as (w1 & E1 & M1).
  rewrite (run_bind _ _ _ _ _ E1).
  set (r1 := sessions_dropped uname r) in *.
  reach_call (proj1 M1) w2 E2 M2. reach_call (proj1 M2) w3 E3 M3. simpl in *.
  assert (∃ w4 r2,
    match filter (λ u, uu_name u = uname) (um_users r1) with
    | [] => ret ()
    | u :: _ => MikroTikManager.call "/user-manager/user" "remove"
                  (Ros.users_remove (uu_id u))
    end w3 = (Ret tt, w4) ∧
    r2 = match filter (λ u, uu_name u = uname) (um_users r1) with
         | u :: _ => (Ros.users_remove (uu_id u) r1).2
         | [] => r1
         end ∧ moved h r2 w3 w4) as (w4 & r2 & E4 & Hr2 & M4).
  { destruct (filter _ (um_users r1)) as [|u found].
    - exists w3, r1. split; [done|]. split; [done|]. apply moved_refl, M3.
    - destruct (call_moved "/user-manager/user" "remove" (Ros.users_remove (uu_id u))
                  h r1 w3 (proj1 M3)) as (w4 & E4 & M4).
      exists w4. eexists. split; [exact E4|]. split; [reflexivity|]. exact M4. }
  rewrite (run_bind _ _ _ _ _ E4).
  reach_call (proj1 M4) w5 E5 M5. reach_call (proj1 M5) w6 E6 M6. simpl in *.
  destruct (for_each_call_moved "/user-manager/user-profile" "remove"
              (λ p, Ros.user_profiles_remove (up_id p))
              (filter (λ p, up_user p = uname) (um_user_profiles r2))
              h r2 w6 (proj1 M6)) as (w7 & E7 & M7).
  rewrite (run_bind _ _ _ _ _ E7). subst r2 r1.
  eexists. split; [reflexivity|]. cbv zeta. moved_chain.
Qed.

Lemma moved_same_routers h r w w' :
  reachable h r w → moved h r w w' → w_routers w' = w_routers w.
Proof.
  intros (_ & _ & Hr) ((_ & _ & Hr') & _ & Ho). apply map_eq. intros h'.
  destruct (decide (h' = h)) as [->|Hne]; [congruence|by apply Ho].
Qed.

Lemma filter_fmap_same {A} (P : A → Prop) `{∀ x, Decision (P x)} (f : A → A) (l : list A) :
  (∀ x, P (f x) ↔ P x) → filter P (f <$> l) = f <$> filter P l.
Proof.
  intros Hf. induction l as [|x l IH]; [done|].
  rewrite fmap_cons, !filter_cons, IH.
  destruct (decide (P (f x))) as [H1|H1]; destruct (decide (P x)) as [H2|H2].
  - by rewrite fmap_cons.
  - exfalso. apply H2. by apply Hf.
  - exfalso. apply H1. by apply Hf.
  - done.
Qed.

(** The rows left when the rows of [l] are removed one by one by key. *)
Lemma elem_of_foldl_filter {A} (key : A → Z) (l rows : list A) x :
  x ∈ foldl (λ rows s, filter (λ y, key y ≠ key s) rows) rows l ↔
  x ∈ rows ∧ ∀ s, s ∈ l → key x ≠ key s.
Proof.
  revert rows. induction l as [|s l IH]; intros rows; simpl.
  - split; [intros ?; split; [done|]; by intros ? ?%elem_of_nil|by intros [? _]].
  - rewrite IH, list_elem_of_filter. split.
    + intros [[Hk Hx] Hl]. split; [done|]. intros s' [->|Hs']%elem_of_cons; auto.
    + intros [Hx Hl]. split; [split; [|done]|].
      * apply Hl. by left.
      * intros s' Hs'. apply Hl. by right.
Qed.

Lemma sessions_dropped_sessions uname r :
  um_sessions (sessions_dropped uname r) =
  foldl (λ rows s, filter (λ y, se_id y ≠ se_id s) rows) (um_sessions r)
        (filter (λ s, se_user s = uname ∧ se_active s = true) (um_sessions r)).
Proof.
  unfold sessions_dropped.
  generalize (filter (λ s, se_user s = uname ∧ se_active s = true) (um_sessions r)).
  intros l. revert r. induction l as [|s l IH]; intros r; simpl; [done|].
  by rewrite IH.
Qed.

Lemma sessions_dropped_rest uname r :
  um_users (sessions_dropped uname r) = um_users r ∧
  um_user_profiles (sessions_dropped uname r) = um_user_profiles r ∧
  um_limitations (sessions_dropped uname r) = um_limitations r.
Proof.
  unfold sessions_dropped.
  generalize (filter (λ s, se_user s = uname ∧ se_active s = true) (um_sessions r)).
  intros l. revert r. induction l as [|s l IH]; intros r; simpl; [done|].
  apply (IH (Ros.sessions_remove (se_id s) r).2).
Qed.

Lemma sessions_dropped_none uname r :
  filter (λ s, se_user s = uname ∧ se_active s = true)
         (um_sessions (sessions_dropped uname r)) = [].
Proof.
  rewrite sessions_dropped_sessions.
  match goal with |- ?l = [] => destruct l as [|x l'] eqn:E end; [done|]. exfalso.
  assert (x ∈ x :: l') as Hx by left. rewrite <- E in Hx.
  apply list_elem_of_filter in Hx as [HP Hx].
  apply elem_of_foldl_filter in Hx as [Hx Hall].
  apply (Hall x); [|done]. apply list_elem_of_filter. by split.
Qed.

(** X10. On a router that answers, [create_user] returns [True]; the router
    then holds the account, enabled, with the name and password given, and
    a user-profile row that assigns it the profile, and every account it
    held before. Nothing else in the world changes but the trace. *)
Theorem X10_create_user_provisions (uname pw prof h : string) (r : router) (w : world) :
  reachable h r w →
  let res := MikroTikManager.create_user uname pw prof w in
  res.1 = Ret true ∧
  ∃ r', w_routers res.2 !! h = Some r' ∧
        um_users r' = um_users r ++ [mkUmUser (um_next_id r) uname pw false 0 0] ∧
        um_user_profiles r' =
          um_user_profiles r ++ [mkUmUserProfile (um_next_id r + 1) uname prof] ∧
        w_db res.2 = w_db w.
Proof.
  intros H0. destruct (create_user_moved uname pw prof h r w H0) as (w' & E & M).
  simpl. rewrite E. simpl. split; [done|].
  destruct M as ((_ & _ & Hr) & (Hdb & _) & _).
  eexists. split; [exact Hr|]. by repeat split.
Qed.

Lemma X10_create_user_provisions_witness :
  let w := (MikroTikManager.init None Demo.world0).2 in
  let res := MikroTikManager.create_user "u7" "pw7" "basic" w in
  res.1 = Ret true ∧
  ∃ r', w_routers res.2 !! "10.0.0.1" = Some r' ∧
        um_users r' = um_users Demo.main_router ++ [mkUmUser 4 "u7" "pw7" false 0 0].
Proof.
  destruct (X10_create_user_provisions "u7" "pw7" "basic" "10.0.0.1" Demo.main_router
              (MikroTikManager.init None Demo.world0).2) as (H1 & r' & H2 & H3 & _).
  - repeat split.
  - split; [exact H1|]. exists r'. by split.
Defined.

(** X11. [create_user] does not undo its first step: when the account was
    added and the assignment of the profile raises, it returns [False] and
    the account stays on the router, without a profile. *)
Theorem X11_create_user_leaves_account (uname pw prof : string) (r : router)
    (rest : list bool) (w : world) :
  mgr_api (w_mgr w) = false →
  w_api_faults w = false :: false :: true :: rest →
  w_routers w !! mgr_host (w_mgr w) = Some r →
  let res := MikroTikManager.create_user uname pw prof w in
  res.1 = Ret false ∧
  ∃ r', w_routers res.2 !! mgr_host (w_mgr w) = Some r' ∧
        um_users r' = um_users r ++ [mkUmUser (um_next_id r) uname pw false 0 0] ∧
        um_user_profiles r' = um_user_profiles r.
Proof.
  intros Hapi Hf Hr.
  unfold MikroTikManager.create_user, MikroTikManager._get_resource,
    MikroTikManager.connect, MikroTikManager.call, MikroTikManager.set_api,
    try_except, mbind, M_bind, bind, gets.
  rewrite Hapi, Hf. simpl. rewrite Hr. simpl.
  rewrite lookup_insert_eq. simpl. split; [done|].
  eexists. split; [apply lookup_insert_eq|]. by split.
Qed.

Lemma X11_create_user_leaves_account_witness :
  let w := (MikroTikManager.init None (with_api_faults [false; false; true] Demo.world0)).2 in
  let res := MikroTikManager.create_user "u7" "pw7" "basic" w in
  res.1 = Ret false ∧
  ∃ r', w_routers res.2 !! "10.0.0.1" = Some r' ∧
        um_users r' = um_users Demo.main_router ++ [mkUmUser 4 "u7" "pw7" false 0 0] ∧
        um_user_profiles r' = um_user_profiles Demo.main_router.
Proof.
  apply (X11_create_user_leaves_account "u7" "pw7" "basic" Demo.main_router []
           (MikroTikManager.init None
              (with_api_faults [false; false; true] Demo.world0)).2);
    reflexivity.
Defined.

(** X12. [get_user_info] only reads. On a router that answers it returns
    [None] when no account has the name; otherwise it reports the first such
    account: [used_bytes] is download plus upload, [is_active] holds exactly
    when the account is not disabled and the status is then 'active',
    [connected_devices] counts the active sessions of the name. The routers
    are left as they were. *)
Theorem X12_get_user_info_reads (uname h : string) (r : router) (w : world) :
  reachable h r w →
  let res := MikroTikManager.get_user_info uname w in
  w_routers res.2 = w_routers w ∧ w_db res.2 = w_db w ∧
  match filter (λ u, uu_name u = uname) (um_users r) with
  | [] => res.1 = Ret None
  | u :: _ =>
      ∃ info, res.1 = Ret (Some info) ∧
        ui_password info = uu_password u ∧
        ui_used_bytes info = uu_download_used u + uu_upload_used u ∧
        ui_is_active info = negb (uu_disabled u) ∧
        (ui_status info = "active" ↔ uu_disabled u = false) ∧
        ui_connected_devices info =
          length (filter (λ s, se_user s = uname ∧ se_active s = true) (um_sessions r))
  end.
Proof.
  intros H0. destruct (get_user_info_moved uname h r w H0) as (w' & E & M).
  simpl. rewrite E. simpl.
  split; [by eapply moved_same_routers|]. split; [apply M|].
  unfold info_of. destruct (filter _ (um_users r)) as [|u found]; [done|].
  eexists. split; [reflexivity|]. simpl. repeat split; by destruct (uu_disabled u).
Qed.

Lemma X12_get_user_info_reads_witness :
  let w := (MikroTikManager.init None Demo.world0).2 in
  let res := MikroTikManager.get_user_info "u1_17000" w in
  w_routers res.2 = w_routers w ∧
  ∃ info, res.1 = Ret (Some info) ∧ ui_is_active info = true ∧ ui_password info = "pw".
Proof.
  destruct (X12_get_user_info_reads "u1_17000" "10.0.0.1" Demo.main_router
              (MikroTikManager.init None Demo.world0).2) as (H1 & _ & H3).
  - repeat split.
  - split; [exact H1|]. simpl in H3.
    destruct H3 as (info & Hi & Hp & _ & Ha & _). exists info. by repeat split.
Defined.

Lemma moved_same_target h r w wa wb :
  moved h r w wa → moved h r w wb → w_routers wa = w_routers wb.
Proof.
  intros ((_ & _ & Ha) & _ & Oa) ((_ & _ & Hb) & _ & Ob). apply map_eq. intros h'.
  destruct (decide (h' = h)) as [->|Hne]; [congruence|].
  rewrite Oa, Ob by done. done.
Qed.

Lemma data_added_twice uname g1 g2 r :
  (data_added uname g2 (data_added uname g1 r).2).2 = (data_added uname (g1 + g2) r).2.
Proof.
  unfold data_added.
  destruct (filter (λ l, li_name l = uname) (um_limitations r)) as [|l found] eqn:E;
    simpl; [by rewrite E|].
  rewrite filter_fmap_same by (intros x; simpl; case_bool_decide; reflexivity).
  rewrite E. simpl.
  assert (bool_decide (li_id l = li_id l) = true) as -> by by apply bool_decide_eq_true.
  simpl.
  f_equal. rewrite <- list_fmap_compose. apply list_fmap_ext. intros _ x _. simpl.
  destruct (decide (li_id x = li_id l)) as [Hx|Hx].
  - rewrite !(bool_decide_true _ Hx). simpl. rewrite ?(bool_decide_true _ Hx).
    f_equal. lia.
  - rewrite !(bool_decide_false _ Hx). simpl. by rewrite ?(bool_decide_false _ Hx).
Qed.

(** X13. [add_data_to_user] adds to the limit it finds. On a router that
    answers it returns [False] and changes nothing when no limitation has
    the name; otherwise it returns [True] and the limitation found first now
    allows the old total plus the gigabytes times 1024^3. Adding twice
    leaves the routers as adding the sum once. *)
Theorem X13_add_data_is_additive (uname h : string) (gb gb' : Z) (r : router) (w : world) :
  reachable h r w →
  let res := MikroTikManager.add_data_to_user uname gb w in
  match filter (λ l, li_name l = uname) (um_limitations r) with
  | [] => res.1 = Ret false ∧ w_routers res.2 = w_routers w
  | l :: _ =>
      res.1 = Ret true ∧
      ∃ r' l' rest,
        w_routers res.2 !! h = Some r' ∧
        filter (λ l, li_name l = uname) (um_limitations r') = l' :: rest ∧
        li_id l' = li_id l ∧
        li_total_limit l' = li_total_limit l + gb * 1024 ^ 3
  end ∧
  w_routers (MikroTikManager.add_data_to_user uname gb' res.2).2 =
  w_routers (MikroTikManager.add_data_to_user uname (gb + gb') w).2.
Proof.
  intros H0.
  destruct (add_data_to_user_moved uname gb h r w H0) as (w1 & E1 & M1).
  destruct (add_data_to_user_moved uname gb' h _ w1 (proj1 M1)) as (w2 & E2 & M2).
  destruct (add_data_to_user_moved uname (gb + gb') h r w H0) as (w3 & E3 & M3).
  simpl. rewrite E1. simpl. rewrite E2, E3. simpl. split.
  - unfold data_added in *.
    destruct (filter (λ l, li_name l = uname) (um_limitations r)) as [|l found] eqn:E;
      simpl in *.
    + split; [done|]. by eapply moved_same_routers.
    + split; [done|]. eexists. eexists. eexists.
      split; [apply M1|]. simpl.
      rewrite filter_fmap_same by (intros x; simpl; case_bool_decide; reflexivity).
      rewrite E. simpl.
      assert (bool_decide (li_id l = li_id l) = true) as ->
        by by apply bool_decide_eq_true.
      split; [reflexivity|]. by split.
  - eapply moved_same_target; [|exact M3].
    rewrite <- data_added_twice. eapply moved_trans; [exact M1|exact M2].
Qed.

Lemma X13_add_data_is_additive_witness :
  let w := (MikroTikManager.init None Demo.world0).2 in
  let res := MikroTikManager.add_data_to_user "u1_17000" 5 w in
  res.1 = Ret true ∧
  w_routers (MikroTikManager.add_data_to_user "u1_17000" 3 res.2).2 =
  w_routers (MikroTikManager.add_data_to_user "u1_17000" 8 w).2.
Proof.
  destruct (X13_add_data_is_additive "u1_17000" "10.0.0.1" 5 3 Demo.main_router
              (MikroTikManager.init None Demo.world0).2) as (H1 & H2).
  - repeat split.
  - simpl in H1. destruct H1 as (H1 & _). split; [exact H1 | exact H2].
Defined.

(** X14. Disabling shows in the next status query: on a router that answers
    and holds the account, [disable_user] returns [True], and
    [get_user_info] then reports the account as banned, not active, with no
    connected device. *)
Theorem X14_disable_then_info (uname h : string) (r : router) (w : world) :
  reachable h r w →
  filter (λ u, uu_name u = uname) (um_users r) ≠ [] →
  let res := MikroTikManager_admin.disable_user uname w in
  res.1 = Ret true ∧
  ∃ info, (MikroTikManager.get_user_info uname res.2).1 = Ret (Some info) ∧
          ui_is_active info = false ∧ ui_status info = "banned" ∧
          ui_connected_devices info = 0%nat.
Proof.
  intros H0 Hne.
  destruct (disable_user_moved uname h r w H0) as (w1 & E1 & M1).
  destruct (get_user_info_moved uname h _ w1 (proj1 M1)) as (w2 & E2 & M2).
  simpl. rewrite E1. simpl. rewrite E2. simpl. split; [done|].
  unfold info_of, disabled.
  destruct (filter (λ u, uu_name u = uname) (um_users r)) as [|u found] eqn:E; [done|].
  destruct (sessions_dropped_rest uname
              (Ros.users_set (uu_id u)
                 (λ x, mkUmUser (uu_id x) (uu_name x) (uu_password x) true
                         (uu_download_used x) (uu_upload_used x)) r).2) as (-> & _).
  rewrite sessions_dropped_none. simpl.
  rewrite filter_fmap_same by (intros x; simpl; case_bool_decide; reflexivity).
  rewrite E. simpl.
  assert (bool_decide (uu_id u = uu_id u) = true) as -> by by apply bool_decide_eq_true.
  simpl. eexists. split; [reflexivity|]. by repeat split.
Qed.

Lemma X14_disable_then_info_witness :
  let w := (MikroTikManager.init None Demo.world0).2 in
  let res := MikroTikManager_admin.disable_user "u1_17000" w in
  res.1 = Ret true ∧
  ∃ info, (MikroTikManager.get_user_info "u1_17000" res.2).1 = Ret (Some info) ∧
          ui_is_active info = false.
Proof.
  destruct (X14_disable_then_info "u1_17000" "10.0.0.1" Demo.main_router
              (MikroTikManager.init None Demo.world0).2) as (H1 & info & H2 & H3 & _).
  - repeat split.
  - vm_compute. discriminate.
  - split; [exact H1|]. exists info. by split.
Defined.

(** X15. A password reset shows in the next status query: on a router that
    answers, [reset_password] returns [False] and changes nothing when no
    account has the name; otherwise it returns [True] and [get_user_info]
    then reports the new password. *)
Theorem X15_reset_password_then_info (uname pw h : string) (r : router) (w : world) :
  reachable h r w →
  let res := MikroTikManager_admin.reset_password uname pw w in
  match filter (λ u, uu_name u = uname) (um_users r) with
  | [] => res.1 = Ret false ∧ w_routers res.2 = w_routers w
  | _ :: _ =>
      res.1 = Ret true ∧
      ∃ info, (MikroTikManager.get_user_info uname res.2).1 = Ret (Some info) ∧
              ui_password info = pw
  end.
Proof.
  intros H0.
  destruct (reset_password_moved uname pw h r w H0) as (w1 & E1 & M1).
  destruct (get_user_info_moved uname h _ w1 (proj1 M1)) as (w2 & E2 & M2).
  simpl. rewrite E1. simpl. rewrite E2. simpl.
  unfold info_of, password_reset in *.
  destruct (filter (λ u, uu_name u = uname) (um_users r)) as [|u found] eqn:E; simpl in *.
  - split; [done|]. by eapply moved_same_routers.
  - split; [done|].
    rewrite filter_fmap_same by (intros x; simpl; case_bool_decide; reflexivity).
    rewrite E. simpl.
    assert (bool_decide (uu_id u = uu_id u) = true) as -> by by apply bool_decide_eq_true.
    simpl. eexists. by split.
Qed.

Lemma X15_reset_password_then_info_witness :
  let w := (MikroTikManager.init None Demo.world0).2 in
  let res := MikroTikManager_admin.reset_password "u1_17000" "fresh" w in
  res.1 = Ret true ∧
  ∃ info, (MikroTikManager.get_user_info "u1_17000" res.2).1 = Ret (Some info) ∧
          ui_password info = "fresh".
Proof.
  pose proof (X15_reset_password_then_info "u1_17000" "fresh" "10.0.0.1"
                Demo.main_router (MikroTikManager.init None Demo.world0).2) as H.
  simpl in H. apply H. repeat split.
Defined.

Lemma profiles_removed_rest (l : list um_user_profile) r :
  um_users (foldl (λ r p, (Ros.user_profiles_remove (up_id p) r).2) r l) = um_users r ∧
  um_sessions (foldl (λ r p, (Ros.user_profiles_remove (up_id p) r).2) r l) = um_sessions r ∧
  um_user_profiles (foldl (λ r p, (Ros.user_profiles_remove (up_id p) r).2) r l) =
    foldl (λ rows s, filter (λ y, up_id y ≠ up_id s) rows) (um_user_profiles r) l.
Proof.
  revert r. induction l as [|p l IH]; intros r; simpl; [done|].
  apply (IH (Ros.user_profiles_remove (up_id p) r).2).
Qed.

(** X16. On a router that answers, [delete_user] returns [True] whether or
    not the account exists, and afterwards no user-profile row and no active
    session carries the name, and neither does any account if at most one
    did. *)
Theorem X16_delete_user_clears (uname h : string) (r : router) (w : world) :
  reachable h r w →
  let res := MikroTikManager.delete_user uname w in
  res.1 = Ret true ∧
  ∃ r', w_routers res.2 !! h = Some r' ∧
        filter (λ p, up_user p = uname) (um_user_profiles r') = [] ∧
        filter (λ s, se_user s = uname ∧ se_active s = true) (um_sessions r') = [] ∧
        ((length (filter (λ u, uu_name u = uname) (um_users r)) ≤ 1)%nat →
         filter (λ u, uu_name u = uname) (um_users r') = []).
Proof.
  intros H0. destruct (delete_user_moved uname h r w H0) as (w' & E & M).
  simpl. rewrite E. simpl. split; [done|].
  exists (deleted uname r). split; [apply M|].
  unfold deleted.
  set (r1 := sessions_dropped uname r).
  set (r2 := match filter (λ u, uu_name u = uname) (um_users r1) with
             | [] => r1
             | u :: _ => (Ros.users_remove (uu_id u) r1).2
             end).
  destruct (profiles_removed_rest (filter (λ p, up_user p = uname) (um_user_profiles r2)) r2)
    as (Hu & Hs & Hp).
  assert (um_sessions r2 = um_sessions r1) as Hs2
    by (subst r2; by destruct (filter _ (um_users r1))).
  split; [|split].
  - rewrite Hp.
    match goal with |- ?l = [] => destruct l as [|x l'] eqn:Ex end; [done|]. exfalso.
    assert (x ∈ x :: l') as Hx by left. rewrite <- Ex in Hx.
    apply list_elem_of_filter in Hx as [HP Hx].
    apply elem_of_foldl_filter in Hx as [Hx Hall].
    apply (Hall x); [|done]. apply list_elem_of_filter. by split.
  - rewrite Hs, Hs2. apply sessions_dropped_none.
  - intros Huniq.
    pose proof (delete_user_removes_account uname w w' E) as Hgone.
    destruct H0 as (Hh & _ & Hr). destruct M as ((_ & _ & Hr') & _).
    unfold accounts_at in Hgone. rewrite Hh, Hr, Hr' in Hgone. by apply Hgone.
Qed.

Lemma X16_delete_user_clears_witness :
  let w := (MikroTikManager.init None Demo.world0).2 in
  let res := MikroTikManager.delete_user "u1_17000" w in
  res.1 = Ret true ∧
  ∃ r', w_routers res.2 !! "10.0.0.1" = Some r' ∧
        filter (λ p, up_user p = "u1_17000") (um_user_profiles r') = [] ∧
        filter (λ u, uu_name u = "u1_17000") (um_users r') = [].
Proof.
  destruct (X16_delete_user_clears "u1_17000" "10.0.0.1" Demo.main_router
              (MikroTikManager.init None Demo.world0).2) as (H1 & r' & H2 & H3 & _ & H5).
  - repeat split.
  - split; [exact H1|]. exists r'. split; [exact H2|]. split; [exact H3|].
    apply H5. vm_compute. lia.
Defined.

(** ** A manager changes the router at its host only *)

Lemma other_routers_kept_refl w : other_routers_kept w w.
Proof. by split. Qed.

Lemma other_routers_kept_trans w1 w2 w3 :
  other_routers_kept w1 w2 → other_routers_kept w2 w3 → other_routers_kept w1 w3.
Proof.
  intros [H1 O1] [H2 O2]. split; [congruence|].
  intros h Hh. rewrite O2 by congruence. by apply O1.
Qed.

Lemma other_routers_kept_call {A} path verb (f : router → A * router) :
  respects other_routers_kept (MikroTikManager.call path verb f).
Proof.
  intros w. unfold MikroTikManager.call.
  destruct (hd false (w_api_faults w)); [by split|].
  destruct (w_routers w !! mgr_host (w_mgr w)) as [r|]; [|by split].
  destruct (f r) as [a r']. split; [done|].
  intros h Hh. simpl. by rewrite lookup_insert_ne.
Qed.

Lemma other_routers_kept_set_api : respects other_routers_kept MikroTikManager.set_api.
Proof. intros w. by split. Qed.

Ltac others_step :=
  lazymatch goal with
  | |- respects _ MikroTikManager.set_api => apply other_routers_kept_set_api
  | |- respects _ (MikroTikManager.call _ _ _) => apply other_routers_kept_call
  | |- _ => respects_step other_routers_kept_refl other_routers_kept_trans
  end.

Ltac others_unfold :=
  unfold MikroTikManager.create_user, MikroTikManager.get_user_info,
    MikroTikManager.add_data_to_user, MikroTikManager.enable_user,
    MikroTikManager.extend_validity, MikroTikManager.delete_user,
    MikroTikManager_admin.disable_user, MikroTikManager_admin.reset_password,
    MikroTikManager.disconnect_user_session, MikroTikManager._get_resource,
    MikroTikManager.connect.

(** X17. A manager changes no router but the one at its own host: whatever
    the router calls do, each method of [MikroTikManager] leaves the routers
    at every other host exactly as they were. *)
Theorem X17_manager_touches_own_router (w : world) (h : string)
    (uname pw prof : string) (n : Z) :
  h ≠ mgr_host (w_mgr w) →
  w_routers (MikroTikManager.create_user uname pw prof w).2 !! h = w_routers w !! h ∧
  w_routers (MikroTikManager.get_user_info uname w).2 !! h = w_routers w !! h ∧
  w_routers (MikroTikManager.add_data_to_user uname n w).2 !! h = w_routers w !! h ∧
  w_routers (MikroTikManager.enable_user uname w).2 !! h = w_routers w !! h ∧
  w_routers (MikroTikManager_admin.disable_user uname w).2 !! h = w_routers w !! h ∧
  w_routers (MikroTikManager_admin.reset_password uname pw w).2 !! h = w_routers w !! h ∧
  w_routers (MikroTikManager.extend_validity uname n w).2 !! h = w_routers w !! h ∧
  w_routers (MikroTikManager.disconnect_user_session uname w).2 !! h = w_routers w !! h ∧
  w_routers (MikroTikManager.delete_user uname w).2 !! h = w_routers w !! h.
Proof.
  intros Hh.
  assert (∀ {A} (m : M A), respects other_routers_kept m →
            w_routers (m w).2 !! h = w_routers w !! h) as Huse.
  { intros A m Hm. by apply (Hm w). }
  repeat split; apply Huse; others_unfold; repeat others_step.
Qed.

Lemma X17_manager_touches_own_router_witness :
  let w := with_routers (<["10.0.0.2" := Demo.main_router]> (w_routers Demo.world0))
             (MikroTikManager.init None Demo.world0).2 in
  w_routers (MikroTikManager.delete_user "u1_17000" w).2 !! "10.0.0.2" =
  Some Demo.main_router.
Proof.
  destruct (X17_manager_touches_own_router
              (with_routers (<["10.0.0.2" := Demo.main_router]> (w_routers Demo.world0))
                 (MikroTikManager.init None Demo.world0).2)
              "10.0.0.2" "u1_17000" EmptyString EmptyString 0)
    as (_ & _ & _ & _ & _ & _ & _ & _ & H); [discriminate|].
  cbv zeta. etransitivity; [exact H|]. vm_compute. reflexivity.
Defined.

Lemma run_random {B} (k : string → M B) w :
  (random_string ≫= k) w =
  k (hd EmptyString (w_random w)) (with_random (tl (w_random w)) w).
Proof. reflexivity. Qed.

Lemma run_init {B} host (k : unit → M B) w :
  (MikroTikManager.init host ≫= k) w = k tt (MikroTikManager.init host w).2.
Proof. reflexivity. Qed.

(** X18. A purchase that nothing hinders. With the price covered, no commit
    and no router call raising, the default router answering and the
    generated name free, [process_purchase_flow] debits the price, creates
    the account on the router, and stores under a fresh key a subscription
    owned by the buyer on the plan's server, with the generated name, the
    drawn password, the expiry [now + validity_days] and a cap of
    [data_limit_gb * 1024^3] bytes. *)
Theorem X18_purchase_provisions (w : world) (sender : tg_user) (pid uid : Z)
    (u : User) (p : Profile) (r : router) :
  user_by_telegram_id (tg_id sender) (w_db w) = Some (uid, u) →
  profiles (w_db w) !! pid = Some p →
  price p ≤ wallet_balance u →
  w_db_faults w = [] →
  w_api_faults w = [] →
  w_routers w !! w_config_host w = Some r →
  let t1 := w_clock w + Z.of_N (hd 0%N (w_ticks w)) in
  let t2 := t1 + Z.of_N (hd 0%N (tl (w_ticks w))) in
  let uname := purchase_username uid t1 in
  let password := hd EmptyString (w_random w) in
  username_is_free uname (w_db w) = true →
  let res := bot_handler.process_purchase_flow "confirm_pay" sender (Some pid) w in
  subscriptions (w_db res.2) =
    <[next_id (subscriptions (w_db w)) :=
        mkSubscription uid (profile_server_id p) pid uname password
          (t2 + timedelta_days (validity_days p)) (data_limit_gb p * 1024 ^ 3)]>
      (subscriptions (w_db w)) ∧
  balance_of (w_db res.2) uid = wallet_balance u - price p ∧
  transactions (w_db res.2) =
    transactions (w_db w) ++
    [mkTransaction uid (- price p) "purchase" ("Purchase: " +:+ profile_name p)] ∧
  ∃ r', w_routers res.2 !! w_config_host w = Some r' ∧
        um_users r' = um_users r ++ [mkUmUser (um_next_id r) uname password false 0 0] ∧
        um_user_profiles r' =
          um_user_profiles r ++ [mkUmUserProfile (um_next_id r + 1) uname (profile_name p)].
Proof.
  intros Hu Hp Hle Hdbf Hapif Hr t1 t2 uname password Hfree.
  pose proof (select_first_Some _ _ _ _ Hu) as [Hu' _].
  assert (hd false (w_db_faults w) = false) as Hf1 by by rewrite Hdbf.
  pose proof (deduct_ok w uid u (price p) ("Purchase: " +:+ profile_name p)
                Hu' Hle Hf1) as Hd.
  unfold bot_handler.process_purchase_flow.
  rewrite bool_decide_false by done. rewrite bool_decide_true by done.
  rewrite !run_gets. simpl option_bind. cbn [mbind option_bind]. rewrite Hp, Hu.
  cbn [mbind option_bind]. rewrite !run_deref. cbn [fst snd].
  rewrite (run_bind _ _ _ _ _ Hd). cbn [negb].
  set (w1 := log EvCommit _) in *.
  rewrite run_now, run_random, run_init.
  change (w_clock w1) with (w_clock w). change (w_ticks w1) with (w_ticks w).
  fold t1. fold (purchase_username uid t1). fold uname.
  match goal with |- context [ (MikroTikManager.create_user _ ?pw _ ≫= _) ?x ] =>
    change pw with password; set (w2 := x) end.
  assert (reachable (w_config_host w) r w2) as Hreach by by repeat split.
  destruct (create_user_moved uname password (profile_name p) _ r w2 Hreach)
    as (w3 & E3 & ((_ & _ & Hr3) & (Hdb3 & Hc3 & Ht3 & Hf3 & _) & _)).
  rewrite (run_bind _ _ _ _ _ E3). cbn [negb].
  rewrite run_now. rewrite Hc3, Ht3. change (w_clock w2) with t1.
  change (w_ticks w2) with (tl (w_ticks w)). fold t2.
  unfold mbind, M_bind, bind, integrity.
  assert (username_is_free uname (w_db (with_clock t2 (tl (tl (w_ticks w))) w3)) = true)
    as ->.
  { change (username_is_free uname (w_db w3) = true). rewrite Hdb3. exact Hfree. }
  unfold commit, send, gets, deref, balance_of.
  change (w_db_faults (with_clock t2 (tl (tl (w_ticks w))) w3)) with (w_db_faults w3).
  change (w_db (with_clock t2 (tl (tl (w_ticks w))) w3)) with (w_db w3).
  rewrite Hf3, Hdb3. change (w_db_faults w2) with (tl (w_db_faults w)).
  rewrite Hdbf. simpl.
  destruct (servers (w_db w) !! profile_server_id p); simpl;
    rewrite lookup_alter_eq, Hu'; simpl;
    (split; [done|]); (split; [done|]); (split; [done|]);
    (eexists; split; [exact Hr3|]; by split).
Qed.

Lemma X18_purchase_provisions_witness :
  let res := bot_handler.process_purchase_flow "confirm_pay" Demo.alice_tg (Some 2)
               Demo.world0 in
  subscriptions (w_db res.2) !! 2 =
    Some (mkSubscription 1 1 2 "u1_432000" "Xy12Zw89" (timedelta_days 65) (20 * 1024 ^ 3)) ∧
  balance_of (w_db res.2) 1 = 10.
Proof.
  destruct (X18_purchase_provisions Demo.world0 Demo.alice_tg 2 1 Demo.alice Demo.basic_v2
              Demo.main_router) as (H1 & H2 & _);
    [reflexivity | reflexivity | vm_compute; discriminate | reflexivity | reflexivity
    | reflexivity | vm_compute; reflexivity |].
  split; [|exact H2]. cbv zeta in H1. rewrite H1. vm_compute. reflexivity.
Defined.

Lemma length_append (a b : string) :
  String.length (a +:+ b) = (String.length a + String.length b)%nat.
Proof. induction a as [|c a IH]; simpl; [done|]. by rewrite IH. Qed.

Lemma substring_append_skip (a b : string) (k n : nat) :
  String.substring (String.length a + k) n (a +:+ b) = String.substring k n b.
Proof. induction a as [|c a IH]; simpl; [done|]. exact IH. Qed.

Lemma length_substring_all (n : nat) (s : string) :
  String.length (String.substring 0 n s) = Nat.min n (String.length s).
Proof.
  revert n. induction s as [|c s IH]; intros [|n]; simpl; try done. by rewrite IH.
Qed.

Lemma length_substring (k n : nat) (s : string) :
  (k ≤ String.length s)%nat →
  String.length (String.substring k n s) = Nat.min n (String.length s - k).
Proof.
  revert k. induction s as [|c s IH]; intros k Hk; simpl in *.
  - assert (k = 0%nat) as -> by lia. by destruct n.
  - destruct k as [|k].
    + destruct n as [|n]; simpl; [done|]. by rewrite length_substring_all.
    + apply IH. lia.
Qed.

Lemma last_chars_append (n : nat) (a b : string) :
  (n ≤ String.length b)%nat → last_chars n (a +:+ b) = last_chars n b.
Proof.
  intros Hn. unfold last_chars. rewrite length_append.
  replace (String.length a + String.length b - n)%nat
    with (String.length a + (String.length b - n))%nat by lia.
  apply substring_append_skip.
Qed.

Lemma length_last_chars (n : nat) (s : string) :
  String.length (last_chars n s) = Nat.min n (String.length s).
Proof.
  unfold last_chars. rewrite length_substring by lia. lia.
Qed.

(** X19. The name generated for a purchase has at most nine characters and
    begins with [u]. As soon as the clock in seconds has eight digits or
    more, it is [u] followed by the last eight digits of the clock: it does
    not depend on the buyer, so two purchases within one second are given
    the same name. *)
Theorem X19_purchase_username_ignores_buyer (uid uid' t : Z) :
  (String.length (purchase_username uid t) ≤ 9)%nat ∧
  (∃ tail, purchase_username uid t = String "u" tail) ∧
  ((8 ≤ String.length (pretty (t `quot` 1000000)))%nat →
   purchase_username uid t = "u" +:+ last_chars 8 (pretty (t `quot` 1000000)) ∧
   purchase_username uid t = purchase_username uid' t).
Proof.
  unfold purchase_username. split; [|split].
  - rewrite length_append, length_last_chars.
    change (String.length "u") with 1%nat. lia.
  - by eexists.
  - intros Hlen.
    assert (∀ x : Z, last_chars 8 (pretty x +:+ "_" +:+ pretty (t `quot` 1000000)) =
                     last_chars 8 (pretty (t `quot` 1000000))) as H.
    { intros x.
      rewrite last_chars_append by (rewrite length_append; lia).
      change ("_" +:+ pretty (t `quot` 1000000))
        with (String "_" EmptyString +:+ pretty (t `quot` 1000000)).
      by apply last_chars_append. }
    by rewrite !H.
Qed.

Lemma X19_purchase_username_ignores_buyer_witness :
  purchase_username 1 1700000000123456 = "u00000000" ∧
  purchase_username 1 1700000000123456 = purchase_username 27 1700000000999999.
Proof.
  destruct (X19_purchase_username_ignores_buyer 1 27 1700000000123456)
    as (_ & _ & H); destruct H as [H1 H2]; [vm_compute; lia|].
  split; [rewrite H1; vm_compute; reflexivity|].
  rewrite H2. vm_compute. reflexivity.
Defined.

Lemma api_only_disable_user u : respects api_only (MikroTikManager_admin.disable_user u).
Proof.
  unfold MikroTikManager_admin.disable_user.
  repeat lazymatch goal with
         | |- respects _ (MikroTikManager.disconnect_user_session _) =>
             apply api_only_disconnect_user_session
         | |- _ => mgr_step
         end.
Qed.

Lemma api_only_reset_password u p :
  respects api_only (MikroTikManager_admin.reset_password u p).
Proof.
  unfold MikroTikManager_admin.reset_password. repeat mgr_step.
Qed.

Lemma total_disable_user u : total (MikroTikManager_admin.disable_user u).
Proof. apply total_try_ret. Qed.

Lemma total_reset_password u p : total (MikroTikManager_admin.reset_password u p).
Proof. apply total_try_ret. Qed.

Lemma reachable_init r w :
  w_api_faults w = [] → w_routers w !! w_config_host w = Some r →
  reachable (w_config_host w) r (MikroTikManager.init None w).2.
Proof. intros Hf Hr. by repeat split. Qed.

Lemma info_of_password_reset uname pw r :
  filter (λ u, uu_name u = uname) (um_users r) ≠ [] →
  (password_reset uname pw r).1 = true ∧
  ∃ info, info_of uname (password_reset uname pw r).2 = Some info ∧
          ui_password info = pw.
Proof.
  intros Hne. unfold info_of, password_reset.
  destruct (filter (λ u, uu_name u = uname) (um_users r)) as [|u found] eqn:E; [done|].
  split; [done|]. simpl.
  rewrite filter_fmap_same by (intros x; simpl; case_bool_decide; reflexivity).
  rewrite E. simpl.
  assert (bool_decide (uu_id u = uu_id u) = true) as -> by by apply bool_decide_eq_true.
  simpl. eexists. by split.
Qed.

Lemma password_reset_missing uname pw r :
  filter (λ u, uu_name u = uname) (um_users r) = [] →
  password_reset uname pw r = (false, r).
Proof. intros E. unfold password_reset. by rewrite E. Qed.

(** X20. The admin's password reset never reaches the database. Whatever
    the router does, [process_reset_password] leaves the database exactly
    as it was and sends no confirmation: it answers that the reset failed
    when the router did not accept the password, and raises [TypeError]
    when it did. *)
Theorem X20_reset_password_never_stored (w : world) (new_pass target : string) :
  let res := admin_panel_edits.process_reset_password new_pass target w in
  w_db res.2 = w_db w ∧
  (res.1 = Ret PasswordResetFailed ∨ res.1 = Exc TypeError) ∧
  ((MikroTikManager_admin.reset_password target new_pass
      (MikroTikManager.init None w).2).1 = Ret true ↔ res.1 = Exc TypeError).
Proof.
  unfold admin_panel_edits.process_reset_password. cbv zeta.
  rewrite run_init.
  destruct (run_api_block (MikroTikManager_admin.reset_password target new_pass)
              (λ success : bool,
                 if success then raise TypeError else ret PasswordResetFailed)
              (MikroTikManager.init None w).2
              (api_only_reset_password _ _) (total_reset_password _ _))
    as (ok & w1 & E & A & ->).
  destruct A as (Hdb & _).
  change (w_db (MikroTikManager.init None w).2) with (w_db w) in Hdb.
  rewrite E. destruct ok; simpl.
  - split; [done|]. split; [by right|]. done.
  - split; [done|]. split; [by left|]. split; intros H; discriminate H.
Qed.

(** X21. After an admin's password reset the bot and the router disagree.
    With the default router answering and holding an account of the name,
    [process_reset_password] sets the new password on the router and then
    raises [TypeError]: [get_user_info] reports the new password, while the
    subscription of the name still stores the old one. When the router
    holds no such account the handler answers that the reset failed and
    both stores are as before. *)
Theorem X21_reset_password_out_of_step (w : world) (new_pass target : string)
    (r : router) (sid : Z) (s : Subscription) :
  w_api_faults w = [] →
  w_routers w !! w_config_host w = Some r →
  subscription_by_username target (w_db w) = Some (sid, s) →
  let res := admin_panel_edits.process_reset_password new_pass target w in
  subscriptions (w_db res.2) !! sid = Some s ∧
  match filter (λ u, uu_name u = target) (um_users r) with
  | [] => res.1 = Ret PasswordResetFailed ∧ w_routers res.2 = w_routers w
  | _ :: _ =>
      res.1 = Exc TypeError ∧
      ∃ info, (MikroTikManager.get_user_info target res.2).1 = Ret (Some info) ∧
              ui_password info = new_pass
  end.
Proof.
  intros Hf Hr Hs. cbv zeta.
  apply select_first_Some in Hs as [Hs _].
  unfold admin_panel_edits.process_reset_password. rewrite run_init.
  pose proof (reachable_init r w Hf Hr) as H0.
  destruct (reset_password_moved target new_pass _ r _ H0) as (w1 & E1 & M1).
  rewrite (run_bind _ _ _ _ _ E1).
  destruct (filter (λ u, uu_name u = target) (um_users r)) as [|u found] eqn:E.
  - rewrite password_reset_missing in * by done. simpl.
    destruct M1 as (R1 & A1 & O1).
    split; [by rewrite (proj1 A1)|]. split; [done|].
    change (w_routers w) with (w_routers (MikroTikManager.init None w).2).
    eapply moved_same_routers; [exact H0|]. exact (conj R1 (conj A1 O1)).
  - destruct (info_of_password_reset target new_pass r) as (Hok & info & Hi & Hp);
      [by rewrite E|].
    rewrite Hok in *. simpl.
    split; [by rewrite (proj1 (proj1 (proj2 M1)))|]. split; [done|].
    destruct (get_user_info_moved target _ _ w1 (proj1 M1)) as (w3 & E3 & _).
    rewrite E3. simpl. rewrite Hi. by exists info.
Qed.

Lemma X21_reset_password_out_of_step_witness :
  let res := admin_panel_edits.process_reset_password "fresh" "u1_17000" Demo.world0 in
  mikrotik_password <$> subscriptions (w_db res.2) !! 1 = Some "pw" ∧
  res.1 = Exc TypeError ∧
  ∃ info, (MikroTikManager.get_user_info "u1_17000" res.2).1 = Ret (Some info) ∧
          ui_password info = "fresh".
Proof.
  destruct (X21_reset_password_out_of_step Demo.world0 "fresh" "u1_17000"
              Demo.main_router 1 Demo.alice_sub eq_refl eq_refl eq_refl) as [H1 H2].
  split; [by rewrite H1|]. exact H2.
Defined.

Lemma run_commit {B} upd (k : unit → M B) w :
  hd false (w_db_faults w) = false →
  (commit upd ≫= k) w =
  k tt (log EvCommit (with_db (upd (w_db w)) (with_db_faults (tl (w_db_faults w)) w))).
Proof. intros H. unfold commit, mbind, M_bind, bind. by rewrite H. Qed.

Lemma alter_insert_found {A} (f : A → A) (t : gmap Z A) k a :
  t !! k = Some a → alter f k t = <[k := f a]> t.
Proof.
  intros H. apply map_eq. intros j. destruct (decide (j = k)) as [->|Hne].
  - by rewrite lookup_alter_eq, lookup_insert_eq, H.
  - by rewrite lookup_alter_ne, lookup_insert_ne.
Qed.

(** X22. The admin's top-up of data is written whatever the router does.
    For a name some subscription carries and a commit that goes through,
    [process_add_data] raises the stored cap of the first such subscription
    by the gigabytes times 1024^3, for any integer typed, and answers that
    the data was added; no assumption on the router is needed, and its
    answer is not looked at. No balance and no entry changes. *)
Theorem X22_add_data_ignores_router (w : world) (gb : Z) (target : string)
    (sid : Z) (s : Subscription) :
  subscription_by_username target (w_db w) = Some (sid, s) →
  hd false (w_db_faults w) = false →
  let res := admin_panel_edits.process_add_data (Some gb) target w in
  res.1 = Ret (DataAdded gb target) ∧
  subscriptions (w_db res.2) =
    <[sid := mkSubscription (sub_user_id s) (sub_server_id s) (sub_profile_id s)
               (mikrotik_username s) (mikrotik_password s) (expiry_date s)
               (total_limit_bytes s + gb * 1024 ^ 3)]> (subscriptions (w_db w)) ∧
  ledger_untouched w res.2.
Proof.
  intros Hs Hc. cbv zeta.
  unfold admin_panel_edits.process_add_data. rewrite run_init, run_gets.
  change (w_db (MikroTikManager.init None w).2) with (w_db w). rewrite Hs.
  cbv beta iota. rewrite run_commit by exact Hc.
  set (w1 := log EvCommit _).
  destruct (run_api_block (MikroTikManager.add_data_to_user target gb)
              (λ _, ret (DataAdded gb target)) w1
              (api_only_add_data_to_user _ _) (total_add_data_to_user _ _))
    as (ok & w2 & _ & A & ->).
  destruct A as (Hdb & _). unfold ledger_untouched. simpl. rewrite Hdb.
  apply select_first_Some in Hs as [Hs _].
  split; [done|]. split; [|done]. simpl.
  erewrite alter_insert_found by exact Hs. reflexivity.
Qed.

Lemma X22_add_data_ignores_router_witness :
  let res := admin_panel_edits.process_add_data (Some 5) "u1_17000" Demo.unreachable in
  res.1 = Ret (DataAdded 5 "u1_17000") ∧
  total_limit_bytes <$> subscriptions (w_db res.2) !! 1 = Some (15 * 1024 ^ 3) ∧
  w_routers res.2 = w_routers Demo.unreachable.
Proof.
  destruct (X22_add_data_ignores_router Demo.unreachable 5 "u1_17000" 1 Demo.alice_sub
              eq_refl eq_refl) as (H1 & H2 & _).
  split; [exact H1|]. split; [rewrite H2; vm_compute; reflexivity|].
  vm_compute. reflexivity.
Defined.

(** X23. The admin's extension is written whatever the router does, as
    long as the date exists. For a name some subscription carries and a
    commit that goes through, [process_extend_time] with a number of days
    that keeps the expiry within the range of [datetime] moves the stored
    expiry of the first such subscription by those days, counted from the
    old expiry and not from the clock, and reports that expiry; no
    assumption on the router is needed, and no balance and no entry
    changes. With a number that takes the expiry out of the range it
    raises [OverflowError] and leaves the world as it was. *)
Theorem X23_extend_time_ignores_router (w : world) (days : Z) (target : string)
    (sid : Z) (s : Subscription) :
  subscription_by_username target (w_db w) = Some (sid, s) →
  hd false (w_db_faults w) = false →
  let res := admin_panel_edits.process_extend_time (Some days) target w in
  let new_expiry := expiry_date s + timedelta_days days in
  if (Z.abs days <=? timedelta_max_days)
     && (datetime_min <=? new_expiry) && (new_expiry <=? datetime_max)
  then
    res.1 = Ret (TimeExtended target days new_expiry) ∧
    subscriptions (w_db res.2) =
      <[sid := mkSubscription (sub_user_id s) (sub_server_id s) (sub_profile_id s)
                 (mikrotik_username s) (mikrotik_password s)
                 new_expiry (total_limit_bytes s)]>
        (subscriptions (w_db w)) ∧
    ledger_untouched w res.2
  else res = (Exc OverflowError, w).
Proof.
  intros Hs Hc. cbv zeta.
  unfold admin_panel_edits.process_extend_time. rewrite run_gets, Hs.
  cbv beta iota zeta. cbn [fst snd].
  destruct ((Z.abs days <=? timedelta_max_days)
            && (datetime_min <=? expiry_date s + timedelta_days days)
            && (expiry_date s + timedelta_days days <=? datetime_max)); [|reflexivity].
  rewrite run_commit by exact Hc. rewrite run_init.
  set (w1 := (MikroTikManager.init None _).2).
  destruct (run_api_block (MikroTikManager.extend_validity target days)
              (λ _, ret (TimeExtended target days
                           (expiry_date s + timedelta_days days))) w1
              (api_only_extend_validity _ _) (total_extend_validity _ _))
    as (ok & w2 & _ & A & ->).
  destruct A as (Hdb & _). unfold ledger_untouched. simpl. rewrite Hdb.
  apply select_first_Some in Hs as [Hs _].
  split; [done|]. split; [|done]. simpl.
  erewrite alter_insert_found by exact Hs. reflexivity.
Qed.

Lemma X23_extend_time_ignores_router_witness :
  let res := admin_panel_edits.process_extend_time (Some 30) "u1_17000" Demo.unreachable in
  res.1 = Ret (TimeExtended "u1_17000" 30 (timedelta_days 40)) ∧
  expiry_date <$> subscriptions (w_db res.2) !! 1 = Some (timedelta_days 40) ∧
  w_routers res.2 = w_routers Demo.unreachable ∧
  admin_panel_edits.process_extend_time (Some 4000000) "u1_17000" Demo.unreachable =
    (Exc OverflowError, Demo.unreachable).
Proof.
  pose proof (X23_extend_time_ignores_router Demo.unreachable 30 "u1_17000" 1
                Demo.alice_sub eq_refl eq_refl) as H.
  pose proof (X23_extend_time_ignores_router Demo.unreachable 4000000 "u1_17000" 1
                Demo.alice_sub eq_refl eq_refl) as H'.
  cbv zeta in H, H'.
  change ((Z.abs 30 <=? timedelta_max_days)
          && (datetime_min <=? expiry_date Demo.alice_sub + timedelta_days 30)
          && (expiry_date Demo.alice_sub + timedelta_days 30 <=? datetime_max))
    with true in H.
  change ((Z.abs 4000000 <=? timedelta_max_days)
          && (datetime_min <=? expiry_date Demo.alice_sub + timedelta_days 4000000)
          && (expiry_date Demo.alice_sub + timedelta_days 4000000 <=? datetime_max))
    with false in H'.
  cbv iota in H, H'. destruct H as (H1 & H2 & _).
  split; [exact H1|]. split; [rewrite H2; vm_compute; reflexivity|].
  split; [vm_compute; reflexivity|exact H'].
Defined.

Lemma info_of_disabled uname r :
  filter (λ u, uu_name u = uname) (um_users r) ≠ [] →
  ∃ info, info_of uname (disabled uname r) = Some info ∧
          ui_is_active info = false ∧ ui_connected_devices info = 0%nat.
Proof.
  intros Hne. unfold info_of, disabled.
  destruct (filter (λ u, uu_name u = uname) (um_users r)) as [|u found] eqn:E; [done|].
  destruct (sessions_dropped_rest uname
              (Ros.users_set (uu_id u)
                 (λ x, mkUmUser (uu_id x) (uu_name x) (uu_password x) true
                         (uu_download_used x) (uu_upload_used x)) r).2) as (-> & _).
  rewrite sessions_dropped_none. simpl.
  rewrite filter_fmap_same by (intros x; simpl; case_bool_decide; reflexivity).
  rewrite E. simpl.
  assert (bool_decide (uu_id u = uu_id u) = true) as -> by by apply bool_decide_eq_true.
  simpl. eexists. by repeat split.
Qed.

Lemma split_on_first (sep : ascii) (s : string) :
  ∃ piece rest, split_on sep s = piece :: rest.
Proof.
  induction s as [|c s (piece & rest & IH)]; simpl; [by eexists _, _|].
  case_bool_decide; [by eexists _, _|]. rewrite IH. by eexists _, _.
Qed.

Lemma split_on_button (name : string) :
  split_on "_" ("disable_user_" +:+ name) !! 2%nat = head (split_on "_" name).
Proof.
  assert (split_on "_" ("disable_user_" +:+ name) =
          "disable" :: "user" :: split_on "_" name) as -> by reflexivity.
  by destruct (split_on_first "_" name) as (piece & rest & ->).
Qed.

(** X24. Disabling from the admin panel is remote only, and it goes by the
    name up to its first underscore. For the button of a user, with the
    default router answering, [disable_user_flow] looks up the first piece
    of the username between underscores and answers that this user was
    disabled whether or not the router holds an account of that name. When
    it holds none, the routers are left as they were; when it holds one,
    [get_user_info] then reports that account as not active with no device
    connected. The bot's database is the same in every case: the
    subscription is not marked. *)
Theorem X24_disable_flow_is_remote_only (w : world) (name : string) (r : router) :
  w_api_faults w = [] →
  w_routers w !! w_config_host w = Some r →
  let target := hd EmptyString (split_on "_" name) in
  let res := admin_panel_edits.disable_user_flow ("disable_user_" +:+ name) w in
  res.1 = Ret (UserDisabled target) ∧
  w_db res.2 = w_db w ∧
  match filter (λ u, uu_name u = target) (um_users r) with
  | [] => w_routers res.2 = w_routers w
  | _ :: _ =>
      ∃ info, (MikroTikManager.get_user_info target res.2).1 = Ret (Some info) ∧
              ui_is_active info = false ∧ ui_connected_devices info = 0%nat
  end.
Proof.
  intros Hf Hr. cbv zeta.
  unfold admin_panel_edits.disable_user_flow. rewrite split_on_button.
  destruct (split_on_first "_" name) as (target & rest & ->). cbn [head hd].
  rewrite run_init.
  pose proof (reachable_init r w Hf Hr) as H0.
  destruct (disable_user_moved target _ r _ H0) as (w1 & E1 & M1).
  rewrite (run_bind _ _ _ _ _ E1). simpl.
  split; [done|]. split; [exact (proj1 (proj1 (proj2 M1)))|].
  destruct (filter (λ u, uu_name u = target) (um_users r)) as [|u found] eqn:E.
  - change (w_routers w) with (w_routers (MikroTikManager.init None w).2).
    eapply moved_same_routers; [exact H0|].
    unfold disabled in M1. by rewrite E in M1.
  - destruct (info_of_disabled target r) as (info & Hi & Ha & Hd); [by rewrite E|].
    destruct (get_user_info_moved target _ _ w1 (proj1 M1)) as (w2 & E2 & _).
    rewrite E2. simpl. rewrite Hi. by exists info.
Qed.

Lemma X24_disable_flow_is_remote_only_witness :
  let res := admin_panel_edits.disable_user_flow "disable_user_u1_17000" Demo.world0 in
  res.1 = Ret (UserDisabled "u1") ∧
  w_db res.2 = Demo.db ∧
  w_routers res.2 = w_routers Demo.world0.
Proof.
  exact (X24_disable_flow_is_remote_only Demo.world0 "u1_17000" Demo.main_router
           eq_refl eq_refl).
Defined.

Lemma run_send r w : send r w = (Ret tt, log (EvReply r) w).
Proof. reflexivity. Qed.


(** X26. The confirmation of a renewal does not check the owner. For a
    subscription of another account, where the preview answers that the
    subscription was not found, [confirm_renewal] debits the sender the
    price of the plan and moves the expiry of that subscription. *)
Theorem X26_confirm_renewal_skips_owner_check (w : world) (sender : tg_user)
    (sid uid : Z) (u : User) (s : Subscription) (p : Profile) :
  user_by_telegram_id (tg_id sender) (w_db w) = Some (uid, u) →
  subscriptions (w_db w) !! sid = Some s →
  sub_user_id s ≠ uid →
  profiles (w_db w) !! sub_profile_id s = Some p →
  price p ≤ wallet_balance u →
  hd false (w_db_faults w) = false →
  hd false (tl (w_db_faults w)) = false →
  let t1 := w_clock w + Z.of_N (hd 0%N (w_ticks w)) in
  let t2 := t1 + Z.of_N (hd 0%N (tl (w_ticks w))) in
  let res := user_features.confirm_renewal sender sid w in
  last (w_trace (user_features.renew_subscription sender sid w).2) =
    Some (EvReply ReplySubscriptionNotFound) ∧
  res.1 = Ret tt ∧
  balance_of (w_db res.2) uid = wallet_balance u - price p ∧
  subscriptions (w_db res.2) !! sid =
    Some (mkSubscription (sub_user_id s) (sub_server_id s) (sub_profile_id s)
            (mikrotik_username s) (mikrotik_password s)
            (renewed_expiry (expiry_date s) t1 t2 (validity_days p))
            (total_limit_bytes s)).
Proof.
  intros Hu Hs Hne Hp Hle Hf1 Hf2. cbv zeta.
  destruct (confirm_renewal_effect w sender sid uid u s p Hu Hs Hp Hle Hf1 Hf2)
    as [Hret Hdb].
  cbv zeta in Hret, Hdb. split; [|split; [exact Hret|]].
  - unfold user_features.renew_subscription. rewrite run_gets, Hu.
    cbv beta iota. rewrite run_gets, Hs. cbv beta iota. cbn [fst snd].
    rewrite bool_decide_true by done. rewrite run_send. simpl.
    by rewrite last_snoc.
  - rewrite Hdb. apply select_first_Some in Hu as [Hu _].
    unfold balance_of, set_expiry_date, set_subscriptions, add_transaction,
      set_wallet_balance, set_users. simpl.
    rewrite lookup_alter_eq, Hu, lookup_alter_eq, Hs. simpl. done.
Qed.

Lemma X26_confirm_renewal_skips_owner_check_witness :
  let w := with_db (set_users (insert 2 (mkUser 2002 "bob" "Bob" 100)) Demo.db)
             Demo.world0 in
  let res := user_features.confirm_renewal (mkTgUser 2002 "bob" "Bob") 1 w in
  balance_of (w_db res.2) 2 = 70 ∧
  expiry_date <$> subscriptions (w_db res.2) !! 1 = Some (timedelta_days 40).
Proof.
  cbv zeta.
  destruct (X26_confirm_renewal_skips_owner_check
              (with_db (set_users (insert 2 (mkUser 2002 "bob" "Bob" 100)) Demo.db)
                 Demo.world0)
              (mkTgUser 2002 "bob" "Bob") 1 2 (mkUser 2002 "bob" "Bob" 100)
              Demo.alice_sub Demo.basic)
    as (_ & _ & H1 & H2);
    [vm_compute; reflexivity | vm_compute; reflexivity | vm_compute; discriminate
    | vm_compute; reflexivity | vm_compute; discriminate
    | vm_compute; reflexivity | vm_compute; reflexivity |].
  split; [exact H1|]. rewrite H2. vm_compute. reflexivity.
Defined.

Lemma like_percent (pat s : string) :
  like (String "%" pat) s =
  like pat s || match s with
                | EmptyString => false
                | String _ s' => like (String "%" pat) s'
                end.
Proof. by destruct s. Qed.

Lemma like_percent_here (pat s : string) :
  like pat s = true → like (String "%" pat) s = true.
Proof. intros H. by rewrite like_percent, H. Qed.

Lemma like_only_percent (t : string) : like "%" t = true.
Proof.
  induction t as [|c t IH]; [done|].
  rewrite like_percent. by rewrite IH, orb_true_r.
Qed.

Lemma like_letter (c d : ascii) (pat s : string) :
  c ≠ "%"%char → c ≠ "_"%char →
  like (String c pat) (String d s) = bool_decide (lower c = lower d) && like pat s.
Proof.
  intros H1 H2.
  destruct c as [[] [] [] [] [] [] [] []]; try reflexivity; by (destruct H1 || destruct H2).
Qed.

(** A pattern made of a text and a closing [%] matches every string that
    starts with the text. *)
Lemma like_prefix (p t : string) : like (p +:+ "%") (p +:+ t) = true.
Proof.
  induction p as [|c p IH]; [apply like_only_percent|].
  change (String c p +:+ "%") with (String c (p +:+ "%")).
  change (String c p +:+ t) with (String c (p +:+ t)).
  destruct (decide (c = "%"%char)) as [->|H1].
  { rewrite like_percent. by rewrite (like_percent_here _ _ IH), orb_true_r. }
  destruct (decide (c = "_"%char)) as [->|H2]; [exact IH|].
  rewrite like_letter by done. rewrite IH. by rewrite bool_decide_true.
Qed.

Lemma before_v_prefix (s : string) : ∃ t, s = before_v s +:+ t.
Proof.
  induction s as [|c s [t IH]]; [by exists EmptyString|].
  cbn [before_v]. destruct (String.prefix "_v" (String c s)).
  - by eexists.
  - exists t. change (String c s = String c (before_v s +:+ t)). congruence.
Qed.

Lemma like_own_family (name : string) : like (before_v name +:+ "%") name = true.
Proof.
  destruct (before_v_prefix name) as [t Ht].
  rewrite Ht at 2. apply like_prefix.
Qed.

Lemma newest_first (l : list (Z * Profile)) :
  match foldr (λ kv best,
                 match best with
                 | Some b => if (profile_version b.2 <? profile_version kv.2)
                                || (profile_version b.2 =? profile_version kv.2)
                                   && (kv.1 <? b.1)
                             then Some kv else best
                 | None => Some kv
                 end) None l with
  | None => l = []
  | Some b => b ∈ l ∧ ∀ x, x ∈ l → profile_version x.2 ≤ profile_version b.2
  end.
Proof.
  induction l as [|kv l IH]; [done|]. simpl.
  destruct (foldr _ None l) as [b|].
  - destruct IH as [Hb Hmax].
    destruct ((profile_version b.2 <? profile_version kv.2)
              || (profile_version b.2 =? profile_version kv.2) && (kv.1 <? b.1)) eqn:E.
    + assert (profile_version b.2 ≤ profile_version kv.2) as Hle.
      { apply orb_true_iff in E as [E|E]; [apply Z.ltb_lt in E; lia|].
        apply andb_true_iff in E as [E _]. apply Z.eqb_eq in E. lia. }
      split; [by left|].
      intros x [->|Hx]%elem_of_cons; [lia|]. specialize (Hmax x Hx). lia.
    + apply orb_false_iff in E as [E _]. apply Z.ltb_ge in E. split; [by right|].
      intros x [->|Hx]%elem_of_cons; [lia|]. by apply Hmax.
  - subst l. split; [by left|]. intros x [->|Hx]%elem_of_cons; [lia|].
    by apply elem_of_nil in Hx.
Qed.

(** X27. The plan a renewal previews is never older than the plan bought.
    For a plan [p0] of the table, the query of [renew_subscription], by the
    name of [p0] up to its first [_v] and by its server, always finds a
    row; the row found is on that server, its name matches the pattern, and
    its version is the highest of all such rows, so at least the version of
    [p0]. *)
Theorem X27_latest_profile_is_newest (t : gmap Z Profile) (pid : Z) (p0 : Profile) :
  t !! pid = Some p0 →
  let pat := before_v (profile_name p0) +:+ "%" in
  ∃ l, user_features.latest_profile pat (profile_server_id p0) t = Some l ∧
       t !! l.1 = Some l.2 ∧
       profile_server_id l.2 = profile_server_id p0 ∧
       like pat (profile_name l.2) = true ∧
       profile_version p0 ≤ profile_version l.2 ∧
       ∀ k p, t !! k = Some p → profile_server_id p = profile_server_id p0 →
              like pat (profile_name p) = true →
              profile_version p ≤ profile_version l.2.
Proof.
  intros Hp pat. unfold user_features.latest_profile.
  pose proof (newest_first
                (filter (λ kv : Z * Profile,
                           like pat (profile_name kv.2) = true ∧
                           profile_server_id kv.2 = profile_server_id p0)
                        (map_to_list t))) as H.
  assert (∀ k p, t !! k = Some p → profile_server_id p = profile_server_id p0 →
                 like pat (profile_name p) = true →
                 (k, p) ∈ filter (λ kv : Z * Profile,
                                    like pat (profile_name kv.2) = true ∧
                                    profile_server_id kv.2 = profile_server_id p0)
                                 (map_to_list t)) as Hin.
  { intros k p Hk Hsrv Hlike. apply list_elem_of_filter. split; [done|].
    by apply elem_of_map_to_list. }
  destruct (foldr _ None _) as [l|].
  - destruct H as [Hl Hmax]. exists l. split; [done|].
    apply list_elem_of_filter in Hl as [[Hlike Hsrv] Hl].
    destruct l as [k p]. apply elem_of_map_to_list in Hl. simpl in *.
    split; [done|]. split; [done|]. split; [done|]. split.
    + apply (Hmax (pid, p0)). apply Hin; [done..|]. apply like_own_family.
    + intros k' p' Hk' Hs' Hl'. apply (Hmax (k', p')). by apply Hin.
  - specialize (Hin pid p0 Hp eq_refl (like_own_family _)).
    rewrite H in Hin. by apply elem_of_nil in Hin.
Qed.

Lemma X27_latest_profile_is_newest_witness :
  ∃ l, user_features.latest_profile "basic%" 1 (profiles Demo.db) = Some l ∧
       profile_version Demo.basic ≤ profile_version l.2.
Proof.
  destruct (X27_latest_profile_is_newest (profiles Demo.db) 1 Demo.basic eq_refl)
    as (l & H1 & _ & _ & _ & H2 & _).
  exists l. split; [exact H1|exact H2].
Defined.




Lemma select_first_found {A} (P : Z → A → bool) (t : gmap Z A) :
  select_first P t ≠ None ↔ ∃ k a, t !! k = Some a ∧ P k a = true.
Proof.
  split.
  - destruct (select_first P t) as [[k a]|] eqn:E; [|done]. intros _.
    exists k, a. by apply select_first_Some.
  - intros (k & a & Hk & HP) Hnone.
    by rewrite (select_first_None _ _ Hnone _ _ Hk) in HP.
Qed.

Lemma is_admin_in_table (tid : Z) (admins : gmap Z Admin) :
  admin_management.admin_by_telegram_id tid admins ≠ None ↔
  ∃ k a, admins !! k = Some a ∧ admin_telegram_id a = tid.
Proof.
  unfold admin_management.admin_by_telegram_id. rewrite select_first_found.
  split; intros (k & a & Hk & Ha); exists k, a; split; try done.
  - by apply bool_decide_eq_true in Ha.
  - by apply bool_decide_eq_true.
Qed.

(** X29. The table of admins. When the commit goes through, [add_admin]
    returns [True] exactly for an id the table does not hold, and the id is
    then an admin; adding it again is refused and changes nothing.
    [remove_admin] returns [True] whether or not the id was in the table;
    afterwards the id is an admin exactly when it is in [ADMIN_IDS], so an
    admin from the configuration cannot be removed, and every other id is
    an admin as before. When the commit raises, both return [False] and
    leave the table. *)
Theorem X29_admin_table (ADMIN_IDS : list Z) (admins : gmap Z Admin) (tid : Z)
    (uname : option string) (by_whom : option Z) :
  let added := admin_management.add_admin false tid uname by_whom admins in
  let removed := admin_management.remove_admin false tid admins in
  (added.1 = true ↔ admin_management.admin_by_telegram_id tid admins = None) ∧
  admin_management.is_user_admin ADMIN_IDS added.2 tid = true ∧
  admin_management.add_admin false tid uname by_whom added.2 = (false, added.2) ∧
  removed.1 = true ∧
  admin_management.is_user_admin ADMIN_IDS removed.2 tid =
    admin_management.is_super_admin ADMIN_IDS tid ∧
  (∀ other, other ≠ tid →
     admin_management.is_user_admin ADMIN_IDS removed.2 other =
     admin_management.is_user_admin ADMIN_IDS admins other) ∧
  admin_management.add_admin true tid uname by_whom admins = (false, admins) ∧
  admin_management.remove_admin true tid admins = (false, admins).
Proof.
  cbv zeta.
  assert (admin_management.admin_by_telegram_id tid
            (admin_management.add_admin false tid uname by_whom admins).2 ≠ None) as Hin.
  { unfold admin_management.add_admin.
    destruct (admin_management.admin_by_telegram_id tid admins) as [[k a]|] eqn:E.
    - simpl. by rewrite E.
    - simpl. apply is_admin_in_table. eexists _, _.
      split; [apply lookup_insert_eq|done]. }
  split; [|split; [|split; [|split; [|split; [|split; [|split]]]]]].
  - unfold admin_management.add_admin.
    by destruct (admin_management.admin_by_telegram_id tid admins).
  - unfold admin_management.is_user_admin. case_bool_decide; [done|].
    by apply bool_decide_eq_true.
  - unfold admin_management.add_admin at 1.
    by destruct (admin_management.admin_by_telegram_id tid _).
  - done.
  - unfold admin_management.is_user_admin, admin_management.is_super_admin.
    case_bool_decide; [done|]. apply bool_decide_eq_false. intros Hyes.
    apply is_admin_in_table in Hyes as (k & a & Hk & Ha).
    apply map_lookup_filter_Some in Hk as [_ Hne]. by apply Hne.
  - intros other Hne. unfold admin_management.is_user_admin.
    case_bool_decide; [done|]. apply bool_decide_ext.
    rewrite !is_admin_in_table. simpl.
    split; intros (k & a & Hk & Ha); exists k, a; (split; [|done]).
    + by apply map_lookup_filter_Some in Hk as [Hk _].
    + apply map_lookup_filter_Some. split; [done|]. simpl. congruence.
  - unfold admin_management.add_admin.
    by destruct (admin_management.admin_by_telegram_id tid admins).
  - done.
Qed.

Lemma broadcast_loop_counts outcome recipients c :
  match NotificationManager.broadcast_loop outcome recipients c with
  | Some c' =>
      bc_total c' = bc_total c ∧
      (bc_success c' + bc_blocked c' + bc_failed c' =
       bc_success c + bc_blocked c + bc_failed c + length recipients)%nat ∧
      (bc_success c ≤ bc_success c')%nat ∧ (bc_blocked c ≤ bc_blocked c')%nat ∧
      (bc_failed c ≤ bc_failed c')%nat ∧
      ∀ tid, tid ∈ recipients → outcome tid ≠ RaisesOther
  | None => ∃ tid, tid ∈ recipients ∧ outcome tid = RaisesOther
  end.
Proof.
  revert c. induction recipients as [|tid rest IH]; intros c.
  { simpl. repeat split; try lia. intros tid H. by apply elem_of_nil in H. }
  cbn [NotificationManager.broadcast_loop].
  destruct (outcome tid) as [| |[]| |] eqn:E;
    try (match goal with
         | |- context [ NotificationManager.broadcast_loop outcome rest ?c1 ] =>
             specialize (IH c1);
             destruct (NotificationManager.broadcast_loop outcome rest c1) as [c'|]
         end;
         [ destruct IH as (H1 & H2 & H3 & H4 & H5 & H6); simpl in *;
           repeat split; try lia;
           intros x [->|Hx]%elem_of_cons; [by rewrite E|by apply H6]
         | destruct IH as (x & Hx & Ho); exists x; split; [by right|done] ]).
  exists tid. split; [by left|done].
Qed.

(** X30. The counts of a broadcast. [broadcast_to_all] returns its counts
    exactly when no send raises an exception other than a [TelegramError];
    otherwise the exception leaves the loop and no count is returned. In
    the counts returned, [total] is the number of recipients and every
    recipient is counted once: success, blocked and failed add up to
    [total]. *)
Theorem X30_broadcast_counts (outcome : Z → send_outcome) (recipients : list Z) :
  match NotificationManager.broadcast_to_all outcome recipients with
  | Some c =>
      bc_total c = length recipients ∧
      (bc_success c + bc_blocked c + bc_failed c = bc_total c)%nat ∧
      ∀ tid, tid ∈ recipients → outcome tid ≠ RaisesOther
  | None => ∃ tid, tid ∈ recipients ∧ outcome tid = RaisesOther
  end.
Proof.
  unfold NotificationManager.broadcast_to_all.
  pose proof (broadcast_loop_counts outcome recipients
                (mkCounts (length recipients) 0 0 0)) as H.
  destruct (NotificationManager.broadcast_loop _ _ _) as [c|]; [|exact H].
  destruct H as (H1 & H2 & _ & _ & _ & H6). simpl in *.
  split; [done|]. split; [lia|done].
Qed.
